(** * Life-Coach agent: mood memory, recency bias and mood detection

    A shallow embedding of [Coach_app.py].  The program keeps a bounded
    history of detected moods in a JSON file, scores five mood categories
    from keyword hits, a sentiment value and a recency penalty, and answers a
    few chat commands.

    Modelling choices.
    - Python values read from the memory file are JSON values ([json]);
      dictionaries are association lists in insertion order.
    - Scores and the compound sentiment value are binary64 floats
      ([PrimFloat]), as in Python.
    - Text is held as its UTF-8 encoding; [str.strip] and [str.lower] are those
      of CPython 3.11, with the tables of Unicode 14.0.0.
    - The file system, the clock, the random generator and the chat transport
      form an explicit [world]; every function that touches them lives in the
      state-and-exception monad [M].
    - The third-party libraries (the [json] codec, the VADER analyzer,
      [datetime]'s ISO format, [random.shuffle]) are the fields of a
      [Library] record; what is assumed of them is stated where it is used. *)

From Stdlib Require Import List String Ascii Bool Arith ZArith NArith Lia.
From Stdlib Require Import Floats.
From Stdlib Require Import DecimalString DecimalZ DecimalPos.
From Stdlib Require Import Permutation.
Import ListNotations.

Set Warnings "-inexact-float,-register-all".
Local Open Scope string_scope.
Local Open Scope list_scope.

(** ** Python values and exceptions *)

Inductive exn : Set :=
| AttributeError
| TypeError
| KeyError
| IndexError
| ValueError
| OSError.

Inductive outcome (A : Type) : Type :=
| Return (a : A)
| Raise (e : exn).

Arguments Return {A} a.
Arguments Raise {A} e.

(** What [json.loads] can return (floats apart: the memory file holds none). *)
Inductive json : Type :=
| JNull
| JBool (b : bool)
| JNum (n : Z)
| JStr (s : string)
| JArr (items : list json)
| JObj (fields : list (string * json)).

(** *** Dictionaries: association lists in insertion order *)

Fixpoint dict_get {V : Type} (k : string) (d : list (string * V)) : option V :=
  match d with
  | [] => None
  | (k', v) :: rest => if String.eqb k k' then Some v else dict_get k rest
  end.

(** [d[k] = v]: an existing key keeps its place, a new key goes last. *)
Fixpoint dict_set {V : Type} (k : string) (v : V) (d : list (string * V))
  : list (string * V) :=
  match d with
  | [] => [(k, v)]
  | (k', v') :: rest =>
      if String.eqb k k' then (k, v) :: rest else (k', v') :: dict_set k v rest
  end.

Definition dict_keys {V : Type} (d : list (string * V)) : list string :=
  map fst d.

(** [o.get(k, default)]: only a dict has the method. *)
Definition py_get (o : json) (k : string) (default : json) : outcome json :=
  match o with
  | JObj d => Return (match dict_get k d with Some v => v | None => default end)
  | _ => Raise AttributeError
  end.

(** [o[k]] for a string [k]. *)
Definition py_getitem (o : json) (k : string) : outcome json :=
  match o with
  | JObj d => match dict_get k d with Some v => Return v | None => Raise KeyError end
  | _ => Raise TypeError
  end.

(** [o[k] = v] for a string [k]. *)
Definition py_setitem (o : json) (k : string) (v : json) : outcome json :=
  match o with
  | JObj d => Return (JObj (dict_set k v d))
  | _ => Raise TypeError
  end.

(** Iterating a value: a list gives its items, a string its characters, a
    dict its keys; nothing else is iterable. *)
Definition py_iter (o : json) : outcome (list json) :=
  match o with
  | JArr items => Return items
  | JStr s => Return (map (fun c => JStr (String c EmptyString)) (list_ascii_of_string s))
  | JObj d => Return (map JStr (dict_keys d))
  | _ => Raise TypeError
  end.

(** [v == s] for a string [s]. *)
Definition py_eq_str (v : json) (s : string) : bool :=
  match v with
  | JStr s' => String.eqb s' s
  | _ => false
  end.

(** *** [collections.deque] with a [maxlen] *)

Definition lastn {A : Type} (n : nat) (l : list A) : list A :=
  skipn (List.length l - n) l.

Record deque : Type := mkDeque { maxlen : nat; dq_items : list json }.

Definition deque_new (items : list json) (n : nat) : deque :=
  mkDeque n (lastn n items).

Definition deque_append (d : deque) (x : json) : deque :=
  mkDeque (maxlen d) (lastn (maxlen d) (dq_items d ++ [x])).

(** *** Strings

    A Python string is held as its UTF-8 encoding, the form in which the
    program writes it to its files.  [str.strip] and [str.lower] work on
    the code points; they are those of CPython 3.11, whose tables are the
    ones of Unicode 14.0.0. *)

Definition byte (n : N) : string := String (ascii_of_N n) EmptyString.

Definition continuation (b : N) : bool := ((0x80 <=? b) && (b <=? 0xBF))%N.

(** The code points of a UTF-8 text.  A byte that starts no well-formed
    sequence stands for itself, as the code point [0xDC00 + byte]. *)
Fixpoint decode (s : string) : list N :=
  match s with
  | EmptyString => []
  | String a0 r0 =>
      let b0 := N_of_ascii a0 in
      if (b0 <? 0x80)%N then b0 :: decode r0
      else
        let raw := (0xDC00 + b0)%N :: decode r0 in
        match r0 with
        | EmptyString => raw
        | String a1 r1 =>
            let b1 := N_of_ascii a1 in
            if ((0xC2 <=? b0) && (b0 <=? 0xDF))%N then
              if continuation b1
              then ((b0 - 0xC0) * 64 + (b1 - 0x80))%N :: decode r1
              else raw
            else
              match r1 with
              | EmptyString => raw
              | String a2 r2 =>
                  let b2 := N_of_ascii a2 in
                  if ((0xE0 <=? b0) && (b0 <=? 0xEF))%N then
                    let c := ((b0 - 0xE0) * 4096 + (b1 - 0x80) * 64 + (b2 - 0x80))%N in
                    if continuation b1 && continuation b2 && (0x800 <=? c)%N
                       && negb ((0xD800 <=? c) && (c <=? 0xDFFF))%N
                    then c :: decode r2
                    else raw
                  else
                    match r2 with
                    | EmptyString => raw
                    | String a3 r3 =>
                        let b3 := N_of_ascii a3 in
                        let c := ((b0 - 0xF0) * 262144 + (b1 - 0x80) * 4096
                                  + (b2 - 0x80) * 64 + (b3 - 0x80))%N in
                        if ((0xF0 <=? b0) && (b0 <=? 0xF4))%N
                           && continuation b1 && continuation b2 && continuation b3
                           && (0x10000 <=? c)%N && (c <=? 0x10FFFF)%N
                        then c :: decode r3
                        else raw
                    end
              end
        end
  end.

(** The UTF-8 bytes of a code point. *)
Definition encode_point (c : N) : string :=
  if (c <? 0x80)%N then byte c
  else if (c <? 0x800)%N then byte (0xC0 + c / 64) ++ byte (0x80 + c mod 64)
  else if ((0xDC80 <=? c) && (c <=? 0xDCFF))%N then byte (c - 0xDC00)
  else if (c <? 0x10000)%N then
    byte (0xE0 + c / 4096) ++ byte (0x80 + (c / 64) mod 64) ++ byte (0x80 + c mod 64)
  else
    byte (0xF0 + (c / 262144) mod 8) ++ byte (0x80 + (c / 4096) mod 64)
    ++ byte (0x80 + (c / 64) mod 64) ++ byte (0x80 + c mod 64).

Fixpoint encode (points : list N) : string :=
  match points with
  | [] => EmptyString
  | c :: rest => encode_point c ++ encode rest
  end.

(** The white space of [str.strip]: the code points [str.isspace] holds of. *)
Definition WHITESPACE : list N :=
  [ 0x9; 0xA; 0xB; 0xC; 0xD; 0x1C; 0x1D; 0x1E; 0x1F; 0x20; 0x85; 0xA0; 0x1680;
    0x2000; 0x2001; 0x2002; 0x2003; 0x2004; 0x2005; 0x2006; 0x2007; 0x2008;
    0x2009; 0x200A; 0x2028; 0x2029; 0x202F; 0x205F; 0x3000 ]%N.

Definition is_space (c : N) : bool := existsb (N.eqb c) WHITESPACE.

Fixpoint lstrip (points : list N) : list N :=
  match points with
  | [] => []
  | c :: rest => if is_space c then lstrip rest else points
  end.

Definition rstrip (points : list N) : list N := rev (lstrip (rev points)).

(** [s.strip()] *)
Definition strip (s : string) : string := encode (rstrip (lstrip (decode s))).

(** The simple lowercase mappings of Unicode 14.0.0, in runs: the code points
    [first], [first + step], ... up to [last] map to [target],
    [target + step], ... *)
Definition LOWERCASE : list (N * N * N * N) :=
  [
    (0x41, 0x5A, 1, 0x61); (0xC0, 0xD6, 1, 0xE0); (0xD8, 0xDE, 1, 0xF8);
    (0x100, 0x12E, 2, 0x101); (0x132, 0x136, 2, 0x133); (0x139, 0x147, 2, 0x13A);
    (0x14A, 0x176, 2, 0x14B); (0x178, 0x178, 1, 0xFF); (0x179, 0x17D, 2, 0x17A);
    (0x181, 0x181, 1, 0x253); (0x182, 0x184, 2, 0x183); (0x186, 0x186, 1, 0x254);
    (0x187, 0x187, 1, 0x188); (0x189, 0x18A, 1, 0x256); (0x18B, 0x18B, 1, 0x18C);
    (0x18E, 0x18E, 1, 0x1DD); (0x18F, 0x18F, 1, 0x259); (0x190, 0x190, 1, 0x25B);
    (0x191, 0x191, 1, 0x192); (0x193, 0x193, 1, 0x260); (0x194, 0x194, 1, 0x263);
    (0x196, 0x196, 1, 0x269); (0x197, 0x197, 1, 0x268); (0x198, 0x198, 1, 0x199);
    (0x19C, 0x19C, 1, 0x26F); (0x19D, 0x19D, 1, 0x272); (0x19F, 0x19F, 1, 0x275);
    (0x1A0, 0x1A4, 2, 0x1A1); (0x1A6, 0x1A6, 1, 0x280); (0x1A7, 0x1A7, 1, 0x1A8);
    (0x1A9, 0x1A9, 1, 0x283); (0x1AC, 0x1AC, 1, 0x1AD); (0x1AE, 0x1AE, 1, 0x288);
    (0x1AF, 0x1AF, 1, 0x1B0); (0x1B1, 0x1B2, 1, 0x28A); (0x1B3, 0x1B5, 2, 0x1B4);
    (0x1B7, 0x1B7, 1, 0x292); (0x1B8, 0x1B8, 1, 0x1B9); (0x1BC, 0x1BC, 1, 0x1BD);
    (0x1C4, 0x1C4, 1, 0x1C6); (0x1C5, 0x1C5, 1, 0x1C6); (0x1C7, 0x1C7, 1, 0x1C9);
    (0x1C8, 0x1C8, 1, 0x1C9); (0x1CA, 0x1CA, 1, 0x1CC); (0x1CB, 0x1DB, 2, 0x1CC);
    (0x1DE, 0x1EE, 2, 0x1DF); (0x1F1, 0x1F1, 1, 0x1F3); (0x1F2, 0x1F4, 2, 0x1F3);
    (0x1F6, 0x1F6, 1, 0x195); (0x1F7, 0x1F7, 1, 0x1BF); (0x1F8, 0x21E, 2, 0x1F9);
    (0x220, 0x220, 1, 0x19E); (0x222, 0x232, 2, 0x223); (0x23A, 0x23A, 1, 0x2C65);
    (0x23B, 0x23B, 1, 0x23C); (0x23D, 0x23D, 1, 0x19A); (0x23E, 0x23E, 1, 0x2C66);
    (0x241, 0x241, 1, 0x242); (0x243, 0x243, 1, 0x180); (0x244, 0x244, 1, 0x289);
    (0x245, 0x245, 1, 0x28C); (0x246, 0x24E, 2, 0x247); (0x370, 0x372, 2, 0x371);
    (0x376, 0x376, 1, 0x377); (0x37F, 0x37F, 1, 0x3F3); (0x386, 0x386, 1, 0x3AC);
    (0x388, 0x38A, 1, 0x3AD); (0x38C, 0x38C, 1, 0x3CC); (0x38E, 0x38F, 1, 0x3CD);
    (0x391, 0x3A1, 1, 0x3B1); (0x3A3, 0x3AB, 1, 0x3C3); (0x3CF, 0x3CF, 1, 0x3D7);
    (0x3D8, 0x3EE, 2, 0x3D9); (0x3F4, 0x3F4, 1, 0x3B8); (0x3F7, 0x3F7, 1, 0x3F8);
    (0x3F9, 0x3F9, 1, 0x3F2); (0x3FA, 0x3FA, 1, 0x3FB); (0x3FD, 0x3FF, 1, 0x37B);
    (0x400, 0x40F, 1, 0x450); (0x410, 0x42F, 1, 0x430); (0x460, 0x480, 2, 0x461);
    (0x48A, 0x4BE, 2, 0x48B); (0x4C0, 0x4C0, 1, 0x4CF); (0x4C1, 0x4CD, 2, 0x4C2);
    (0x4D0, 0x52E, 2, 0x4D1); (0x531, 0x556, 1, 0x561); (0x10A0, 0x10C5, 1, 0x2D00);
    (0x10C7, 0x10C7, 1, 0x2D27); (0x10CD, 0x10CD, 1, 0x2D2D); (0x13A0, 0x13EF, 1, 0xAB70);
    (0x13F0, 0x13F5, 1, 0x13F8); (0x1C90, 0x1CBA, 1, 0x10D0); (0x1CBD, 0x1CBF, 1, 0x10FD);
    (0x1E00, 0x1E94, 2, 0x1E01); (0x1E9E, 0x1E9E, 1, 0xDF); (0x1EA0, 0x1EFE, 2, 0x1EA1);
    (0x1F08, 0x1F0F, 1, 0x1F00); (0x1F18, 0x1F1D, 1, 0x1F10); (0x1F28, 0x1F2F, 1, 0x1F20);
    (0x1F38, 0x1F3F, 1, 0x1F30); (0x1F48, 0x1F4D, 1, 0x1F40); (0x1F59, 0x1F5F, 2, 0x1F51);
    (0x1F68, 0x1F6F, 1, 0x1F60); (0x1F88, 0x1F8F, 1, 0x1F80); (0x1F98, 0x1F9F, 1, 0x1F90);
    (0x1FA8, 0x1FAF, 1, 0x1FA0); (0x1FB8, 0x1FB9, 1, 0x1FB0); (0x1FBA, 0x1FBB, 1, 0x1F70);
    (0x1FBC, 0x1FBC, 1, 0x1FB3); (0x1FC8, 0x1FCB, 1, 0x1F72); (0x1FCC, 0x1FCC, 1, 0x1FC3);
    (0x1FD8, 0x1FD9, 1, 0x1FD0); (0x1FDA, 0x1FDB, 1, 0x1F76); (0x1FE8, 0x1FE9, 1, 0x1FE0);
    (0x1FEA, 0x1FEB, 1, 0x1F7A); (0x1FEC, 0x1FEC, 1, 0x1FE5); (0x1FF8, 0x1FF9, 1, 0x1F78);
    (0x1FFA, 0x1FFB, 1, 0x1F7C); (0x1FFC, 0x1FFC, 1, 0x1FF3); (0x2126, 0x2126, 1, 0x3C9);
    (0x212A, 0x212A, 1, 0x6B); (0x212B, 0x212B, 1, 0xE5); (0x2132, 0x2132, 1, 0x214E);
    (0x2160, 0x216F, 1, 0x2170); (0x2183, 0x2183, 1, 0x2184); (0x24B6, 0x24CF, 1, 0x24D0);
    (0x2C00, 0x2C2F, 1, 0x2C30); (0x2C60, 0x2C60, 1, 0x2C61); (0x2C62, 0x2C62, 1, 0x26B);
    (0x2C63, 0x2C63, 1, 0x1D7D); (0x2C64, 0x2C64, 1, 0x27D); (0x2C67, 0x2C6B, 2, 0x2C68);
    (0x2C6D, 0x2C6D, 1, 0x251); (0x2C6E, 0x2C6E, 1, 0x271); (0x2C6F, 0x2C6F, 1, 0x250);
    (0x2C70, 0x2C70, 1, 0x252); (0x2C72, 0x2C72, 1, 0x2C73); (0x2C75, 0x2C75, 1, 0x2C76);
    (0x2C7E, 0x2C7F, 1, 0x23F); (0x2C80, 0x2CE2, 2, 0x2C81); (0x2CEB, 0x2CED, 2, 0x2CEC);
    (0x2CF2, 0x2CF2, 1, 0x2CF3); (0xA640, 0xA66C, 2, 0xA641); (0xA680, 0xA69A, 2, 0xA681);
    (0xA722, 0xA72E, 2, 0xA723); (0xA732, 0xA76E, 2, 0xA733); (0xA779, 0xA77B, 2, 0xA77A);
    (0xA77D, 0xA77D, 1, 0x1D79); (0xA77E, 0xA786, 2, 0xA77F); (0xA78B, 0xA78B, 1, 0xA78C);
    (0xA78D, 0xA78D, 1, 0x265); (0xA790, 0xA792, 2, 0xA791); (0xA796, 0xA7A8, 2, 0xA797);
    (0xA7AA, 0xA7AA, 1, 0x266); (0xA7AB, 0xA7AB, 1, 0x25C); (0xA7AC, 0xA7AC, 1, 0x261);
    (0xA7AD, 0xA7AD, 1, 0x26C); (0xA7AE, 0xA7AE, 1, 0x26A); (0xA7B0, 0xA7B0, 1, 0x29E);
    (0xA7B1, 0xA7B1, 1, 0x287); (0xA7B2, 0xA7B2, 1, 0x29D); (0xA7B3, 0xA7B3, 1, 0xAB53);
    (0xA7B4, 0xA7C2, 2, 0xA7B5); (0xA7C4, 0xA7C4, 1, 0xA794); (0xA7C5, 0xA7C5, 1, 0x282);
    (0xA7C6, 0xA7C6, 1, 0x1D8E); (0xA7C7, 0xA7C9, 2, 0xA7C8); (0xA7D0, 0xA7D0, 1, 0xA7D1);
    (0xA7D6, 0xA7D8, 2, 0xA7D7); (0xA7F5, 0xA7F5, 1, 0xA7F6); (0xFF21, 0xFF3A, 1, 0xFF41);
    (0x10400, 0x10427, 1, 0x10428); (0x104B0, 0x104D3, 1, 0x104D8); (0x10570, 0x1057A, 1, 0x10597);
    (0x1057C, 0x1058A, 1, 0x105A3); (0x1058C, 0x10592, 1, 0x105B3); (0x10594, 0x10595, 1, 0x105BB);
    (0x10C80, 0x10CB2, 1, 0x10CC0); (0x118A0, 0x118BF, 1, 0x118C0); (0x16E40, 0x16E5F, 1, 0x16E60);
    (0x1E900, 0x1E921, 1, 0x1E922) ]%N.

(** The cased code points (Lowercase, Uppercase or titlecase letters), as
    ranges. *)
Definition CASED : list (N * N) :=
  [
    (0x41, 0x5A); (0x61, 0x7A); (0xAA, 0xAA); (0xB5, 0xB5); (0xBA, 0xBA);
    (0xC0, 0xD6); (0xD8, 0xF6); (0xF8, 0x1BA); (0x1BC, 0x1BF); (0x1C4, 0x293);
    (0x295, 0x2B8); (0x2C0, 0x2C1); (0x2E0, 0x2E4); (0x345, 0x345); (0x370, 0x373);
    (0x376, 0x377); (0x37A, 0x37D); (0x37F, 0x37F); (0x386, 0x386); (0x388, 0x38A);
    (0x38C, 0x38C); (0x38E, 0x3A1); (0x3A3, 0x3F5); (0x3F7, 0x481); (0x48A, 0x52F);
    (0x531, 0x556); (0x560, 0x588); (0x10A0, 0x10C5); (0x10C7, 0x10C7); (0x10CD, 0x10CD);
    (0x10D0, 0x10FA); (0x10FD, 0x10FF); (0x13A0, 0x13F5); (0x13F8, 0x13FD); (0x1C80, 0x1C88);
    (0x1C90, 0x1CBA); (0x1CBD, 0x1CBF); (0x1D00, 0x1DBF); (0x1E00, 0x1F15); (0x1F18, 0x1F1D);
    (0x1F20, 0x1F45); (0x1F48, 0x1F4D); (0x1F50, 0x1F57); (0x1F59, 0x1F59); (0x1F5B, 0x1F5B);
    (0x1F5D, 0x1F5D); (0x1F5F, 0x1F7D); (0x1F80, 0x1FB4); (0x1FB6, 0x1FBC); (0x1FBE, 0x1FBE);
    (0x1FC2, 0x1FC4); (0x1FC6, 0x1FCC); (0x1FD0, 0x1FD3); (0x1FD6, 0x1FDB); (0x1FE0, 0x1FEC);
    (0x1FF2, 0x1FF4); (0x1FF6, 0x1FFC); (0x2071, 0x2071); (0x207F, 0x207F); (0x2090, 0x209C);
    (0x2102, 0x2102); (0x2107, 0x2107); (0x210A, 0x2113); (0x2115, 0x2115); (0x2119, 0x211D);
    (0x2124, 0x2124); (0x2126, 0x2126); (0x2128, 0x2128); (0x212A, 0x212D); (0x212F, 0x2134);
    (0x2139, 0x2139); (0x213C, 0x213F); (0x2145, 0x2149); (0x214E, 0x214E); (0x2160, 0x217F);
    (0x2183, 0x2184); (0x24B6, 0x24E9); (0x2C00, 0x2CE4); (0x2CEB, 0x2CEE); (0x2CF2, 0x2CF3);
    (0x2D00, 0x2D25); (0x2D27, 0x2D27); (0x2D2D, 0x2D2D); (0xA640, 0xA66D); (0xA680, 0xA69D);
    (0xA722, 0xA787); (0xA78B, 0xA78E); (0xA790, 0xA7CA); (0xA7D0, 0xA7D1); (0xA7D3, 0xA7D3);
    (0xA7D5, 0xA7D9); (0xA7F5, 0xA7F6); (0xA7F8, 0xA7FA); (0xAB30, 0xAB5A); (0xAB5C, 0xAB68);
    (0xAB70, 0xABBF); (0xFB00, 0xFB06); (0xFB13, 0xFB17); (0xFF21, 0xFF3A); (0xFF41, 0xFF5A);
    (0x10400, 0x1044F); (0x104B0, 0x104D3); (0x104D8, 0x104FB); (0x10570, 0x1057A); (0x1057C, 0x1058A);
    (0x1058C, 0x10592); (0x10594, 0x10595); (0x10597, 0x105A1); (0x105A3, 0x105B1); (0x105B3, 0x105B9);
    (0x105BB, 0x105BC); (0x10780, 0x10780); (0x10783, 0x10785); (0x10787, 0x107B0); (0x107B2, 0x107BA);
    (0x10C80, 0x10CB2); (0x10CC0, 0x10CF2); (0x118A0, 0x118DF); (0x16E40, 0x16E7F); (0x1D400, 0x1D454);
    (0x1D456, 0x1D49C); (0x1D49E, 0x1D49F); (0x1D4A2, 0x1D4A2); (0x1D4A5, 0x1D4A6); (0x1D4A9, 0x1D4AC);
    (0x1D4AE, 0x1D4B9); (0x1D4BB, 0x1D4BB); (0x1D4BD, 0x1D4C3); (0x1D4C5, 0x1D505); (0x1D507, 0x1D50A);
    (0x1D50D, 0x1D514); (0x1D516, 0x1D51C); (0x1D51E, 0x1D539); (0x1D53B, 0x1D53E); (0x1D540, 0x1D544);
    (0x1D546, 0x1D546); (0x1D54A, 0x1D550); (0x1D552, 0x1D6A5); (0x1D6A8, 0x1D6C0); (0x1D6C2, 0x1D6DA);
    (0x1D6DC, 0x1D6FA); (0x1D6FC, 0x1D714); (0x1D716, 0x1D734); (0x1D736, 0x1D74E); (0x1D750, 0x1D76E);
    (0x1D770, 0x1D788); (0x1D78A, 0x1D7A8); (0x1D7AA, 0x1D7C2); (0x1D7C4, 0x1D7CB); (0x1DF00, 0x1DF09);
    (0x1DF0B, 0x1DF1E); (0x1E900, 0x1E943); (0x1F130, 0x1F149); (0x1F150, 0x1F169); (0x1F170, 0x1F189) ]%N.

(** The case-ignorable code points, as ranges. *)
Definition CASE_IGNORABLE : list (N * N) :=
  [
    (0x27, 0x27); (0x2E, 0x2E); (0x3A, 0x3A); (0x5E, 0x5E); (0x60, 0x60);
    (0xA8, 0xA8); (0xAD, 0xAD); (0xAF, 0xAF); (0xB4, 0xB4); (0xB7, 0xB8);
    (0x2B0, 0x36F); (0x374, 0x375); (0x37A, 0x37A); (0x384, 0x385); (0x387, 0x387);
    (0x483, 0x489); (0x559, 0x559); (0x55F, 0x55F); (0x591, 0x5BD); (0x5BF, 0x5BF);
    (0x5C1, 0x5C2); (0x5C4, 0x5C5); (0x5C7, 0x5C7); (0x5F4, 0x5F4); (0x600, 0x605);
    (0x610, 0x61A); (0x61C, 0x61C); (0x640, 0x640); (0x64B, 0x65F); (0x670, 0x670);
    (0x6D6, 0x6DD); (0x6DF, 0x6E8); (0x6EA, 0x6ED); (0x70F, 0x70F); (0x711, 0x711);
    (0x730, 0x74A); (0x7A6, 0x7B0); (0x7EB, 0x7F5); (0x7FA, 0x7FA); (0x7FD, 0x7FD);
    (0x816, 0x82D); (0x859, 0x85B); (0x888, 0x888); (0x890, 0x891); (0x898, 0x89F);
    (0x8C9, 0x902); (0x93A, 0x93A); (0x93C, 0x93C); (0x941, 0x948); (0x94D, 0x94D);
    (0x951, 0x957); (0x962, 0x963); (0x971, 0x971); (0x981, 0x981); (0x9BC, 0x9BC);
    (0x9C1, 0x9C4); (0x9CD, 0x9CD); (0x9E2, 0x9E3); (0x9FE, 0x9FE); (0xA01, 0xA02);
    (0xA3C, 0xA3C); (0xA41, 0xA42); (0xA47, 0xA48); (0xA4B, 0xA4D); (0xA51, 0xA51);
    (0xA70, 0xA71); (0xA75, 0xA75); (0xA81, 0xA82); (0xABC, 0xABC); (0xAC1, 0xAC5);
    (0xAC7, 0xAC8); (0xACD, 0xACD); (0xAE2, 0xAE3); (0xAFA, 0xAFF); (0xB01, 0xB01);
    (0xB3C, 0xB3C); (0xB3F, 0xB3F); (0xB41, 0xB44); (0xB4D, 0xB4D); (0xB55, 0xB56);
    (0xB62, 0xB63); (0xB82, 0xB82); (0xBC0, 0xBC0); (0xBCD, 0xBCD); (0xC00, 0xC00);
    (0xC04, 0xC04); (0xC3C, 0xC3C); (0xC3E, 0xC40); (0xC46, 0xC48); (0xC4A, 0xC4D);
    (0xC55, 0xC56); (0xC62, 0xC63); (0xC81, 0xC81); (0xCBC, 0xCBC); (0xCBF, 0xCBF);
    (0xCC6, 0xCC6); (0xCCC, 0xCCD); (0xCE2, 0xCE3); (0xD00, 0xD01); (0xD3B, 0xD3C);
    (0xD41, 0xD44); (0xD4D, 0xD4D); (0xD62, 0xD63); (0xD81, 0xD81); (0xDCA, 0xDCA);
    (0xDD2, 0xDD4); (0xDD6, 0xDD6); (0xE31, 0xE31); (0xE34, 0xE3A); (0xE46, 0xE4E);
    (0xEB1, 0xEB1); (0xEB4, 0xEBC); (0xEC6, 0xEC6); (0xEC8, 0xECD); (0xF18, 0xF19);
    (0xF35, 0xF35); (0xF37, 0xF37); (0xF39, 0xF39); (0xF71, 0xF7E); (0xF80, 0xF84);
    (0xF86, 0xF87); (0xF8D, 0xF97); (0xF99, 0xFBC); (0xFC6, 0xFC6); (0x102D, 0x1030);
    (0x1032, 0x1037); (0x1039, 0x103A); (0x103D, 0x103E); (0x1058, 0x1059); (0x105E, 0x1060);
    (0x1071, 0x1074); (0x1082, 0x1082); (0x1085, 0x1086); (0x108D, 0x108D); (0x109D, 0x109D);
    (0x10FC, 0x10FC); (0x135D, 0x135F); (0x1712, 0x1714); (0x1732, 0x1733); (0x1752, 0x1753);
    (0x1772, 0x1773); (0x17B4, 0x17B5); (0x17B7, 0x17BD); (0x17C6, 0x17C6); (0x17C9, 0x17D3);
    (0x17D7, 0x17D7); (0x17DD, 0x17DD); (0x180B, 0x180F); (0x1843, 0x1843); (0x1885, 0x1886);
    (0x18A9, 0x18A9); (0x1920, 0x1922); (0x1927, 0x1928); (0x1932, 0x1932); (0x1939, 0x193B);
    (0x1A17, 0x1A18); (0x1A1B, 0x1A1B); (0x1A56, 0x1A56); (0x1A58, 0x1A5E); (0x1A60, 0x1A60);
    (0x1A62, 0x1A62); (0x1A65, 0x1A6C); (0x1A73, 0x1A7C); (0x1A7F, 0x1A7F); (0x1AA7, 0x1AA7);
    (0x1AB0, 0x1ACE); (0x1B00, 0x1B03); (0x1B34, 0x1B34); (0x1B36, 0x1B3A); (0x1B3C, 0x1B3C);
    (0x1B42, 0x1B42); (0x1B6B, 0x1B73); (0x1B80, 0x1B81); (0x1BA2, 0x1BA5); (0x1BA8, 0x1BA9);
    (0x1BAB, 0x1BAD); (0x1BE6, 0x1BE6); (0x1BE8, 0x1BE9); (0x1BED, 0x1BED); (0x1BEF, 0x1BF1);
    (0x1C2C, 0x1C33); (0x1C36, 0x1C37); (0x1C78, 0x1C7D); (0x1CD0, 0x1CD2); (0x1CD4, 0x1CE0);
    (0x1CE2, 0x1CE8); (0x1CED, 0x1CED); (0x1CF4, 0x1CF4); (0x1CF8, 0x1CF9); (0x1D2C, 0x1D6A);
    (0x1D78, 0x1D78); (0x1D9B, 0x1DFF); (0x1FBD, 0x1FBD); (0x1FBF, 0x1FC1); (0x1FCD, 0x1FCF);
    (0x1FDD, 0x1FDF); (0x1FED, 0x1FEF); (0x1FFD, 0x1FFE); (0x200B, 0x200F); (0x2018, 0x2019);
    (0x2024, 0x2024); (0x2027, 0x2027); (0x202A, 0x202E); (0x2060, 0x2064); (0x2066, 0x206F);
    (0x2071, 0x2071); (0x207F, 0x207F); (0x2090, 0x209C); (0x20D0, 0x20F0); (0x2C7C, 0x2C7D);
    (0x2CEF, 0x2CF1); (0x2D6F, 0x2D6F); (0x2D7F, 0x2D7F); (0x2DE0, 0x2DFF); (0x2E2F, 0x2E2F);
    (0x3005, 0x3005); (0x302A, 0x302D); (0x3031, 0x3035); (0x303B, 0x303B); (0x3099, 0x309E);
    (0x30FC, 0x30FE); (0xA015, 0xA015); (0xA4F8, 0xA4FD); (0xA60C, 0xA60C); (0xA66F, 0xA672);
    (0xA674, 0xA67D); (0xA67F, 0xA67F); (0xA69C, 0xA69F); (0xA6F0, 0xA6F1); (0xA700, 0xA721);
    (0xA770, 0xA770); (0xA788, 0xA78A); (0xA7F2, 0xA7F4); (0xA7F8, 0xA7F9); (0xA802, 0xA802);
    (0xA806, 0xA806); (0xA80B, 0xA80B); (0xA825, 0xA826); (0xA82C, 0xA82C); (0xA8C4, 0xA8C5);
    (0xA8E0, 0xA8F1); (0xA8FF, 0xA8FF); (0xA926, 0xA92D); (0xA947, 0xA951); (0xA980, 0xA982);
    (0xA9B3, 0xA9B3); (0xA9B6, 0xA9B9); (0xA9BC, 0xA9BD); (0xA9CF, 0xA9CF); (0xA9E5, 0xA9E6);
    (0xAA29, 0xAA2E); (0xAA31, 0xAA32); (0xAA35, 0xAA36); (0xAA43, 0xAA43); (0xAA4C, 0xAA4C);
    (0xAA70, 0xAA70); (0xAA7C, 0xAA7C); (0xAAB0, 0xAAB0); (0xAAB2, 0xAAB4); (0xAAB7, 0xAAB8);
    (0xAABE, 0xAABF); (0xAAC1, 0xAAC1); (0xAADD, 0xAADD); (0xAAEC, 0xAAED); (0xAAF3, 0xAAF4);
    (0xAAF6, 0xAAF6); (0xAB5B, 0xAB5F); (0xAB69, 0xAB6B); (0xABE5, 0xABE5); (0xABE8, 0xABE8);
    (0xABED, 0xABED); (0xFB1E, 0xFB1E); (0xFBB2, 0xFBC2); (0xFE00, 0xFE0F); (0xFE13, 0xFE13);
    (0xFE20, 0xFE2F); (0xFE52, 0xFE52); (0xFE55, 0xFE55); (0xFEFF, 0xFEFF); (0xFF07, 0xFF07);
    (0xFF0E, 0xFF0E); (0xFF1A, 0xFF1A); (0xFF3E, 0xFF3E); (0xFF40, 0xFF40); (0xFF70, 0xFF70);
    (0xFF9E, 0xFF9F); (0xFFE3, 0xFFE3); (0xFFF9, 0xFFFB); (0x101FD, 0x101FD); (0x102E0, 0x102E0);
    (0x10376, 0x1037A); (0x10780, 0x10785); (0x10787, 0x107B0); (0x107B2, 0x107BA); (0x10A01, 0x10A03);
    (0x10A05, 0x10A06); (0x10A0C, 0x10A0F); (0x10A38, 0x10A3A); (0x10A3F, 0x10A3F); (0x10AE5, 0x10AE6);
    (0x10D24, 0x10D27); (0x10EAB, 0x10EAC); (0x10F46, 0x10F50); (0x10F82, 0x10F85); (0x11001, 0x11001);
    (0x11038, 0x11046); (0x11070, 0x11070); (0x11073, 0x11074); (0x1107F, 0x11081); (0x110B3, 0x110B6);
    (0x110B9, 0x110BA); (0x110BD, 0x110BD); (0x110C2, 0x110C2); (0x110CD, 0x110CD); (0x11100, 0x11102);
    (0x11127, 0x1112B); (0x1112D, 0x11134); (0x11173, 0x11173); (0x11180, 0x11181); (0x111B6, 0x111BE);
    (0x111C9, 0x111CC); (0x111CF, 0x111CF); (0x1122F, 0x11231); (0x11234, 0x11234); (0x11236, 0x11237);
    (0x1123E, 0x1123E); (0x112DF, 0x112DF); (0x112E3, 0x112EA); (0x11300, 0x11301); (0x1133B, 0x1133C);
    (0x11340, 0x11340); (0x11366, 0x1136C); (0x11370, 0x11374); (0x11438, 0x1143F); (0x11442, 0x11444);
    (0x11446, 0x11446); (0x1145E, 0x1145E); (0x114B3, 0x114B8); (0x114BA, 0x114BA); (0x114BF, 0x114C0);
    (0x114C2, 0x114C3); (0x115B2, 0x115B5); (0x115BC, 0x115BD); (0x115BF, 0x115C0); (0x115DC, 0x115DD);
    (0x11633, 0x1163A); (0x1163D, 0x1163D); (0x1163F, 0x11640); (0x116AB, 0x116AB); (0x116AD, 0x116AD);
    (0x116B0, 0x116B5); (0x116B7, 0x116B7); (0x1171D, 0x1171F); (0x11722, 0x11725); (0x11727, 0x1172B);
    (0x1182F, 0x11837); (0x11839, 0x1183A); (0x1193B, 0x1193C); (0x1193E, 0x1193E); (0x11943, 0x11943);
    (0x119D4, 0x119D7); (0x119DA, 0x119DB); (0x119E0, 0x119E0); (0x11A01, 0x11A0A); (0x11A33, 0x11A38);
    (0x11A3B, 0x11A3E); (0x11A47, 0x11A47); (0x11A51, 0x11A56); (0x11A59, 0x11A5B); (0x11A8A, 0x11A96);
    (0x11A98, 0x11A99); (0x11C30, 0x11C36); (0x11C38, 0x11C3D); (0x11C3F, 0x11C3F); (0x11C92, 0x11CA7);
    (0x11CAA, 0x11CB0); (0x11CB2, 0x11CB3); (0x11CB5, 0x11CB6); (0x11D31, 0x11D36); (0x11D3A, 0x11D3A);
    (0x11D3C, 0x11D3D); (0x11D3F, 0x11D45); (0x11D47, 0x11D47); (0x11D90, 0x11D91); (0x11D95, 0x11D95);
    (0x11D97, 0x11D97); (0x11EF3, 0x11EF4); (0x13430, 0x13438); (0x16AF0, 0x16AF4); (0x16B30, 0x16B36);
    (0x16B40, 0x16B43); (0x16F4F, 0x16F4F); (0x16F8F, 0x16F9F); (0x16FE0, 0x16FE1); (0x16FE3, 0x16FE4);
    (0x1AFF0, 0x1AFF3); (0x1AFF5, 0x1AFFB); (0x1AFFD, 0x1AFFE); (0x1BC9D, 0x1BC9E); (0x1BCA0, 0x1BCA3);
    (0x1CF00, 0x1CF2D); (0x1CF30, 0x1CF46); (0x1D167, 0x1D169); (0x1D173, 0x1D182); (0x1D185, 0x1D18B);
    (0x1D1AA, 0x1D1AD); (0x1D242, 0x1D244); (0x1DA00, 0x1DA36); (0x1DA3B, 0x1DA6C); (0x1DA75, 0x1DA75);
    (0x1DA84, 0x1DA84); (0x1DA9B, 0x1DA9F); (0x1DAA1, 0x1DAAF); (0x1E000, 0x1E006); (0x1E008, 0x1E018);
    (0x1E01B, 0x1E021); (0x1E023, 0x1E024); (0x1E026, 0x1E02A); (0x1E130, 0x1E13D); (0x1E2AE, 0x1E2AE);
    (0x1E2EC, 0x1E2EF); (0x1E8D0, 0x1E8D6); (0x1E944, 0x1E94B); (0x1F3FB, 0x1F3FF); (0xE0001, 0xE0001);
    (0xE0020, 0xE007F); (0xE0100, 0xE01EF) ]%N.
Fixpoint lookup_lower (runs : list (N * N * N * N)) (c : N) : N :=
  match runs with
  | [] => c
  | (first, last, step, target) :: rest =>
      if ((first <=? c) && (c <=? last) && ((c - first) mod step =? 0))%N
      then (target + (c - first))%N
      else lookup_lower rest c
  end.

Definition in_ranges (ranges : list (N * N)) (c : N) : bool :=
  existsb (fun r => ((fst r <=? c) && (c <=? snd r))%N) ranges.

Definition is_cased (c : N) : bool := in_ranges CASED c.

Definition is_case_ignorable (c : N) : bool := in_ranges CASE_IGNORABLE c.

(** The full lowercase mapping of a code point: one code point, but for
    U+0130, which gives two. *)
Definition to_lower_full (c : N) : list N :=
  if (c =? 0x130)%N then [0x69; 0x307]%N else [lookup_lower LOWERCASE c].

Fixpoint skip_ignorable (points : list N) : list N :=
  match points with
  | [] => []
  | c :: rest => if is_case_ignorable c then skip_ignorable rest else points
  end.

(** A capital sigma is final when a cased letter precedes it and none
    follows it, case-ignorable code points apart; [before] holds the code
    points before it, the nearest first. *)
Definition final_sigma (before after : list N) : bool :=
  match skip_ignorable before with
  | c :: _ => is_cased c
  | [] => false
  end
  && match skip_ignorable after with
     | c :: _ => negb (is_cased c)
     | [] => true
     end.

Fixpoint lower_points (before points : list N) : list N :=
  match points with
  | [] => []
  | c :: rest =>
      (if (c =? 0x3A3)%N
       then [if final_sigma before rest then 0x3C2 else 0x3C3]%N
       else to_lower_full c)
      ++ lower_points (c :: before) rest
  end.

(** [s.lower()] *)
Definition lower (s : string) : string := encode (lower_points [] (decode s)).

Arguments lower : simpl never.
Arguments strip : simpl never.

(** The lowercase of an ASCII character. *)
Definition is_upper (c : ascii) : bool :=
  let n := nat_of_ascii c in (65 <=? n)%nat && (n <=? 90)%nat.

Definition lower_char (c : ascii) : ascii :=
  if is_upper c then ascii_of_nat (nat_of_ascii c + 32) else c.

Definition startswith (s pre : string) : bool := String.prefix pre s.

(** [sub in s]. *)
Fixpoint contains (sub s : string) : bool :=
  if String.prefix sub s then true
  else match s with
       | EmptyString => false
       | String _ rest => contains sub rest
       end.

Fixpoint split_once (sep : ascii) (s : string) : option (string * string) :=
  match s with
  | EmptyString => None
  | String c rest =>
      if Ascii.eqb c sep then Some (EmptyString, rest)
      else match split_once sep rest with
           | Some (a, b) => Some (String c a, b)
           | None => None
           end
  end.

(** [s.split(sep, 1)] for a one-character separator. *)
Definition py_split1 (s : string) (sep : ascii) : list string :=
  match split_once sep s with
  | Some (a, b) => [a; b]
  | None => [s]
  end.

(** [l[i]]. *)
Definition py_index {A : Type} (l : list A) (i : nat) : outcome A :=
  match nth_error l i with
  | Some x => Return x
  | None => Raise IndexError
  end.

Definition py_in (s : string) (l : list string) : bool :=
  existsb (String.eqb s) l.

(** ** Tables of the program *)

Definition DEFAULT_QUOTES : list string :=
  [ "Small steps every day lead to big changes.";
    "You don’t have to be extreme, just consistent.";
    "Action cures fear — start tiny.";
    "Your future is decided by what you do today, not tomorrow.";
    "Rest is part of the process." ].

Definition SUGGESTIONS : list (string * list string) :=
  [ ("stressed",
      [ "2-minute box breathing: inhale 4s, hold 4s, exhale 4s, hold 4s.";
        "Write down 3 worries, then one tiny action for each.";
        "Stretch your neck and shoulders for 60 seconds." ]);
    ("tired",
      [ "Stand up, sip water, and do 10 slow squats.";
        "2-minute sunlight break at a window/balcony.";
        "Swap tasks: do a 5-minute easy win to regain momentum." ]);
    ("sad",
      [ "Text a friend one nice thing.";
        "Play a comforting song and breathe for a minute.";
        "Step outside for 3 minutes and name 5 things you see." ]);
    ("happy",
      [ "Bank the energy: tackle a 10-minute task you've delayed.";
        "Share gratitude: write 2 lines to someone you appreciate.";
        "Queue a playlist and do a focused 15-minute sprint." ]);
    ("neutral",
      [ "Pick one 10-minute task and set a timer.";
        "Tidy your workspace for 3 minutes.";
        "Drink water and plan your next 30 minutes." ]) ].

Definition MOOD_KEYWORDS : list (string * list string) :=
  [ ("stressed", ["overwhelmed"; "anxious"; "stress"; "pressure"; "panic"]);
    ("tired", ["sleepy"; "exhausted"; "fatigue"; "drained"; "tired"]);
    ("sad", ["down"; "blue"; "depressed"; "lonely"; "sad"]);
    ("happy", ["great"; "excited"; "joy"; "grateful"; "happy"]) ].

Definition ALL_MOODS : list string :=
  ["stressed"; "tired"; "sad"; "happy"; "neutral"].

(** [{"recent_moods": []}] *)
Definition empty_memory : json := JObj [("recent_moods", JArr [])].

(** ** The world: files, clock, random generator, chat transport *)

(** A [datetime]: naive (as [utcnow] returns) or carrying a UTC offset; the
    instant in microseconds. *)
Inductive datetime : Set :=
| Naive (us : Z)
| Aware (us : Z).

(** [a - b] as a [timedelta] in microseconds: mixing naive and aware raises. *)
Definition datetime_sub (a b : datetime) : outcome Z :=
  match a, b with
  | Naive x, Naive y => Return (x - y)%Z
  | Aware x, Aware y => Return (x - y)%Z
  | _, _ => Raise TypeError
  end.

(** [timedelta(minutes=n)] in microseconds. *)
Definition timedelta_minutes (n : Z) : Z := (n * 60 * 1000000)%Z.

Inductive sentiment_kind : Set :=
| Positive
| SlightlyPositive
| Negative
| SlightlyNegative
| NeutralSentiment.

(** The entries of [reasons], kept as their parts instead of formatted. *)
Inductive reason : Type :=
| KeywordReason (mood : string) (hits : list string)
| SentimentReason (kind : sentiment_kind) (comp : float) (mood : string)
| PenaltyReason (mood : string).

(** What is sent to the chat: literal text, or a reply kept as its parts. *)
Inductive message : Type :=
| Plain (content : string)
| CorrectedReply (mood : string) (tips : list string) (quote : json)
| DetectedReply (mood : string) (comp : float) (tips : list string) (quote : json)
| Explanation (reasons : list reason) (scores : list (string * float)).

Record world : Type := mkWorld {
  memory_file : option string;   (* coach_memory.json: absent, or its text *)
  quotes_file : option string;   (* quotes.json *)
  clock : Z;                     (* the UTC instant, in microseconds *)
  random_state : N;
  outbox : list message          (* messages sent, oldest first *)
}.

Definition set_memory_file (content : option string) (w : world) : world :=
  mkWorld content (quotes_file w) (clock w) (random_state w) (outbox w).

Definition set_random_state (r : N) (w : world) : world :=
  mkWorld (memory_file w) (quotes_file w) (clock w) r (outbox w).

Definition push_outbox (m : message) (w : world) : world :=
  mkWorld (memory_file w) (quotes_file w) (clock w) (random_state w) (outbox w ++ [m]).

(** The libraries the program calls. *)
Record Library : Type := mkLibrary {
  json_dumps : json -> string;             (* json.dumps(_, ensure_ascii=False, indent=2) *)
  json_loads : string -> option json;      (* json.loads; None where it raises *)
  compound : string -> float;              (* sid.polarity_scores(_)["compound"] *)
  fromisoformat : string -> option datetime; (* datetime.fromisoformat; None where it raises *)
  isoformat : Z -> string;                 (* naive datetime.isoformat() *)
  shuffle : forall A : Type, N -> list A -> list A * N  (* random.shuffle *)
}.

(** ** The monad of the program: state and exceptions *)

Definition M (A : Type) : Type := world -> outcome A * world.

Definition ret {A : Type} (a : A) : M A := fun w => (Return a, w).

Definition raise {A : Type} (e : exn) : M A := fun w => (Raise e, w).

Definition bind {A B : Type} (c : M A) (k : A -> M B) : M B :=
  fun w =>
    match c w with
    | (Return a, w') => k a w'
    | (Raise e, w') => (Raise e, w')
    end.

(** [try: c  except Exception: h] *)
Definition catch {A : Type} (c : M A) (h : exn -> M A) : M A :=
  fun w =>
    match c w with
    | (Return a, w') => (Return a, w')
    | (Raise e, w') => h e w'
    end.

Definition lift {A : Type} (o : outcome A) : M A := fun w => (o, w).

Declare Scope coach_scope.
Delimit Scope coach_scope with coach.
Notation "x <- c ;; k" := (bind c (fun x => k))
  (at level 61, c at next level, right associativity) : coach_scope.
Notation "' pat <- c ;; k" := (bind c (fun x => match x with pat => k end))
  (at level 61, pat pattern, c at next level, right associativity) : coach_scope.
Notation "c ;; k" := (bind c (fun _ => k))
  (at level 61, right associativity) : coach_scope.
Local Open Scope coach_scope.

(** [datetime.utcnow()]: the clock, as a naive datetime. *)
Definition utcnow : M datetime := fun w => (Return (Naive (clock w)), w).

(** [await cl.Message(content=m).send()] *)
Definition send (m : message) : M unit := fun w => (Return tt, push_outbox m w).

Inductive path : Set := MEMORY_PATH | QUOTES_PATH.

Definition path_exists (p : path) : M bool :=
  fun w =>
    (Return match (match p with
                   | MEMORY_PATH => memory_file w
                   | QUOTES_PATH => quotes_file w
                   end) with
            | Some _ => true
            | None => false
            end, w).

Definition read_text (p : path) : M string :=
  fun w =>
    match (match p with MEMORY_PATH => memory_file w | QUOTES_PATH => quotes_file w end) with
    | Some content => (Return content, w)
    | None => (Raise OSError, w)
    end.

(** [p.write_text(content)]: the file then holds [content] (a write that
    fails is outside the model). *)
Definition write_text (p : path) (content : string) : M unit :=
  fun w =>
    match p with
    | MEMORY_PATH => (Return tt, set_memory_file (Some content) w)
    | QUOTES_PATH =>
        (Return tt, mkWorld (memory_file w) (Some content) (clock w) (random_state w) (outbox w))
    end.

(** ** The program *)

Section Coach.

Context (L : Library).

(** [json.loads(text)], raising where the text does not parse. *)
Definition py_json_loads (text : string) : M json :=
  match json_loads L text with
  | Some v => ret v
  | None => raise ValueError
  end.

(** [random.shuffle(l)], returning the shuffled list. *)
Definition py_shuffle {A : Type} (l : list A) : M (list A) :=
  fun w =>
    let '(l', r) := shuffle L A (random_state w) l in
    (Return l', set_random_state r w).

Definition load_memory : M json :=
  ex <- path_exists MEMORY_PATH ;;
  if (ex : bool) then
    catch (text <- read_text MEMORY_PATH ;; py_json_loads text)
          (fun _ => ret empty_memory)
  else ret empty_memory.

Definition save_memory (mem : json) : M unit :=
  write_text MEMORY_PATH (json_dumps L mem).

Definition remember_mood (mood : string) : M unit :=
  mem <- load_memory ;;
  recent <- lift (py_get mem "recent_moods" (JArr [])) ;;
  items <- lift (py_iter recent) ;;
  let moods := deque_new items 10 in
  now <- utcnow ;;
  let ts := match now with Naive us | Aware us => isoformat L us end in
  let moods := deque_append moods (JObj [("mood", JStr mood); ("ts", JStr ts)]) in
  mem' <- lift (py_setitem mem "recent_moods" (JArr (dq_items moods))) ;;
  save_memory mem'.

(** [[m for m in items if m["mood"] == mood]] *)
Fixpoint same_mood (mood : string) (items : list json) : outcome (list json) :=
  match items with
  | [] => Return []
  | m :: rest =>
      match py_getitem m "mood" with
      | Raise e => Raise e
      | Return v =>
          match same_mood mood rest with
          | Raise e => Raise e
          | Return l => Return (if py_eq_str v mood then m :: l else l)
          end
      end
  end.

(** [datetime.fromisoformat(v)]: a value that is no string, or no ISO date, raises. *)
Definition py_fromisoformat (v : json) : M datetime :=
  match v with
  | JStr s => match fromisoformat L s with
              | Some d => ret d
              | None => raise ValueError
              end
  | _ => raise TypeError
  end.

(** Penalty if the same mood occurred in the last 60 minutes.  The [try]
    block gives [Some (-0.2)] where it returns, [None] where it falls through
    or an exception is swallowed. *)
Definition recent_mood_bias (mood : string) : M float :=
  mem <- load_memory ;;
  recent <- lift (py_get mem "recent_moods" (JArr [])) ;;
  items <- lift (py_iter recent) ;;
  last_same <- lift (same_mood mood items) ;;
  match last_same with
  | [] => ret 0%float
  | _ :: _ =>
      r <- catch (m <- lift (py_index last_same (List.length last_same - 1)) ;;
                  ts <- lift (py_getitem m "ts") ;;
                  last_ts <- py_fromisoformat ts ;;
                  now <- utcnow ;;
                  delta <- lift (datetime_sub now last_ts) ;;
                  if (delta <? timedelta_minutes 60)%Z
                  then ret (Some (-0.2)%float)
                  else ret None)
                 (fun _ => ret None) ;;
      match r with
      | Some penalty => ret penalty
      | None => ret 0%float
      end
  end.

(** *** Mood detection *)

Definition scores_t : Type := list (string * float).

(** [scores.get(k)] on a key of [scores]. *)
Definition score_of (scores : scores_t) (k : string) : float :=
  match dict_get k scores with
  | Some x => x
  | None => 0%float
  end.

(** [scores[k] += d]; every key the program uses is one of [ALL_MOODS], with
    which [scores] is initialised. *)
Definition score_add (k : string) (d : float) (scores : scores_t) : scores_t :=
  dict_set k (score_of scores k + d)%float scores.

Definition keyword_hits (text_l : string) (kws : list string) : list string :=
  filter (fun kw => contains kw text_l) kws.

(** One turn of the loop over [MOOD_KEYWORDS.items()]. *)
Definition keyword_step (text_l : string) (st : scores_t * list reason)
  (entry : string * list string) : scores_t * list reason :=
  let '(mood, kws) := entry in
  let hits := keyword_hits text_l kws in
  match hits with
  | [] => st
  | _ :: _ => (score_add mood 0.6%float (fst st), snd st ++ [KeywordReason mood hits])
  end.

(** The [if]/[elif] chain over the compound score. *)
Definition sentiment_step (comp : float) (st : scores_t * list reason)
  : scores_t * list reason :=
  if (0.5 <=? comp)%float then
    (score_add "happy" 0.5%float (fst st), snd st ++ [SentimentReason Positive comp "happy"])
  else if (0.05 <=? comp)%float then
    (score_add "happy" 0.2%float (fst st), snd st ++ [SentimentReason SlightlyPositive comp "happy"])
  else if (comp <=? -0.5)%float then
    (score_add "sad" 0.5%float (fst st), snd st ++ [SentimentReason Negative comp "sad"])
  else if (comp <=? -0.05)%float then
    (score_add "stressed" 0.2%float (fst st), snd st ++ [SentimentReason SlightlyNegative comp "stressed"])
  else
    (score_add "neutral" 0.2%float (fst st), snd st ++ [SentimentReason NeutralSentiment comp "neutral"]).

(** The loop [for m in ALL_MOODS] that applies the recency penalty. *)
Fixpoint bias_loop (moods : list string) (st : scores_t * list reason)
  : M (scores_t * list reason) :=
  match moods with
  | [] => ret st
  | m :: rest =>
      adj <- recent_mood_bias m ;;
      let scores := score_add m adj (fst st) in
      let reasons := if (adj <? 0)%float then snd st ++ [PenaltyReason m] else snd st in
      bias_loop rest (scores, reasons)
  end.

(** [max(items, key=key)] from a first item on: a later item replaces the
    best one only when its key is strictly greater. *)
Fixpoint max_from {A : Type} (key : A -> float) (best : A) (items : list A) : A :=
  match items with
  | [] => best
  | x :: rest => if (key best <? key x)%float then max_from key x rest
                 else max_from key best rest
  end.

Definition py_max {A : Type} (items : list A) (key : A -> float) : outcome A :=
  match items with
  | [] => Raise ValueError
  | x :: rest => Return (max_from key x rest)
  end.

Definition detect_mood (text : string)
  : M (string * float * list reason * scores_t) :=
  let text_l := lower text in
  let scores := map (fun k => (k, 0%float)) ALL_MOODS in
  let reasons := [] in
  let st := fold_left (keyword_step text_l) MOOD_KEYWORDS (scores, reasons) in
  let comp := compound L text_l in
  let st := sentiment_step comp st in
  st <- bias_loop ALL_MOODS st ;;
  let scores := fst st in
  let reasons := snd st in
  mood <- lift (py_max (dict_keys scores) (score_of scores)) ;;
  ret (mood, comp, reasons, scores).

(** *** Suggestions and quotes *)

Definition pick_quote : M json :=
  ex <- path_exists QUOTES_PATH ;;
  r <- (if (ex : bool) then
          catch (text <- read_text QUOTES_PATH ;;
                 quotes <- py_json_loads text ;;
                 match quotes with
                 | JArr (q :: qs) =>
                     shuffled <- py_shuffle (q :: qs) ;;
                     first <- lift (py_index shuffled 0) ;;
                     ret (Some first)
                 | _ => ret None
                 end)
                (fun _ => ret None)
        else ret None) ;;
  match r with
  | Some quote => ret quote
  | None =>
      q <- py_shuffle DEFAULT_QUOTES ;;
      first <- lift (py_index q 0) ;;
      ret (JStr first)
  end.

Definition suggest_for_mood (mood : string) (n : nat) : M (list string) :=
  fallback <- lift (match dict_get "neutral" SUGGESTIONS with
                    | Some l => Return l
                    | None => Raise KeyError
                    end) ;;
  let pool := match dict_get mood SUGGESTIONS with
              | Some l => l
              | None => fallback
              end in
  pool <- py_shuffle pool ;;
  ret (firstn n pool).

(** *** The message handler *)

(** A line feed. *)
Definition LF : string := String "010"%char EmptyString.

(** The welcome of [start]. *)
Definition welcome_text : string :=
  ("**AI Life Coach Agent**" ++ LF ++ LF ++
   "Tell me how you're feeling (e.g., *tired, stressed, happy*), and I'll suggest quick, helpful actions." ++ LF ++ LF ++
   "**Commands**" ++ LF ++
   "• `why` → explain my mood detection" ++ LF ++
   "• `correct: <mood>` → override (moods: stressed, tired, sad, happy, neutral)" ++ LF ++
   "• `reset` → clear recent mood memory" ++ LF ++
   "• `save` → save memory to disk" ++ LF)%string.

(** [start], run when a chat opens. *)
Definition start : M unit := send (Plain welcome_text).

Definition unknown_mood_text (mood : string) : string :=
  ("Unknown mood `" ++ mood ++ "`. Use one of: " ++ String.concat ", " ALL_MOODS)%string.

Definition why_text : string :=
  "Send a sentence describing how you feel (e.g., 'I'm overwhelmed and anxious'). I'll explain my reasoning next time.".

Definition handle_message (message : string) : M unit :=
  let text := strip message in
  if String.eqb (lower text) "save" then
    mem <- load_memory ;;
    save_memory mem ;;
    send (Plain "Memory saved to disk.")
  else if String.eqb (lower text) "reset" then
    save_memory empty_memory ;;
    send (Plain "Cleared recent mood memory.")
  else if startswith (lower text) "correct:" then
    part <- lift (py_index (py_split1 text ":"%char) 1) ;;
    let mood := lower (strip part) in
    if negb (py_in mood ALL_MOODS) then
      send (Plain (unknown_mood_text mood))
    else
      remember_mood mood ;;
      tips <- suggest_for_mood mood 3 ;;
      quote <- pick_quote ;;
      send (CorrectedReply mood tips quote)
  else if String.eqb (lower text) "why" then
    send (Plain why_text)
  else
    '(mood, comp, reasons, scores) <- detect_mood text ;;
    remember_mood mood ;;
    tips <- suggest_for_mood mood 3 ;;
    quote <- pick_quote ;;
    send (DetectedReply mood comp tips quote) ;;
    if contains "why" (lower text) then send (Explanation reasons scores)
    else ret tt.

End Coach.

(** ** Vocabulary of the statements *)

Fixpoint nodup_keys (ks : list string) : bool :=
  match ks with
  | [] => true
  | k :: rest => negb (py_in k rest) && nodup_keys rest
  end.

(** A value as Python holds it: the keys of every dict are distinct. *)
Fixpoint wf_json (v : json) : bool :=
  match v with
  | JArr items => forallb wf_json items
  | JObj fields =>
      nodup_keys (map fst fields) && forallb (fun kv => wf_json (snd kv)) fields
  | _ => true
  end.

(** What the program relies on from the [json] module: dumping a value and
    loading the text gives the value back, and a loaded value is a Python
    value. *)
Record JsonLaws (L : Library) : Prop := mkJsonLaws {
  loads_dumps : forall v, wf_json v = true -> json_loads L (json_dumps L v) = Some v;
  loads_wf : forall text v, json_loads L text = Some v -> wf_json v = true
}.

(** The record [remember_mood] builds. *)
Definition mood_record (L : Library) (mood : string) (now : Z) : json :=
  JObj [("mood", JStr mood); ("ts", JStr (isoformat L now))].

(** [d.get("recent_moods", [])] *)
Definition recent_value (d : list (string * json)) : json :=
  match dict_get "recent_moods" d with
  | Some v => v
  | None => JArr []
  end.

(** The records of a memory state. *)
Definition recent_moods_of (mem : json) : list json :=
  match mem with
  | JObj d => match recent_value d with
              | JArr records => records
              | _ => []
              end
  | _ => []
  end.

(** A memory state: a mapping whose ["recent_moods"] entry is a list (an
    absent entry reads as the empty list). *)
Definition is_memory (mem : json) : bool :=
  match mem with
  | JObj d => match recent_value d with
              | JArr _ => true
              | _ => false
              end
  | _ => false
  end.

(** The record can be asked for its mood ([m["mood"]] does not raise). *)
Definition has_mood (r : json) : bool :=
  match py_getitem r "mood" with
  | Return _ => true
  | Raise _ => false
  end.

Definition mood_is (mood : string) (r : json) : bool :=
  match py_getitem r "mood" with
  | Return v => py_eq_str v mood
  | Raise _ => false
  end.

(** A memory state whose records all carry a mood. *)
Definition is_mood_memory (mem : json) : bool :=
  is_memory mem && forallb has_mood (recent_moods_of mem).

(** The record's timestamp reads as a naive instant less than 60 minutes
    before [now]. *)
Definition recent_at (L : Library) (now : Z) (r : json) : Prop :=
  exists s t,
    py_getitem r "ts" = Return (JStr s) /\
    fromisoformat L s = Some (Naive t) /\
    (now - t < timedelta_minutes 60)%Z.

(** The memory the program sees in a world: what [load_memory] returns. *)
Definition stored (L : Library) (w : world) : json :=
  match memory_file w with
  | Some text => match json_loads L text with
                 | Some v => v
                 | None => empty_memory
                 end
  | None => empty_memory
  end.

(** The backing file is missing, or its text does not parse. *)
Definition unreadable (L : Library) (w : world) : Prop :=
  memory_file w = None \/
  exists text, memory_file w = Some text /\ json_loads L text = None.

Definition set_clock (t : Z) (w : world) : world :=
  mkWorld (memory_file w) (quotes_file w) t (random_state w) (outbox w).

(** [remember_mood] called once per entry, the clock reading the entry's
    instant at each call. *)
Fixpoint remember_all (L : Library) (entries : list (string * Z)) : M unit :=
  match entries with
  | [] => ret tt
  | (mood, t) :: rest =>
      (fun w => remember_mood L mood (set_clock t w)) ;;
      remember_all L rest
  end.

(** The [try] block of [recent_mood_bias] on the last matching record. *)
Definition within_hour (L : Library) (now : Z) (r : json) : bool :=
  match py_getitem r "ts" with
  | Return (JStr s) =>
      match fromisoformat L s with
      | Some (Naive t) => (now - t <? timedelta_minutes 60)%Z
      | _ => false
      end
  | _ => false
  end.

(** The entries of a dict other than the one under ["recent_moods"], in order. *)
Definition other_fields (d : list (string * json)) : list (string * json) :=
  filter (fun kv => negb (String.eqb (fst kv) "recent_moods")) d.

(** [sub] occurs in [s] as a substring. *)
Definition occurs (sub s : string) : Prop :=
  exists pre post, s = (pre ++ sub ++ post)%string.

(** The step applied one rule: [delta] was added to [mood], and to nothing else. *)
Definition applies_rule (before after : scores_t) (mood : string) (delta : float)
  : Prop :=
  after = score_add mood delta before /\
  score_of after mood = (score_of before mood + delta)%float /\
  forall m, m <> mood -> score_of after m = score_of before m.

(** The five rules as the specification lists them: when a rule holds of
    the compound score, and what it adds to which mood. *)
Definition rule_condition (k : sentiment_kind) (c : float) : Prop :=
  match k with
  | Positive => (0.5 <=? c)%float = true
  | SlightlyPositive => (0.05 <=? c)%float = true /\ (c <? 0.5)%float = true
  | Negative => (c <=? -0.5)%float = true
  | SlightlyNegative => (-0.5 <? c)%float = true /\ (c <=? -0.05)%float = true
  | NeutralSentiment => (-0.05 <? c)%float = true /\ (c <? 0.05)%float = true
  end.

Definition rule_mood (k : sentiment_kind) : string :=
  match k with
  | Positive | SlightlyPositive => "happy"
  | Negative => "sad"
  | SlightlyNegative => "stressed"
  | NeutralSentiment => "neutral"
  end.

Definition rule_delta (k : sentiment_kind) : float :=
  match k with
  | Positive | Negative => 0.5%float
  | SlightlyPositive | SlightlyNegative | NeutralSentiment => 0.2%float
  end.

(** The value [recent_mood_bias] returns on a memory state whose records all
    carry a mood. *)
Definition penalty (L : Library) (w : world) (mood : string) : float :=
  match filter (mood_is mood) (recent_moods_of (stored L w)) with
  | [] => 0%float
  | x :: rest =>
      if within_hour L (clock w) (last (x :: rest) JNull) then (-0.2)%float else 0%float
  end.

(** The penalty loop with the penalties read off the memory state. *)
Fixpoint bias_pure (L : Library) (w : world) (moods : list string)
  (st : scores_t * list reason) : scores_t * list reason :=
  match moods with
  | [] => st
  | m :: rest =>
      let adj := penalty L w m in
      bias_pure L w rest
        (score_add m adj (fst st),
         if (adj <? 0)%float then snd st ++ [PenaltyReason m] else snd st)
  end.

(** The score vector [detect_mood] returns. *)
Definition detect_scores (L : Library) (text : string) (w : world) : scores_t :=
  fst (bias_pure L w ALL_MOODS
         (sentiment_step (compound L (lower text))
            (fold_left (keyword_step (lower text)) MOOD_KEYWORDS
               (map (fun k => (k, 0%float)) ALL_MOODS, [])))).

Definition keyword_state (text : string) : scores_t * list reason :=
  fold_left (keyword_step (lower text)) MOOD_KEYWORDS
    (map (fun k => (k, 0%float)) ALL_MOODS, []).

(** The compound score triggers none of the four rules that favour a mood
    other than neutral. *)
Definition neutral_only (c : float) : Prop :=
  (0.5 <=? c)%float = false /\ (0.05 <=? c)%float = false /\
  (c <=? -0.5)%float = false /\ (c <=? -0.05)%float = false.

(** A computation that leaves the memory file as it found it, whatever its
    outcome. *)
Definition keeps_memory {A : Type} (c : M A) : Prop :=
  forall w, memory_file (snd (c w)) = memory_file w.

(** What the program relies on from [random.shuffle]: the list it leaves is
    a rearrangement of the list it was given. *)
Record ShuffleLaws (L : Library) : Prop := mkShuffleLaws {
  shuffle_permutes :
    forall (A : Type) (r : N) (l : list A), Permutation l (fst (shuffle L A r l))
}.

(** The text is one of the four commands of the handler. *)
Definition is_command (text : string) : bool :=
  String.eqb (lower text) "save" || String.eqb (lower text) "reset"
  || startswith (lower text) "correct:" || String.eqb (lower text) "why".

(** [quotes.json] is missing, does not parse, or holds something else than a
    list with an item. *)
Definition no_quotes (L : Library) (w : world) : Prop :=
  match quotes_file w with
  | None => True
  | Some text => match json_loads L text with
                 | Some (JArr (_ :: _)) => False
                 | _ => True
                 end
  end.

(** [SUGGESTIONS.get(mood, SUGGESTIONS["neutral"])] *)
Definition suggestions_of (mood : string) : list string :=
  match dict_get mood SUGGESTIONS with
  | Some pool => pool
  | None => match dict_get "neutral" SUGGESTIONS with
            | Some pool => pool
            | None => []
            end
  end.

(** The memory the handler expects and keeps: a memory state whose records
    all carry a mood, at most 10 of them. *)
Definition sound_memory (L : Library) (w : world) : Prop :=
  is_mood_memory (stored L w) = true /\
  List.length (recent_moods_of (stored L w)) <= 10.

(** A computation that changes nothing in the world, whatever its outcome. *)
Definition reads_only {A : Type} (c : M A) : Prop :=
  forall w, snd (c w) = w.

(** A computation that leaves [quotes.json] and the clock alone and only
    adds to the messages sent, whatever its outcome. *)
Definition frames {A : Type} (c : M A) : Prop :=
  forall w,
    quotes_file (snd (c w)) = quotes_file w /\
    clock (snd (c w)) = clock w /\
    exists new, outbox (snd (c w)) = outbox w ++ new.

(** The handler called once per incoming message, the clock reading the
    instant of arrival at each call. *)
Fixpoint handle_all (L : Library) (incoming : list (string * Z)) : M unit :=
  match incoming with
  | [] => ret tt
  | (message, t) :: rest =>
      (fun w => handle_message L message (set_clock t w)) ;;
      handle_all L rest
  end.

(** A chat session: the welcome, then the messages. *)
Definition session (L : Library) (incoming : list (string * Z)) : M unit :=
  start ;; handle_all L incoming.

(** The keyword reasons of a lowercased text: one for each mood of
    [MOOD_KEYWORDS] with a hit, in the order of the table. *)
Definition keyword_reasons (text_l : string) : list reason :=
  flat_map (fun entry : string * list string =>
              match keyword_hits text_l (snd entry) with
              | [] => []
              | hits => [KeywordReason (fst entry) hits]
              end)
           MOOD_KEYWORDS.

(** ** Binary64 floats: the order

    The comparisons of [PrimFloat] are specified on [spec_float]; they are
    read as a lexicographic order on a key, which gives the usual laws of a
    total preorder on the floats that are not NaN. *)

Module FloatOrder.

(** The place of a float on the line: sign class, then exponent, then
    mantissa (NaN has none). *)
Definition sf_key (x : spec_float) : option (Z * Z * Z) :=
  match x with
  | S754_nan => None
  | S754_zero _ => Some (0, 0, 0)%Z
  | S754_infinity s => Some (if s then (-2) else 2, 0, 0)%Z
  | S754_finite s m e => Some (if s then (-1, - e, - Zpos m) else (1, e, Zpos m))%Z
  end.

Definition key_lt (a b : Z * Z * Z) : Prop :=
  let '(a1, a2, a3) := a in
  let '(b1, b2, b3) := b in
  (a1 < b1 \/ (a1 = b1 /\ (a2 < b2 \/ (a2 = b2 /\ a3 < b3))))%Z.

Definition key_le (a b : Z * Z * Z) : Prop :=
  let '(a1, a2, a3) := a in
  let '(b1, b2, b3) := b in
  (a1 < b1 \/ (a1 = b1 /\ (a2 < b2 \/ (a2 = b2 /\ a3 <= b3))))%Z.

Definition fkey (x : float) : option (Z * Z * Z) := sf_key (Prim2SF x).

Definition not_nan (x : float) : Prop := exists a, fkey x = Some a.

End FloatOrder.

(** ** A reference library

    An instance of [Library] that can be run: a JSON codec that writes what
    [json.dumps(_, ensure_ascii=False, indent=2)] writes and reads it back
    (integers for numbers, escapes of code points up to 127), ISO timestamps
    of the form [YYYY-MM-DDTHH:MM:SS], a stand-in for the sentiment analyzer
    and a shuffle that keeps the order.  It shows that what the theorems
    assume of the libraries can be met, and runs the examples. *)

Module RefJson.

Local Open Scope nat_scope.

Definition dquote : ascii := ascii_of_nat 34.
Definition backslash : ascii := ascii_of_nat 92.
Definition newline : ascii := ascii_of_nat 10.

(** *** Writing *)

Definition hex_digit (n : nat) : ascii :=
  if n <? 10 then ascii_of_nat (48 + n) else ascii_of_nat (87 + n).

(** One character inside a string literal, as [ensure_ascii=False] writes it. *)
Definition escape_char (c : ascii) : string :=
  let n := nat_of_ascii c in
  if Ascii.eqb c dquote then String backslash (String dquote "")
  else if Ascii.eqb c backslash then String backslash (String backslash "")
  else if n =? 10 then String backslash "n"
  else if n =? 13 then String backslash "r"
  else if n =? 9 then String backslash "t"
  else if n =? 8 then String backslash "b"
  else if n =? 12 then String backslash "f"
  else if n <? 32 then
    String backslash
      (String "u" (String "0" (String "0"
         (String (hex_digit (n / 16)) (String (hex_digit (n mod 16)) "")))))
  else String c "".

Fixpoint escape (s : string) : string :=
  match s with
  | EmptyString => EmptyString
  | String c rest => (escape_char c ++ escape rest)%string
  end.

Definition print_str (s : string) : string :=
  String dquote (escape s ++ String dquote "")%string.

Definition print_int (z : Z) : string := NilZero.string_of_int (Z.to_int z).

Fixpoint spaces (n : nat) : string :=
  match n with
  | 0 => EmptyString
  | S n => String " " (spaces n)
  end.

(** A line break and the indentation of depth [d] ([indent=2]). *)
Definition nl (d : nat) : string := String newline (spaces (2 * d)).

Fixpoint print (d : nat) (v : json) : string :=
  match v with
  | JNull => "null"
  | JBool true => "true"
  | JBool false => "false"
  | JNum z => print_int z
  | JStr s => print_str s
  | JArr [] => "[]"
  | JArr items =>
      ("[" ++ String.concat "," (map (fun x => nl (S d) ++ print (S d) x) items)
       ++ nl d ++ "]")%string
  | JObj [] => "{}"
  | JObj fields =>
      ("{" ++ String.concat ","
                (map (fun kv => nl (S d) ++ print_str (fst kv) ++ ": " ++ print (S d) (snd kv))
                   fields)
       ++ nl d ++ "}")%string
  end.

Definition dumps (v : json) : string := print 0 v.

(** *** Reading *)

Definition is_ws (c : ascii) : bool :=
  let n := nat_of_ascii c in (n =? 32) || (n =? 10) || (n =? 13) || (n =? 9).

Fixpoint skip_ws (s : string) : string :=
  match s with
  | EmptyString => EmptyString
  | String c rest => if is_ws c then skip_ws rest else s
  end.

Definition is_num_char (c : ascii) : bool :=
  let n := nat_of_ascii c in (n =? 45) || ((48 <=? n) && (n <=? 57)).

Fixpoint span_num (s : string) : string * string :=
  match s with
  | EmptyString => (EmptyString, EmptyString)
  | String c rest =>
      if is_num_char c then let '(a, b) := span_num rest in (String c a, b)
      else (EmptyString, s)
  end.

(** An integer literal, accepted in the form it is written in. *)
Definition parse_int (s : string) : option (json * string) :=
  let '(lit, rest) := span_num s in
  match NilZero.int_of_string lit with
  | Some d => if String.eqb (print_int (Z.of_int d)) lit
              then Some (JNum (Z.of_int d), rest) else None
  | None => None
  end.

Definition hex_value (c : ascii) : option nat :=
  let n := nat_of_ascii c in
  if (48 <=? n) && (n <=? 57) then Some (n - 48)
  else if (97 <=? n) && (n <=? 102) then Some (n - 87)
  else if (65 <=? n) && (n <=? 70) then Some (n - 55)
  else None.

(** The character an escape letter stands for. *)
Definition unescape (e : ascii) : option ascii :=
  if Ascii.eqb e dquote then Some dquote
  else if Ascii.eqb e backslash then Some backslash
  else if Ascii.eqb e "/" then Some "/"%char
  else if Ascii.eqb e "n" then Some (ascii_of_nat 10)
  else if Ascii.eqb e "r" then Some (ascii_of_nat 13)
  else if Ascii.eqb e "t" then Some (ascii_of_nat 9)
  else if Ascii.eqb e "b" then Some (ascii_of_nat 8)
  else if Ascii.eqb e "f" then Some (ascii_of_nat 12)
  else None.

(** The inside of a string literal, up to its closing quote.  Escapes of
    code points up to 127 are read; raw control characters are refused. *)
Fixpoint parse_str (s : string) : option (string * string) :=
  match s with
  | EmptyString => None
  | String c rest =>
      if Ascii.eqb c dquote then Some (EmptyString, rest)
      else if Ascii.eqb c backslash then
        match rest with
        | String e rest1 =>
            if Ascii.eqb e "u" then
              match rest1 with
              | String h1 (String h2 (String h3 (String h4 rest2))) =>
                  match hex_value h1, hex_value h2, hex_value h3, hex_value h4 with
                  | Some 0, Some 0, Some a, Some b =>
                      if a <? 8 then
                        match parse_str rest2 with
                        | Some (str, tail) => Some (String (ascii_of_nat (16 * a + b)) str, tail)
                        | None => None
                        end
                      else None
                  | _, _, _, _ => None
                  end
              | _ => None
              end
            else
              match unescape e with
              | Some x =>
                  match parse_str rest1 with
                  | Some (str, tail) => Some (String x str, tail)
                  | None => None
                  end
              | None => None
              end
        | EmptyString => None
        end
      else if nat_of_ascii c <? 32 then None
      else
        match parse_str rest with
        | Some (str, tail) => Some (String c str, tail)
        | None => None
        end
  end.

Fixpoint expect (word : string) (s : string) : option string :=
  match word with
  | EmptyString => Some s
  | String a word' =>
      match s with
      | String b s' => if Ascii.eqb a b then expect word' s' else None
      | EmptyString => None
      end
  end.

Definition keyword (word : string) (v : json) (s : string) : option (json * string) :=
  match expect word s with
  | Some rest => Some (v, rest)
  | None => None
  end.

Fixpoint parse_value (fuel : nat) (s : string) {struct fuel} : option (json * string) :=
  match fuel with
  | 0 => None
  | S fuel =>
      match skip_ws s with
      | EmptyString => None
      | String c r =>
          if is_num_char c then parse_int (String c r)
          else if Ascii.eqb c "n" then keyword "ull" JNull r
          else if Ascii.eqb c "t" then keyword "rue" (JBool true) r
          else if Ascii.eqb c "f" then keyword "alse" (JBool false) r
          else if Ascii.eqb c dquote then
            match parse_str r with
            | Some (str, rest) => Some (JStr str, rest)
            | None => None
            end
          else if Ascii.eqb c "[" then
            match skip_ws r with
            | String c' r' =>
                if Ascii.eqb c' "]" then Some (JArr [], r') else parse_items fuel r []
            | EmptyString => None
            end
          else if Ascii.eqb c "{" then
            match skip_ws r with
            | String c' r' =>
                if Ascii.eqb c' "}" then Some (JObj [], r') else parse_members fuel r []
            | EmptyString => None
            end
          else None
      end
  end
with parse_items (fuel : nat) (s : string) (acc : list json) {struct fuel}
  : option (json * string) :=
  match fuel with
  | 0 => None
  | S fuel =>
      match parse_value fuel s with
      | Some (v, rest) =>
          match skip_ws rest with
          | String c r =>
              if Ascii.eqb c "," then parse_items fuel r (acc ++ [v])
              else if Ascii.eqb c "]" then Some (JArr (acc ++ [v]), r)
              else None
          | EmptyString => None
          end
      | None => None
      end
  end
with parse_members (fuel : nat) (s : string) (acc : list (string * json)) {struct fuel}
  : option (json * string) :=
  match fuel with
  | 0 => None
  | S fuel =>
      match skip_ws s with
      | String c r =>
          if Ascii.eqb c dquote then
            match parse_str r with
            | Some (k, rest) =>
                match skip_ws rest with
                | String c1 r1 =>
                    if Ascii.eqb c1 ":" then
                      match parse_value fuel r1 with
                      | Some (v, rest2) =>
                          match skip_ws rest2 with
                          | String c2 r2 =>
                              if Ascii.eqb c2 "," then parse_members fuel r2 (dict_set k v acc)
                              else if Ascii.eqb c2 "}" then Some (JObj (dict_set k v acc), r2)
                              else None
                          | EmptyString => None
                          end
                      | None => None
                      end
                    else None
                | EmptyString => None
                end
            | None => None
            end
          else None
      | EmptyString => None
      end
  end.

Definition loads (s : string) : option json :=
  match parse_value (S (String.length s)) s with
  | Some (v, rest) =>
      match skip_ws rest with
      | EmptyString => Some v
      | String _ _ => None
      end
  | None => None
  end.

(** *** What the round trip is stated with *)

Fixpoint all_num (s : string) : bool :=
  match s with
  | EmptyString => true
  | String c rest => is_num_char c && all_num rest
  end.

(** What follows a value does not continue a number. *)
Definition ok_rest (rest : string) : bool :=
  match rest with
  | EmptyString => true
  | String c _ => negb (is_num_char c)
  end.

(** The fuel a value needs. *)
Fixpoint jsize (v : json) : nat :=
  match v with
  | JArr items => S (list_sum (map (fun x => S (jsize x)) items))
  | JObj fields => S (list_sum (map (fun kv => S (jsize (snd kv))) fields))
  | _ => 1
  end.

Definition item_text (d : nat) (x : json) : string :=
  (nl (S d) ++ print (S d) x)%string.

Definition field_text (d : nat) (kv : string * json) : string :=
  (nl (S d) ++ print_str (fst kv) ++ ": " ++ print (S d) (snd kv))%string.

(** A printed value starts with a character that is no white space and
    closes no bracket. *)
Definition opens_value (c : ascii) : bool :=
  negb (is_ws c) && negb (Ascii.eqb c "]") && negb (Ascii.eqb c "}").

(** The values that read back, at every depth and before every continuation. *)
Definition reads_back (v : json) : Prop :=
  forall d rest fuel,
    jsize v <= fuel -> ok_rest rest = true ->
    parse_value fuel (print d v ++ rest)%string = Some (v, rest).

End RefJson.

Module RefTime.

Local Open Scope Z_scope.

(** Days from 1970-01-01 to a date of the proleptic Gregorian calendar. *)
Definition days_from_civil (y m d : Z) : Z :=
  let y' := if m <=? 2 then y - 1 else y in
  let era := y' / 400 in
  let yoe := y' - era * 400 in
  let doy := (153 * (if 2 <? m then m - 3 else m + 9) + 2) / 5 + d - 1 in
  let doe := yoe * 365 + yoe / 4 - yoe / 100 + doy in
  era * 146097 + doe - 719468.

Definition civil_from_days (z : Z) : Z * Z * Z :=
  let z := z + 719468 in
  let era := z / 146097 in
  let doe := z - era * 146097 in
  let yoe := (doe - doe / 1460 + doe / 36524 - doe / 146096) / 365 in
  let doy := doe - (365 * yoe + yoe / 4 - yoe / 100) in
  let mp := (5 * doy + 2) / 153 in
  let d := doy - (153 * mp + 2) / 5 + 1 in
  let m := if mp <? 10 then mp + 3 else mp - 9 in
  (yoe + era * 400 + (if m <=? 2 then 1 else 0), m, d).

Definition is_leap (y : Z) : bool :=
  ((y mod 4 =? 0) && negb (y mod 100 =? 0)) || (y mod 400 =? 0).

Definition days_in_month (y m : Z) : Z :=
  if m =? 2 then (if is_leap y then 29 else 28)
  else if (m =? 4) || (m =? 6) || (m =? 9) || (m =? 11) then 30
  else 31.

Definition digit_value (c : ascii) : option Z :=
  let n := Z.of_nat (nat_of_ascii c) in
  if (48 <=? n) && (n <=? 57) then Some (n - 48) else None.

(** Exactly [n] digits, as a number, and what follows them. *)
Fixpoint digits (n : nat) (acc : Z) (s : string) : option (Z * string) :=
  match n with
  | O => Some (acc, s)
  | S n' =>
      match s with
      | String c rest =>
          match digit_value c with
          | Some v => digits n' (10 * acc + v) rest
          | None => None
          end
      | EmptyString => None
      end
  end.

Definition expect_char (c : ascii) (s : string) : option string :=
  match s with
  | String c' rest => if Ascii.eqb c c' then Some rest else None
  | EmptyString => None
  end.

Definition us_per_second : Z := 1000000.
Definition us_per_day : Z := 86400 * us_per_second.

(** [YYYY-MM-DDTHH:MM:SS], then [.ffffff] or nothing, then [+HH:MM],
    [-HH:MM] or nothing. *)
Definition fromisoformat (s : string) : option datetime :=
  match digits 4 0 s with
  | Some (y, s) =>
  match expect_char "-" s with
  | Some s =>
  match digits 2 0 s with
  | Some (m, s) =>
  match expect_char "-" s with
  | Some s =>
  match digits 2 0 s with
  | Some (d, s) =>
  match expect_char "T" s with
  | Some s =>
  match digits 2 0 s with
  | Some (hh, s) =>
  match expect_char ":" s with
  | Some s =>
  match digits 2 0 s with
  | Some (mm, s) =>
  match expect_char ":" s with
  | Some s =>
  match digits 2 0 s with
  | Some (ss, s) =>
      let '(frac, s) :=
        match expect_char "." s with
        | Some s' => match digits 6 0 s' with
                     | Some (f, s'') => (Some f, s'')
                     | None => (None, s)
                     end
        | None => (Some 0, s)
        end in
      match frac with
      | None => None
      | Some f =>
          if (1 <=? y) && (1 <=? m) && (m <=? 12) && (1 <=? d) && (d <=? days_in_month y m)
             && (hh <? 24) && (mm <? 60) && (ss <? 60)
          then
            let us := days_from_civil y m d * us_per_day
                      + ((hh * 60 + mm) * 60 + ss) * us_per_second + f in
            match s with
            | EmptyString => Some (Naive us)
            | String sign s1 =>
                match digits 2 0 s1 with
                | Some (oh, s2) =>
                    match expect_char ":" s2 with
                    | Some s3 =>
                        match digits 2 0 s3 with
                        | Some (om, EmptyString) =>
                            let off := (oh * 60 + om) * 60 * us_per_second in
                            if (oh <? 24) && (om <? 60) then
                              if Ascii.eqb sign "+" then Some (Aware (us - off))
                              else if Ascii.eqb sign "-" then Some (Aware (us + off))
                              else None
                            else None
                        | _ => None
                        end
                    | None => None
                    end
                | None => None
                end
            end
          else None
      end
  | None => None end | None => None end | None => None end | None => None end
  | None => None end | None => None end | None => None end | None => None end
  | None => None end | None => None end | None => None end.

Definition digit_char (v : Z) : ascii := ascii_of_nat (48 + Z.to_nat (v mod 10)).

(** [v] written with [n] digits. *)
Fixpoint pad (n : nat) (v : Z) (tail : string) : string :=
  match n with
  | O => tail
  | S n' => pad n' (v / 10) (String (digit_char v) tail)
  end.

Definition isoformat (us : Z) : string :=
  let days := us / us_per_day in
  let rem := us mod us_per_day in
  let '(y, m, d) := civil_from_days days in
  let secs := rem / us_per_second in
  let f := rem mod us_per_second in
  pad 4 y (String "-" (pad 2 m (String "-" (pad 2 d (String "T"
    (pad 2 (secs / 3600) (String ":" (pad 2 (secs / 60 mod 60) (String ":"
      (pad 2 (secs mod 60)
         (if f =? 0 then EmptyString else String "." (pad 6 f EmptyString)))))))))))).

End RefTime.

Module RefLib.

(** A stand-in for the sentiment analyzer: the compound score of the first
    word of a three-word lexicon that occurs in the text, 0.0 when none does. *)
Definition analyzer (text : string) : float :=
  if contains "great" text then 0.6249%float
  else if contains "happy" text then 0.5719%float
  else if contains "sad" text then (-0.4767)%float
  else 0%float.

(** The shuffle that draws the identity permutation. *)
Definition shuffle_keep (A : Type) (r : N) (l : list A) : list A * N :=
  (l, N.succ r).

Definition lib : Library :=
  mkLibrary RefJson.dumps RefJson.loads analyzer
    RefTime.fromisoformat RefTime.isoformat shuffle_keep.

(** The instant an ISO timestamp names. *)
Definition instant (ts : string) : Z :=
  match RefTime.fromisoformat ts with
  | Some (Naive us) | Some (Aware us) => us
  | None => 0%Z
  end.

Definition record (mood ts : string) : json :=
  JObj [("mood", JStr mood); ("ts", JStr ts)].

(** A world whose memory file holds [mem], at the instant [ts]. *)
Definition world_at (mem : json) (ts : string) : world :=
  mkWorld (Some (RefJson.dumps mem)) None (instant ts) 0%N [].

(** stressed at 09:00, sad at 09:15, stressed at 09:40. *)
Definition morning : json :=
  JObj [("recent_moods",
         JArr [record "stressed" "2024-01-01T09:00:00";
               record "sad" "2024-01-01T09:15:00";
               record "stressed" "2024-01-01T09:40:00"])].

(** The same records under a top-level key of another kind. *)
Definition morning_named : json :=
  JObj [("owner", JStr "sam");
        ("recent_moods",
         JArr [record "stressed" "2024-01-01T09:00:00";
               record "sad" "2024-01-01T09:15:00";
               record "stressed" "2024-01-01T09:40:00"]);
        ("version", JNum 2)].

(** Eleven calls, a minute apart. *)
Definition eleven : list (string * Z) :=
  map (fun k => (nth (k mod 5) ALL_MOODS "neutral",
                 (instant "2024-01-01T10:00:00" + Z.of_nat k * 60000000)%Z))
      (seq 0 11).

(** *** Worlds of the examples *)

Definition at_ten : world := world_at morning "2024-01-01T10:00:00".

(** Records out of order: the last stressed record is two hours old, an
    earlier one ten minutes old. *)
Definition shuffled_morning : json :=
  JObj [("recent_moods",
         JArr [record "stressed" "2024-01-01T09:50:00";
               record "stressed" "2024-01-01T08:00:00"])].

(** A file that does not parse. *)
Definition broken : world := mkWorld (Some "{not json") None (instant "2024-01-01T10:00:00") 0 [].

Definition named_at_ten : world := world_at morning_named "2024-01-01T10:00:00".

(** The world after sad was remembered at 10:00, with no memory file before. *)
Definition after_sad : world :=
  snd (remember_mood lib "sad" (mkWorld None None (instant "2024-01-01T10:00:00") 0 [])).

(** The shuffle that turns the list by as many places as the state of the
    generator says. *)
Definition shuffle_turn (A : Type) (r : N) (l : list A) : list A * N :=
  let k := N.to_nat r mod List.length l in
  (skipn k l ++ firstn k l, N.succ r).

(** A stand-in analyzer with two more words, neither of them a keyword of a
    mood. *)
Definition analyzer_wide (text : string) : float :=
  if contains "love" text then 0.6369%float
  else if contains "hate" text then (-0.5719)%float
  else analyzer text.

(** The reference library with the turning shuffle and the wider analyzer. *)
Definition lib_turn : Library :=
  mkLibrary RefJson.dumps RefJson.loads analyzer_wide
    RefTime.fromisoformat RefTime.isoformat shuffle_turn.

(** A no-break space and an em space: white space outside ASCII. *)
Definition nbsp : string := encode_point 0xA0.

Definition em_space : string := encode_point 0x2003.

(** A world with a [quotes.json] of two items, the second no string. *)
Definition quoted : world :=
  mkWorld (Some (RefJson.dumps morning))
          (Some (RefJson.dumps (JArr [JStr "Keep going."; JNum 7])))
          (instant "2024-01-01T10:00:00") 1 [].

(** A world whose [quotes.json] holds an empty list. *)
Definition unquoted : world :=
  mkWorld None (Some (RefJson.dumps (JArr []))) (instant "2024-01-01T10:00:00") 2 [].

(** A world without files, at 10:00. *)
Definition fresh : world := mkWorld None None (instant "2024-01-01T10:00:00") 0 [].

(** A memory whose second record has no mood. *)
Definition moodless : json :=
  JObj [("recent_moods",
         JArr [record "sad" "2024-01-01T09:15:00";
               JObj [("ts", JStr "2024-01-01T09:40:00")]])].

(** Ten calls with happy, a minute apart from 10:01. *)
Definition ten_happy : list (string * Z) :=
  map (fun k => ("happy", (instant "2024-01-01T10:01:00" + Z.of_nat k * 60000000)%Z))
      (seq 0 10).

(** Three messages: a plain one, the same again 20 minutes later, then a
    command. *)
Definition three_messages : list (string * Z) :=
  [ ("ok", instant "2024-01-01T10:00:00");
    ("ok", instant "2024-01-01T10:20:00");
    ("RESET", instant "2024-01-01T10:21:00") ].

End RefLib.

(** * Facts

    From here on: lemmas and theorems about the definitions above. *)

(** ** Dictionaries, deques and strings: basic facts *)

Lemma dict_get_set_same {V : Type} (k : string) (v : V) (d : list (string * V)) :
  dict_get k (dict_set k v d) = Some v.
Proof.
  induction d as [|[k' v'] d IH]; simpl.
  - now rewrite String.eqb_refl.
  - destruct (String.eqb k k') eqn:E; simpl; rewrite ?String.eqb_refl, ?E; auto.
Qed.

Lemma dict_get_set_other {V : Type} (k k0 : string) (v : V) (d : list (string * V)) :
  k0 <> k -> dict_get k0 (dict_set k v d) = dict_get k0 d.
Proof.
  intros Hne. induction d as [|[k' v'] d IH]; simpl.
  - destruct (String.eqb k0 k) eqn:E; auto.
    apply String.eqb_eq in E. contradiction.
  - destruct (String.eqb k k') eqn:E; simpl.
    + apply String.eqb_eq in E. subst k'.
      destruct (String.eqb k0 k) eqn:E'; auto.
      apply String.eqb_eq in E'. contradiction.
    + now rewrite IH.
Qed.

Lemma dict_keys_set_present {V : Type} (k : string) (v v0 : V) (d : list (string * V)) :
  dict_get k d = Some v0 -> dict_keys (dict_set k v d) = dict_keys d.
Proof.
  unfold dict_keys. induction d as [|[k' v'] d IH]; simpl; [discriminate|].
  destruct (String.eqb k k') eqn:E; simpl; intros H.
  - apply String.eqb_eq in E. now subst.
  - now rewrite IH.
Qed.

Lemma py_in_In (s : string) (l : list string) : py_in s l = true <-> In s l.
Proof.
  unfold py_in. rewrite existsb_exists. split.
  - intros (x & Hx & E). apply String.eqb_eq in E. now subst.
  - intros H. exists s. split; auto. apply String.eqb_refl.
Qed.

Lemma lastn_length {A : Type} (n : nat) (l : list A) :
  List.length (lastn n l) = Nat.min n (List.length l).
Proof. unfold lastn. rewrite length_skipn. lia. Qed.

Lemma lastn_all {A : Type} (n : nat) (l : list A) :
  List.length l <= n -> lastn n l = l.
Proof.
  intros H. unfold lastn. replace (List.length l - n) with 0 by lia. reflexivity.
Qed.

Lemma lastn_app {A : Type} (n : nat) (l1 l2 : list A) :
  List.length l2 <= n -> lastn n (l1 ++ l2) = lastn (n - List.length l2) l1 ++ l2.
Proof.
  intros H. unfold lastn. rewrite length_app, skipn_app.
  replace (List.length l1 + List.length l2 - n - List.length l1) with 0 by lia.
  simpl. f_equal. f_equal. lia.
Qed.

Lemma lastn_lastn {A : Type} (m n : nat) (l : list A) :
  m <= n -> lastn m (lastn n l) = lastn m l.
Proof.
  intros H. unfold lastn. rewrite skipn_skipn, length_skipn. f_equal. lia.
Qed.

Lemma lastn_app_long {A : Type} (n : nat) (l1 l2 : list A) :
  n <= List.length l2 -> lastn n (l1 ++ l2) = lastn n l2.
Proof.
  intros H. unfold lastn. rewrite length_app, skipn_app.
  rewrite skipn_all2 by lia. simpl. f_equal. lia.
Qed.

(** A deque that is cut to its last [n] items at every step holds the last
    [n] items of everything it was given. *)
Lemma lastn_lastn_app {A : Type} (n : nat) (l1 l2 : list A) :
  lastn n (lastn n l1 ++ l2) = lastn n (l1 ++ l2).
Proof.
  destruct (Nat.le_gt_cases (List.length l2) n) as [H | H].
  - rewrite !lastn_app by assumption. f_equal. apply lastn_lastn. lia.
  - rewrite !lastn_app_long by lia. reflexivity.
Qed.

Lemma lastn_full_snoc {A : Type} (n : nat) (l : list A) (x : A) :
  List.length l = S n -> lastn (S n) (l ++ [x]) = tl l ++ [x].
Proof.
  intros H. rewrite lastn_app by (simpl; lia). f_equal.
  unfold lastn. simpl. rewrite H. replace (S n - (n - 0)) with 1 by lia.
  now destruct l.
Qed.

(** ** The memory store *)

Section MemoryStore.

Context (L : Library).

Lemma load_memory_run (w : world) :
  load_memory L w = (Return (stored L w), w).
Proof.
  unfold load_memory, stored, bind, path_exists, catch, read_text, py_json_loads.
  cbv beta iota.
  destruct (memory_file w) as [text|] eqn:E; [|reflexivity].
  cbv beta iota. rewrite E.
  now destruct (json_loads L text).
Qed.

Lemma save_memory_run (mem : json) (w : world) :
  save_memory L mem w = (Return tt, set_memory_file (Some (json_dumps L mem)) w).
Proof. reflexivity. Qed.

Lemma stored_unreadable (w : world) :
  unreadable L w -> stored L w = empty_memory.
Proof.
  unfold stored. intros [H | (text & H & Hparse)]; rewrite H; [|rewrite Hparse]; reflexivity.
Qed.

Lemma stored_set_memory_file (mem : json) (w : world) :
  JsonLaws L -> wf_json mem = true ->
  stored L (set_memory_file (Some (json_dumps L mem)) w) = mem.
Proof.
  intros laws Hwf. unfold stored. simpl. now rewrite (loads_dumps L laws).
Qed.

Lemma stored_wf (w : world) : JsonLaws L -> wf_json (stored L w) = true.
Proof.
  intros laws. unfold stored.
  destruct (memory_file w) as [text|]; [|reflexivity].
  destruct (json_loads L text) eqn:E; [|reflexivity].
  exact (loads_wf L laws _ _ E).
Qed.

(** [remember_mood] on a dict whose ["recent_moods"] value can be iterated. *)
Lemma remember_mood_run (w : world) (mood : string) (d : list (string * json))
  (items : list json) :
  stored L w = JObj d ->
  py_iter (recent_value d) = Return items ->
  remember_mood L mood w =
    (Return tt,
     set_memory_file
       (Some (json_dumps L
          (JObj (dict_set "recent_moods"
                   (JArr (lastn 10 (items ++ [mood_record L mood (clock w)]))) d))))
       w).
Proof.
  intros Hmem Hiter. unfold remember_mood, bind.
  rewrite load_memory_run, Hmem. unfold lift. simpl py_get. cbv iota beta.
  fold (recent_value d). rewrite Hiter. cbv iota beta. unfold utcnow. cbv iota beta.
  simpl py_setitem. cbv iota beta. rewrite save_memory_run.
  unfold deque_append, deque_new. simpl maxlen. simpl dq_items.
  rewrite lastn_lastn_app. reflexivity.
Qed.

(** [[m for m in items if m["mood"] == mood]] is a plain filter once every
    item can be asked for its mood. *)
Lemma same_mood_filter (mood : string) (items : list json) :
  forallb has_mood items = true ->
  same_mood mood items = Return (filter (mood_is mood) items).
Proof.
  induction items as [|m items IH]; simpl; [reflexivity|].
  unfold has_mood, mood_is. intros H. apply andb_true_iff in H as [Hm Hrest].
  destruct (py_getitem m "mood") as [v|e]; [|discriminate].
  now rewrite IH.
Qed.

Lemma filter_none {A : Type} (f : A -> bool) (l : list A) :
  Forall (fun x => f x = false) l -> filter f l = [].
Proof.
  induction 1 as [|x l Hx _ IH]; simpl; [reflexivity|]. now rewrite Hx.
Qed.

Lemma nth_error_snoc_last {A : Type} (l : list A) (x : A) :
  nth_error (l ++ [x]) (List.length (l ++ [x]) - 1) = Some x.
Proof.
  rewrite length_app. simpl. replace (List.length l + 1 - 1) with (List.length l) by lia.
  rewrite nth_error_app2 by lia. now rewrite Nat.sub_diag.
Qed.

Lemma within_hour_recent_at (now : Z) (r : json) :
  within_hour L now r = true <-> recent_at L now r.
Proof.
  unfold within_hour, recent_at. split.
  - destruct (py_getitem r "ts") as [[| | |s| |]|]; try discriminate.
    destruct (fromisoformat L s) as [[t|t]|] eqn:E; try discriminate.
    intros H. exists s, t. repeat split; auto. now apply Z.ltb_lt.
  - intros (s & t & -> & -> & H). now apply Z.ltb_lt.
Qed.

Lemma recent_mood_bias_run (w : world) (mood : string) (d : list (string * json))
  (records : list json) :
  stored L w = JObj d ->
  recent_value d = JArr records ->
  forallb has_mood records = true ->
  recent_mood_bias L mood w =
    (Return match filter (mood_is mood) records with
            | [] => 0%float
            | x :: rest => if within_hour L (clock w) (last (x :: rest) JNull)
                           then (-0.2)%float else 0%float
            end, w).
Proof.
  intros Hmem Hget Hmoods. unfold recent_mood_bias, bind.
  rewrite load_memory_run, Hmem. unfold lift. simpl py_get.
  fold (recent_value d). rewrite Hget.
  simpl py_iter. cbv iota beta. rewrite (same_mood_filter _ _ Hmoods).
  destruct (filter (mood_is mood) records) as [|x rest] eqn:Hf; [reflexivity|].
  destruct (exists_last (l := x :: rest)) as (front & r & Hlast); [discriminate|].
  rewrite Hlast, last_last. unfold catch, bind, lift, py_index.
  rewrite nth_error_snoc_last. cbv iota beta.
  unfold within_hour.
  destruct (py_getitem r "ts") as [ts|e]; [|reflexivity].
  destruct ts as [| | |s| |]; try reflexivity.
  unfold py_fromisoformat.
  destruct (fromisoformat L s) as [[t|t]|]; try reflexivity.
  unfold ret, utcnow. simpl datetime_sub. cbv iota beta.
  now destruct (clock w - t <? timedelta_minutes 60)%Z.
Qed.

(** *** Well-formed values are kept well-formed *)

Lemma nodup_keys_set {V : Type} (k : string) (v : V) (d : list (string * V)) :
  nodup_keys (map fst d) = true -> nodup_keys (map fst (dict_set k v d)) = true.
Proof.
  induction d as [|[k' v'] d IH]; simpl; [reflexivity|].
  intros H. apply andb_true_iff in H as [Hk Hd].
  destruct (String.eqb k k') eqn:E; simpl.
  - apply String.eqb_eq in E. subst k'. now rewrite Hk, Hd.
  - rewrite (IH Hd), andb_true_r.
    apply negb_true_iff. apply negb_true_iff in Hk.
    destruct (py_in k' (map fst (dict_set k v d))) eqn:Hin; [|reflexivity].
    apply py_in_In, in_map_iff in Hin. destruct Hin as ([k1 v1] & Hk1 & Hin).
    simpl in Hk1. subst k1.
    assert (Hnot : ~ In k' (map fst d)).
    { intros Hc. apply py_in_In in Hc. congruence. }
    exfalso. clear IH Hd Hk. induction d as [|[k2 v2] d IH]; simpl in *.
    + destruct Hin as [Hin|[]]. inversion Hin; subst.
      now rewrite String.eqb_refl in E.
    + destruct (String.eqb k k2) eqn:E2; simpl in Hin.
      * destruct Hin as [Hin|Hin].
        -- inversion Hin; subst. now rewrite String.eqb_refl in E.
        -- apply Hnot. right. apply in_map_iff. now exists (k', v1).
      * destruct Hin as [Hin|Hin].
        -- inversion Hin; subst. apply Hnot. now left.
        -- apply IH; auto.
Qed.

Lemma wf_fields_set (k : string) (v : json) (d : list (string * json)) :
  wf_json (JObj d) = true -> wf_json v = true -> wf_json (JObj (dict_set k v d)) = true.
Proof.
  simpl. intros H Hv. apply andb_true_iff in H as [Hk Hd].
  rewrite (nodup_keys_set _ _ _ Hk). simpl.
  clear Hk. induction d as [|[k' v'] d IH]; simpl in *.
  - now rewrite Hv.
  - apply andb_true_iff in Hd as [H1 H2].
    destruct (String.eqb k k'); simpl; rewrite ?Hv, ?H1, ?H2, ?IH; auto.
Qed.

Lemma wf_fields_get (k : string) (v : json) (d : list (string * json)) :
  wf_json (JObj d) = true -> dict_get k d = Some v -> wf_json v = true.
Proof.
  simpl. intros H. apply andb_true_iff in H as [_ Hd].
  induction d as [|[k' v'] d IH]; simpl in *; [discriminate|].
  apply andb_true_iff in Hd as [H1 H2].
  destruct (String.eqb k k'); [now intros [= <-]|auto].
Qed.

Lemma forallb_lastn {A : Type} (f : A -> bool) (n : nat) (l : list A) :
  forallb f l = true -> forallb f (lastn n l) = true.
Proof.
  unfold lastn. rewrite !forallb_forall. intros H x Hx. apply H.
  rewrite <- (firstn_skipn (List.length l - n) l). apply in_or_app. now right.
Qed.

Lemma recent_value_set (v : json) (d : list (string * json)) :
  recent_value (dict_set "recent_moods" v d) = v.
Proof. unfold recent_value. now rewrite dict_get_set_same. Qed.

Lemma wf_recent_value (d : list (string * json)) :
  wf_json (JObj d) = true -> wf_json (recent_value d) = true.
Proof.
  intros Hwf. unfold recent_value.
  destruct (dict_get "recent_moods" d) as [v|] eqn:E; [|reflexivity].
  exact (wf_fields_get _ _ _ Hwf E).
Qed.

Lemma is_memory_inv (mem : json) :
  is_memory mem = true ->
  exists d records, mem = JObj d /\ recent_value d = JArr records.
Proof.
  destruct mem as [| | | | |d]; try discriminate. simpl.
  destruct (recent_value d) as [| | | |records|] eqn:E; try discriminate.
  intros _. now exists d, records.
Qed.

(** One call of [remember_mood] on a memory state, read back through
    [load_memory]. *)
Lemma remember_mood_step (w : world) (mood : string) :
  JsonLaws L -> is_memory (stored L w) = true ->
  fst (remember_mood L mood w) = Return tt /\
  is_memory (stored L (snd (remember_mood L mood w))) = true /\
  recent_moods_of (stored L (snd (remember_mood L mood w))) =
    lastn 10 (recent_moods_of (stored L w) ++ [mood_record L mood (clock w)]).
Proof.
  intros laws Hmem.
  destruct (is_memory_inv _ Hmem) as (d & records & Hd & Hget).
  assert (Hwf : wf_json (JObj d) = true) by (rewrite <- Hd; now apply stored_wf).
  rewrite (remember_mood_run w mood d records Hd) by now rewrite Hget.
  simpl fst. simpl snd. rewrite stored_set_memory_file; auto.
  - rewrite Hd. unfold is_memory, recent_moods_of.
    now rewrite recent_value_set, Hget.
  - apply wf_fields_set; auto.
    change (forallb wf_json (lastn 10 (records ++ [mood_record L mood (clock w)])) = true).
    apply forallb_lastn. rewrite forallb_app. simpl. rewrite andb_true_r.
    pose proof (wf_recent_value d Hwf) as Hv. now rewrite Hget in Hv.
Qed.

Lemma stored_set_clock (t : Z) (w : world) : stored L (set_clock t w) = stored L w.
Proof. reflexivity. Qed.

Lemma remember_all_run (entries : list (string * Z)) (w : world) :
  JsonLaws L -> is_memory (stored L w) = true ->
  List.length (recent_moods_of (stored L w)) <= 10 ->
  fst (remember_all L entries w) = Return tt /\
  recent_moods_of (stored L (snd (remember_all L entries w))) =
    lastn 10 (recent_moods_of (stored L w)
              ++ map (fun e => mood_record L (fst e) (snd e)) entries).
Proof.
  intros laws. revert w.
  induction entries as [|[mood t] entries IH]; intros w Hmem Hlen.
  - simpl. split; [reflexivity|]. rewrite app_nil_r. symmetry. now apply lastn_all.
  - destruct (remember_mood_step (set_clock t w) mood laws Hmem) as (Hret & Hmem' & Hrec).
    simpl remember_all. unfold bind.
    destruct (remember_mood L mood (set_clock t w)) as [o w'] eqn:Hrun.
    simpl in Hret, Hmem', Hrec. subst o.
    assert (Hlen' : List.length (recent_moods_of (stored L w')) <= 10).
    { rewrite Hrec, lastn_length. lia. }
    destruct (IH w' Hmem' Hlen') as (Hret' & Hrec').
    split; [exact Hret'|].
    rewrite Hrec', Hrec, stored_set_clock, lastn_lastn_app, <- app_assoc.
    reflexivity.
Qed.

(** C6: [load_memory] never raises and leaves the world as it is; when the
    backing file is missing or its text does not parse, it returns the empty
    state, and the operations that load memory act as on the empty state:
    [recent_mood_bias] finds no record, [remember_mood] writes a state
    holding the new record alone, and the [save] command writes the empty
    state. *)
Theorem load_memory_fails_soft (w : world) :
  (exists mem, load_memory L w = (Return mem, w)) /\
  (unreadable L w ->
   load_memory L w = (Return empty_memory, w) /\
   (forall mood,
      recent_mood_bias L mood w = (Return 0%float, w) /\
      remember_mood L mood w =
        (Return tt,
         set_memory_file
           (Some (json_dumps L
              (JObj [("recent_moods", JArr [mood_record L mood (clock w)])]))) w)) /\
   (forall message,
      lower (strip message) = "save" ->
      handle_message L message w =
        (Return tt,
         push_outbox (Plain "Memory saved to disk.")
           (set_memory_file (Some (json_dumps L empty_memory)) w)))).
Proof.
  split.
  - exists (stored L w). apply load_memory_run.
  - intros Hbad. pose proof (stored_unreadable w Hbad) as Hempty.
    split; [now rewrite load_memory_run, Hempty|]. split.
    + intros mood. split.
      * rewrite (recent_mood_bias_run w mood _ [] Hempty); reflexivity.
      * rewrite (remember_mood_run w mood _ [] Hempty); reflexivity.
    + intros message Hsave. unfold handle_message. rewrite Hsave.
      change (String.eqb "save" "save") with true. cbv iota.
      unfold bind. rewrite load_memory_run, Hempty, save_memory_run. reflexivity.
Qed.

(** C8: [save_memory] followed by [load_memory] gives back the state that was
    saved, for every state Python can hold (json round-trips it); in
    particular the list of mood/timestamp records, in the same order. *)
Theorem save_then_load (w : world) (mem : json) :
  JsonLaws L -> wf_json mem = true ->
  fst (save_memory L mem w) = Return tt /\
  load_memory L (snd (save_memory L mem w)) =
    (Return mem, snd (save_memory L mem w)) /\
  recent_moods_of (stored L (snd (save_memory L mem w))) = recent_moods_of mem.
Proof.
  intros laws Hwf. rewrite save_memory_run. simpl fst. simpl snd.
  rewrite load_memory_run, stored_set_memory_file by assumption.
  repeat split.
Qed.

Lemma filter_other_set {V : Type} (k : string) (v : V) (d : list (string * V)) :
  filter (fun kv => negb (String.eqb (fst kv) k)) (dict_set k v d)
  = filter (fun kv => negb (String.eqb (fst kv) k)) d.
Proof.
  induction d as [|[k' v'] d IH]; simpl.
  - now rewrite String.eqb_refl.
  - destruct (String.eqb k k') eqn:E; simpl.
    + apply String.eqb_eq in E. subst k'. now rewrite String.eqb_refl.
    + now rewrite IH.
Qed.

Lemma other_fields_set (v : json) (d : list (string * json)) :
  other_fields (dict_set "recent_moods" v d) = other_fields d.
Proof. apply filter_other_set. Qed.

(** C10: [remember_mood] changes the ["recent_moods"] entry only: the dict it
    writes back has every other top-level entry of the loaded dict, with the
    same value and in the same order. *)
Theorem remember_mood_frame (w : world) (mood : string)
  (d : list (string * json)) (items : list json) :
  stored L w = JObj d ->
  py_iter (recent_value d) = Return items ->
  exists d',
    remember_mood L mood w =
      (Return tt, set_memory_file (Some (json_dumps L (JObj d'))) w) /\
    other_fields d' = other_fields d /\
    forall k, k <> "recent_moods" -> dict_get k d' = dict_get k d.
Proof.
  intros Hd Hiter.
  exists (dict_set "recent_moods"
            (JArr (lastn 10 (items ++ [mood_record L mood (clock w)]))) d).
  split; [now apply remember_mood_run|].
  split; [apply other_fields_set|].
  intros k Hk. now apply dict_get_set_other.
Qed.

(** C4: [remember_mood] leaves at most 10 records: the new record, stamped
    with the clock, goes last, and a state that already holds 10 loses its
    first record.  Called 11 times from the empty state it leaves exactly 10
    records: those of the calls 2 to 11, in order. *)
Theorem remember_mood_bounded :
  JsonLaws L ->
  (forall w mood,
     is_memory (stored L w) = true ->
     let old := recent_moods_of (stored L w) in
     let new := recent_moods_of (stored L (snd (remember_mood L mood w))) in
     fst (remember_mood L mood w) = Return tt /\
     new = lastn 10 (old ++ [mood_record L mood (clock w)]) /\
     List.length new <= 10 /\
     (List.length old < 10 -> new = old ++ [mood_record L mood (clock w)]) /\
     (List.length old = 10 -> new = tl old ++ [mood_record L mood (clock w)])) /\
  (forall w entries,
     stored L w = empty_memory ->
     List.length entries = 11 ->
     let new := recent_moods_of (stored L (snd (remember_all L entries w))) in
     fst (remember_all L entries w) = Return tt /\
     new = map (fun e => mood_record L (fst e) (snd e)) (tl entries) /\
     List.length new = 10).
Proof.
  intros laws. split.
  - intros w mood Hmem old new.
    destruct (remember_mood_step w mood laws Hmem) as (Hret & _ & Hnew).
    fold old new in Hnew. split; [exact Hret|]. split; [exact Hnew|].
    split; [rewrite Hnew, lastn_length; lia|]. split.
    + intros Hlen. rewrite Hnew. apply lastn_all. rewrite length_app. simpl. lia.
    + intros Hlen. rewrite Hnew. now apply (lastn_full_snoc 9).
  - intros w entries Hempty Hlen new.
    assert (Hmem : is_memory (stored L w) = true) by now rewrite Hempty.
    destruct (remember_all_run entries w laws Hmem) as (Hret & Hnew).
    { rewrite Hempty. simpl. lia. }
    fold new in Hnew. rewrite Hempty in Hnew. simpl app in Hnew.
    split; [exact Hret|].
    assert (Hmap : new = map (fun e => mood_record L (fst e) (snd e)) (tl entries)).
    { rewrite Hnew. destruct entries as [|e entries]; [discriminate|].
      simpl in Hlen. simpl tl.
      change (lastn 10 ([mood_record L (fst e) (snd e)]
                        ++ map (fun e => mood_record L (fst e) (snd e)) entries)
              = map (fun e => mood_record L (fst e) (snd e)) entries).
      rewrite lastn_app_long by (rewrite length_map; lia).
      apply lastn_all. rewrite length_map. lia. }
    split; [exact Hmap|].
    rewrite Hmap, length_map. destruct entries; simpl in *; lia.
Qed.

(** C1: [recent_mood_bias m] is -0.2 when the most recent record whose mood
    is [m] carries a timestamp less than 60 minutes before now, and 0.0
    otherwise, also when no record has mood [m]; the records before the most
    recent one for [m] play no part. *)
Theorem recent_mood_bias_latest (w : world) (mood : string) :
  is_mood_memory (stored L w) = true ->
  let records := recent_moods_of (stored L w) in
  (Forall (fun r => mood_is mood r = false) records ->
   recent_mood_bias L mood w = (Return 0%float, w)) /\
  (forall earlier r later,
     records = earlier ++ r :: later ->
     mood_is mood r = true ->
     Forall (fun x => mood_is mood x = false) later ->
     (recent_at L (clock w) r ->
      recent_mood_bias L mood w = (Return (-0.2)%float, w)) /\
     (~ recent_at L (clock w) r ->
      recent_mood_bias L mood w = (Return 0%float, w))).
Proof.
  intros Hmem records. unfold is_mood_memory in Hmem.
  apply andb_true_iff in Hmem as [Hmem Hmoods]. fold records in Hmoods.
  destruct (is_memory_inv _ Hmem) as (d & recs & Hd & Hget).
  assert (Hrecs : records = recs).
  { unfold records. rewrite Hd. simpl. now rewrite Hget. }
  rewrite Hrecs in *. clear Hrecs records.
  rewrite (recent_mood_bias_run w mood d recs Hd Hget Hmoods).
  split.
  - intros Hnone. now rewrite filter_none.
  - intros earlier r later Hsplit Hr Hlater.
    assert (Hf : filter (mood_is mood) recs = filter (mood_is mood) earlier ++ [r]).
    { rewrite Hsplit, filter_app. cbn [filter]. rewrite Hr, (filter_none _ _ Hlater).
      reflexivity. }
    rewrite Hf.
    destruct (filter (mood_is mood) earlier ++ [r]) as [|x rest] eqn:Hne.
    { now destruct (filter (mood_is mood) earlier). }
    rewrite <- Hne, last_last.
    split; intros Hrecent.
    + apply within_hour_recent_at in Hrecent. now rewrite Hrecent.
    + destruct (within_hour L (clock w) r) eqn:Hwh; [|reflexivity].
      apply within_hour_recent_at in Hwh. contradiction.
Qed.

End MemoryStore.

(** ** Binary64 floats: the laws of the order *)

Module FloatFacts.

Import FloatOrder.

Lemma SFcompare_key (x y : spec_float) :
  match SFcompare x y with
  | None => sf_key x = None \/ sf_key y = None
  | Some c =>
      exists a b, sf_key x = Some a /\ sf_key y = Some b /\
        match c with
        | Lt => key_lt a b
        | Eq => a = b
        | Gt => key_lt b a
        end
  end.
Proof.
  destruct x as [sx|sx| |sx mx ex], y as [sy|sy| |sy my ey]; simpl; auto;
    eexists; eexists; (split; [reflexivity|split; [reflexivity|]]);
    destruct sx, sy; simpl; try reflexivity; try lia;
    destruct (Z.compare_spec ex ey); simpl; try lia;
    fold (Pos.compare mx my); destruct (Pos.compare_spec mx my); simpl; try lia;
    subst; reflexivity.
Qed.

Lemma ltb_key (x y : float) :
  (x <? y)%float = true <->
  exists a b, fkey x = Some a /\ fkey y = Some b /\ key_lt a b.
Proof.
  rewrite ltb_spec. unfold SFltb, fkey.
  pose proof (SFcompare_key (Prim2SF x) (Prim2SF y)) as H.
  destruct (SFcompare (Prim2SF x) (Prim2SF y)) as [[| |]|].
  - destruct H as (a & b & Ha & Hb & ->). split; [discriminate|].
    intros (a' & b' & Ha' & Hb' & Hlt). rewrite Ha in Ha'. rewrite Hb in Hb'.
    inversion Ha'; inversion Hb'; subst. destruct b' as [[? ?] ?]. simpl in Hlt. lia.
  - destruct H as (a & b & Ha & Hb & Hlt). split; auto. intros _. now exists a, b.
  - destruct H as (a & b & Ha & Hb & Hlt). split; [discriminate|].
    intros (a' & b' & Ha' & Hb' & Hlt'). rewrite Ha in Ha'. rewrite Hb in Hb'.
    inversion Ha'; inversion Hb'; subst.
    destruct a' as [[? ?] ?], b' as [[? ?] ?]. simpl in *. lia.
  - split; [discriminate|].
    intros (a' & b' & Ha' & Hb' & _). destruct H; congruence.
Qed.

Lemma leb_key (x y : float) :
  (x <=? y)%float = true <->
  exists a b, fkey x = Some a /\ fkey y = Some b /\ key_le a b.
Proof.
  rewrite leb_spec. unfold SFleb, fkey.
  pose proof (SFcompare_key (Prim2SF x) (Prim2SF y)) as H.
  destruct (SFcompare (Prim2SF x) (Prim2SF y)) as [[| |]|].
  - destruct H as (a & b & Ha & Hb & ->). split; auto. intros _.
    exists b, b. repeat split; auto. destruct b as [[? ?] ?]. simpl. lia.
  - destruct H as (a & b & Ha & Hb & Hlt). split; auto. intros _. exists a, b.
    repeat split; auto. destruct a as [[? ?] ?], b as [[? ?] ?]. simpl in *. lia.
  - destruct H as (a & b & Ha & Hb & Hlt). split; [discriminate|].
    intros (a' & b' & Ha' & Hb' & Hlt'). rewrite Ha in Ha'. rewrite Hb in Hb'.
    inversion Ha'; inversion Hb'; subst.
    destruct a' as [[? ?] ?], b' as [[? ?] ?]. simpl in *. lia.
  - split; [discriminate|].
    intros (a' & b' & Ha' & Hb' & _). destruct H; congruence.
Qed.

Ltac key_facts :=
  repeat match goal with
  | H : (_ <? _)%float = true |- _ => apply ltb_key in H; destruct H as (? & ? & ? & ? & H)
  | H : (_ <=? _)%float = true |- _ => apply leb_key in H; destruct H as (? & ? & ? & ? & H)
  | H : not_nan _ |- _ => destruct H as (? & H)
  end;
  repeat match goal with
  | H1 : fkey ?x = Some ?a, H2 : fkey ?x = Some ?b |- _ =>
      rewrite H1 in H2; injection H2 as H2; subst b
  end.

Ltac key_arith :=
  repeat match goal with
  | a : (Z * Z * Z)%type |- _ => destruct a as [[? ?] ?]
  end;
  unfold key_lt, key_le in *; simpl in *; lia.

Lemma leb_trans (x y z : float) :
  (x <=? y)%float = true -> (y <=? z)%float = true -> (x <=? z)%float = true.
Proof.
  intros H1 H2. key_facts. apply leb_key. eexists; eexists.
  repeat split; eauto. key_arith.
Qed.

Lemma ltb_leb_trans (x y z : float) :
  (x <? y)%float = true -> (y <=? z)%float = true -> (x <? z)%float = true.
Proof.
  intros H1 H2. key_facts. apply ltb_key. eexists; eexists.
  repeat split; eauto. key_arith.
Qed.

Lemma leb_ltb_trans (x y z : float) :
  (x <=? y)%float = true -> (y <? z)%float = true -> (x <? z)%float = true.
Proof.
  intros H1 H2. key_facts. apply ltb_key. eexists; eexists.
  repeat split; eauto. key_arith.
Qed.

Lemma ltb_leb (x y : float) : (x <? y)%float = true -> (x <=? y)%float = true.
Proof.
  intros H. key_facts. apply leb_key. eexists; eexists.
  repeat split; eauto. key_arith.
Qed.

Lemma ltb_not_leb (x y : float) : (x <? y)%float = true -> (y <=? x)%float = false.
Proof.
  intros H. destruct (y <=? x)%float eqn:E; [|reflexivity]. key_facts. key_arith.
Qed.

Lemma leb_not_ltb (x y : float) : (x <=? y)%float = true -> (y <? x)%float = false.
Proof.
  intros H. destruct (y <? x)%float eqn:E; [|reflexivity]. key_facts. key_arith.
Qed.

(** Two floats that are not NaN compare one way or the other. *)
Lemma not_ltb_leb (x y : float) :
  not_nan x -> not_nan y -> (x <? y)%float = false -> (y <=? x)%float = true.
Proof.
  intros Hx Hy H. destruct Hx as (a & Ha), Hy as (b & Hb). apply leb_key.
  exists b, a. repeat split; auto.
  assert (Hn : ~ key_lt a b).
  { intros Hlt. assert ((x <? y)%float = true) by (apply ltb_key; now exists a, b).
    congruence. }
  key_arith.
Qed.

Lemma not_leb_ltb (x y : float) :
  not_nan x -> not_nan y -> (x <=? y)%float = false -> (y <? x)%float = true.
Proof.
  intros Hx Hy H. destruct Hx as (a & Ha), Hy as (b & Hb). apply ltb_key.
  exists b, a. repeat split; auto.
  assert (Hn : ~ key_le a b).
  { intros Hle. assert ((x <=? y)%float = true) by (apply leb_key; now exists a, b).
    congruence. }
  key_arith.
Qed.

Lemma leb_not_nan (x y : float) :
  (x <=? y)%float = true -> not_nan x /\ not_nan y.
Proof. intros H. key_facts. split; eexists; eauto. Qed.

Lemma ltb_not_nan (x y : float) :
  (x <? y)%float = true -> not_nan x /\ not_nan y.
Proof. intros H. key_facts. split; eexists; eauto. Qed.

Lemma is_nan_not_nan (x : float) : is_nan x = false <-> not_nan x.
Proof.
  unfold is_nan, not_nan, fkey. rewrite negb_false_iff, eqb_spec. unfold SFeqb.
  pose proof (SFcompare_key (Prim2SF x) (Prim2SF x)) as H.
  destruct (SFcompare (Prim2SF x) (Prim2SF x)) as [[| |]|].
  - destruct H as (a & _ & Ha & _). split; eauto.
  - destruct H as (a & b & Ha & Hb & Hlt). rewrite Ha in Hb. injection Hb as <-.
    exfalso. key_arith.
  - destruct H as (a & b & Ha & Hb & Hlt). rewrite Ha in Hb. injection Hb as <-.
    exfalso. key_arith.
  - split; [discriminate|]. intros (a & Ha). destruct H; congruence.
Qed.

End FloatFacts.

(** ** The mood classifier *)

Lemma prefix_spec (sub s : string) :
  String.prefix sub s = true <-> exists post, s = (sub ++ post)%string.
Proof.
  revert s. induction sub as [|a sub IH]; intros s.
  - destruct s; simpl; split; eauto.
  - destruct s as [|b s]; simpl.
    + split; [discriminate|]. intros (post & H). discriminate.
    + destruct (ascii_dec a b) as [->|Hne].
      * rewrite IH. split; intros (post & H); exists post; [now rewrite H|].
        now injection H.
      * split; [discriminate|]. intros (post & H). injection H as H1 H2. congruence.
Qed.

Lemma contains_unfold (sub s : string) :
  contains sub s =
    if String.prefix sub s then true
    else match s with
         | EmptyString => false
         | String _ rest => contains sub rest
         end.
Proof. now destruct s. Qed.

Lemma contains_spec (sub s : string) : contains sub s = true <-> occurs sub s.
Proof.
  unfold occurs. split.
  - induction s as [|c s IH]; rewrite contains_unfold;
      destruct (String.prefix sub _) eqn:E.
    + apply prefix_spec in E as (post & ->). intros _. now exists EmptyString, post.
    + discriminate.
    + apply prefix_spec in E as (post & ->). intros _. now exists EmptyString, post.
    + intros H. destruct (IH H) as (pre & post & ->). now exists (String c pre), post.
  - intros (pre & post & ->). induction pre as [|c pre IH]; rewrite contains_unfold.
    + simpl. replace (String.prefix sub (sub ++ post)) with true; [reflexivity|].
      symmetry. apply prefix_spec. now exists post.
    + change ((String c pre ++ sub ++ post)%string)
        with (String c (pre ++ sub ++ post)%string).
      cbv iota. rewrite IH.
      match goal with |- (if ?b then _ else _) = _ => now destruct b end.
Qed.

Lemma filter_nil_existsb {A : Type} (f : A -> bool) (l : list A) :
  filter f l = [] <-> existsb f l = false.
Proof.
  induction l as [|x l IH]; simpl; [tauto|].
  destruct (f x); simpl; [split; discriminate|exact IH].
Qed.

Lemma existsb_occurs (t : string) (kws : list string) :
  existsb (fun kw => contains kw t) kws = true <->
  exists kw, In kw kws /\ occurs kw t.
Proof.
  rewrite existsb_exists. split; intros (kw & Hin & H); exists kw; split; auto;
    now apply contains_spec.
Qed.

Section Scores.

Context (scores : scores_t).

Lemma score_of_add_same (k : string) (d : float) :
  score_of (score_add k d scores) k = (score_of scores k + d)%float.
Proof. unfold score_add, score_of at 1. now rewrite dict_get_set_same. Qed.

Lemma score_of_add_other (k m : string) (d : float) :
  m <> k -> score_of (score_add k d scores) m = score_of scores m.
Proof.
  intros H. unfold score_add, score_of at 1. rewrite dict_get_set_other by assumption.
  reflexivity.
Qed.

Lemma dict_keys_add (k : string) (d : float) :
  In k (dict_keys scores) -> dict_keys (score_add k d scores) = dict_keys scores.
Proof.
  intros Hin. unfold score_add.
  destruct (dict_get k scores) as [v0|] eqn:E.
  - now apply dict_keys_set_present with (v0 := v0).
  - exfalso. unfold dict_keys in Hin. clear -Hin E.
    induction scores as [|[k' v'] l IH]; simpl in *; [assumption|].
    destruct (String.eqb k k') eqn:Ek; [discriminate|].
    destruct Hin as [Hin|Hin]; [subst; now rewrite String.eqb_refl in Ek|auto].
Qed.

End Scores.

(** The keyword loop, seen from one mood. *)
Lemma keyword_fold_other (t : string) (table : list (string * list string))
  (st : scores_t * list reason) (m : string) :
  ~ In m (map fst table) ->
  score_of (fst (fold_left (keyword_step t) table st)) m = score_of (fst st) m.
Proof.
  revert st. induction table as [|[k kws] table IH]; intros st Hnot; simpl; [reflexivity|].
  rewrite IH by (intros H; apply Hnot; now right).
  unfold keyword_step. destruct (keyword_hits t kws); [reflexivity|].
  simpl. apply score_of_add_other. intros ->. apply Hnot. now left.
Qed.

Lemma keyword_fold_in (t : string) (table : list (string * list string))
  (st : scores_t * list reason) (m : string) (kws : list string) :
  nodup_keys (map fst table) = true -> In (m, kws) table ->
  score_of (fst (fold_left (keyword_step t) table st)) m =
    if existsb (fun kw => contains kw t) kws
    then (score_of (fst st) m + 0.6)%float
    else score_of (fst st) m.
Proof.
  revert st. induction table as [|[k kws'] table IH]; intros st Hnd Hin; [destruct Hin|].
  simpl in Hnd. apply andb_true_iff in Hnd as [Hk Hnd]. apply negb_true_iff in Hk.
  simpl fold_left. destruct Hin as [Heq|Hin].
  - injection Heq as -> ->.
    rewrite keyword_fold_other
      by (intros Hc; apply py_in_In in Hc; congruence).
    unfold keyword_step, keyword_hits.
    destruct (filter (fun kw => contains kw t) kws) as [|h hs] eqn:Hf.
    + apply filter_nil_existsb in Hf. now rewrite Hf.
    + destruct (existsb (fun kw => contains kw t) kws) eqn:He.
      * simpl. apply score_of_add_same.
      * apply filter_nil_existsb in He. congruence.
  - rewrite (IH _ Hnd Hin).
    assert (Hne : m <> k).
    { intros ->. assert (In k (map fst table)) by (apply in_map_iff; now exists (k, kws)).
      apply py_in_In in H. congruence. }
    unfold keyword_step. destruct (keyword_hits t kws'); [reflexivity|].
    simpl. now rewrite score_of_add_other.
Qed.

Lemma keyword_fold_keys (t : string) (table : list (string * list string))
  (st : scores_t * list reason) :
  (forall k, In k (map fst table) -> In k (dict_keys (fst st))) ->
  dict_keys (fst (fold_left (keyword_step t) table st)) = dict_keys (fst st).
Proof.
  revert st. induction table as [|[k kws] table IH]; intros st H; cbn [fold_left];
    [reflexivity|].
  assert (Hk : dict_keys (fst (keyword_step t st (k, kws))) = dict_keys (fst st)).
  { unfold keyword_step. destruct (keyword_hits t kws); [reflexivity|].
    simpl. apply dict_keys_add. apply H. now left. }
  rewrite IH; [exact Hk|]. intros k' Hk'. rewrite Hk. apply H. now right.
Qed.

(** *** The keyword step *)

(** The keyword loop: a mood with a keyword list gets exactly +0.6 when at
    least one of its keywords occurs in the lowercased text, once however
    many of them occur, and nothing when none occurs; a mood without a
    keyword list gets nothing. *)
Lemma keyword_loop_adds_once (text : string) (scores : scores_t)
  (reasons : list reason) :
  let text_l := lower text in
  let st := fold_left (keyword_step text_l) MOOD_KEYWORDS (scores, reasons) in
  (forall mood kws,
     In (mood, kws) MOOD_KEYWORDS ->
     ((exists kw, In kw kws /\ occurs kw text_l) ->
      score_of (fst st) mood = (score_of scores mood + 0.6)%float) /\
     ((forall kw, In kw kws -> ~ occurs kw text_l) ->
      score_of (fst st) mood = score_of scores mood)) /\
  (forall mood,
     ~ In mood (map fst MOOD_KEYWORDS) ->
     score_of (fst st) mood = score_of scores mood).
Proof.
  intros text_l st. split.
  - intros mood kws Hin.
    assert (Hst : score_of (fst st) mood =
                  if existsb (fun kw => contains kw text_l) kws
                  then (score_of scores mood + 0.6)%float
                  else score_of scores mood).
    { unfold st. now rewrite (keyword_fold_in text_l MOOD_KEYWORDS _ mood kws). }
    split.
    + intros Hhit. apply existsb_occurs in Hhit. now rewrite Hst, Hhit.
    + intros Hnone. rewrite Hst.
      destruct (existsb (fun kw => contains kw text_l) kws) eqn:E; [|reflexivity].
      apply existsb_occurs in E as (kw & Hkw & Hocc). now destruct (Hnone kw Hkw).
  - intros mood Hnot. unfold st. now rewrite keyword_fold_other.
Qed.

(** *** The sentiment step *)

Lemma applies_rule_add (scores : scores_t) (mood : string) (delta : float) :
  applies_rule scores (score_add mood delta scores) mood delta.
Proof.
  split; [reflexivity|]. split; [apply score_of_add_same|].
  intros m Hm. now apply score_of_add_other.
Qed.

(** Closes a goal whose hypotheses order two constants the wrong way round. *)
Ltac float_absurd :=
  exfalso;
  match goal with
  | H1 : (?a <=? ?c)%float = true, H2 : (?c <=? ?b)%float = true |- _ =>
      pose proof (FloatFacts.leb_trans a c b H1 H2) as Habs; vm_compute in Habs;
      discriminate Habs
  | H1 : (?a <=? ?c)%float = true, H2 : (?c <? ?b)%float = true |- _ =>
      pose proof (FloatFacts.leb_ltb_trans a c b H1 H2) as Habs; vm_compute in Habs;
      discriminate Habs
  | H1 : (?a <? ?c)%float = true, H2 : (?c <=? ?b)%float = true |- _ =>
      pose proof (FloatFacts.ltb_leb_trans a c b H1 H2) as Habs; vm_compute in Habs;
      discriminate Habs
  | H1 : (?a <? ?c)%float = true, H2 : (?c <? ?b)%float = true |- _ =>
      pose proof (FloatFacts.ltb_leb_trans a c b H1 (FloatFacts.ltb_leb c b H2)) as Habs;
      vm_compute in Habs; discriminate Habs
  end.

Lemma const_not_nan (x : float) : is_nan x = false -> FloatOrder.not_nan x.
Proof. apply FloatFacts.is_nan_not_nan. Qed.

(** The branch the chain takes under each condition. *)
Lemma sentiment_step_branch (k : sentiment_kind) (c : float) (st : scores_t * list reason) :
  rule_condition k c ->
  sentiment_step c st =
    (score_add (rule_mood k) (rule_delta k) (fst st),
     snd st ++ [SentimentReason k c (rule_mood k)]).
Proof.
  unfold sentiment_step. destruct k; simpl.
  - intros H1. now rewrite H1.
  - intros [H2 H1]. now rewrite (FloatFacts.ltb_not_leb _ _ H1), H2.
  - intros H3.
    destruct (0.5 <=? c)%float eqn:E1; [float_absurd|].
    destruct (0.05 <=? c)%float eqn:E2; [float_absurd|].
    now rewrite H3.
  - intros [H3 H4].
    destruct (0.5 <=? c)%float eqn:E1; [float_absurd|].
    destruct (0.05 <=? c)%float eqn:E2; [float_absurd|].
    now rewrite (FloatFacts.ltb_not_leb _ _ H3), H4.
  - intros [H4 H2].
    destruct (0.5 <=? c)%float eqn:E1; [float_absurd|].
    rewrite (FloatFacts.ltb_not_leb _ _ H2).
    destruct (c <=? -0.5)%float eqn:E3; [float_absurd|].
    now rewrite (FloatFacts.ltb_not_leb _ _ H4).
Qed.

(** The sentiment step applies exactly one of the five rules, the first
    that matches from the highest threshold down: c >= 0.5 adds 0.5 to happy;
    0.05 <= c < 0.5 adds 0.2 to happy; c <= -0.5 adds 0.5 to sad;
    -0.5 < c <= -0.05 adds 0.2 to stressed; -0.05 < c < 0.05 adds 0.2 to
    neutral.  The rule changes the score of its own mood only; no two rules
    hold of the same score, and a score that is a number falls under one. *)
Lemma sentiment_step_applies (c : float) (scores : scores_t) (reasons : list reason) :
  (forall k,
     rule_condition k c ->
     applies_rule scores (fst (sentiment_step c (scores, reasons)))
       (rule_mood k) (rule_delta k) /\
     snd (sentiment_step c (scores, reasons))
       = reasons ++ [SentimentReason k c (rule_mood k)]) /\
  (forall j k, rule_condition j c -> rule_condition k c -> j = k) /\
  (FloatOrder.not_nan c -> exists k, rule_condition k c).
Proof.
  split; [|split].
  - intros k Hk. rewrite (sentiment_step_branch k c _ Hk). simpl.
    split; [apply applies_rule_add|reflexivity].
  - intros j k Hj Hk.
    destruct j, k; simpl in Hj, Hk; try reflexivity;
      repeat match goal with H : _ /\ _ |- _ => destruct H end; float_absurd.
  - intros Hc.
    destruct (0.5 <=? c)%float eqn:E1; [now exists Positive|].
    apply FloatFacts.not_leb_ltb in E1; [|now apply const_not_nan|assumption].
    destruct (0.05 <=? c)%float eqn:E2; [now exists SlightlyPositive|].
    apply FloatFacts.not_leb_ltb in E2; [|now apply const_not_nan|assumption].
    destruct (c <=? -0.5)%float eqn:E3; [now exists Negative|].
    apply FloatFacts.not_leb_ltb in E3; [|assumption|now apply const_not_nan].
    destruct (c <=? -0.05)%float eqn:E4; [now exists SlightlyNegative|].
    apply FloatFacts.not_leb_ltb in E4; [|assumption|now apply const_not_nan].
    now exists NeutralSentiment.
Qed.

(** *** The recency penalty and the choice of the mood *)

(** [max] keeps the first item whose key is greatest: every item before the
    chosen one has a strictly smaller key, every item after it a key that is
    not greater. *)
Lemma max_from_inv {A : Type} (key : A -> float) (items : list A) :
  forall (before : list A) (best : A) (mid : list A),
    (forall x, In x (before ++ best :: mid ++ items) -> FloatOrder.not_nan (key x)) ->
    (forall x, In x before -> (key x <? key best)%float = true) ->
    (forall x, In x mid -> (key x <=? key best)%float = true) ->
    exists before' after',
      before ++ best :: mid ++ items = before' ++ max_from key best items :: after' /\
      (forall x, In x before' -> (key x <? key (max_from key best items))%float = true) /\
      (forall x, In x after' -> (key x <=? key (max_from key best items))%float = true).
Proof.
  induction items as [|x items IH]; intros before best mid Hnan Hbefore Hmid.
  - exists before, mid. rewrite app_nil_r. simpl. auto.
  - simpl max_from. destruct (key best <? key x)%float eqn:E.
    + destruct (IH (before ++ best :: mid) x []) as (b' & a' & Heq & Hb & Ha).
      * intros y Hy. apply Hnan. rewrite <- app_assoc in Hy. exact Hy.
      * intros y Hy. apply in_app_or in Hy as [Hy|[<-|Hy]].
        -- eapply FloatFacts.ltb_leb_trans; [apply Hbefore, Hy|].
           now apply FloatFacts.ltb_leb.
        -- exact E.
        -- eapply FloatFacts.leb_ltb_trans; [apply Hmid, Hy|exact E].
      * intros y [].
      * exists b', a'. rewrite <- Heq. rewrite <- app_assoc. simpl. auto.
    + destruct (IH before best (mid ++ [x])) as (b' & a' & Heq & Hb & Ha).
      * intros y Hy. apply Hnan. rewrite <- app_assoc in Hy. exact Hy.
      * exact Hbefore.
      * intros y Hy. apply in_app_or in Hy as [Hy|[<-|[]]]; [now apply Hmid|].
        apply FloatFacts.not_ltb_leb; [| |exact E]; apply Hnan;
          apply in_or_app; right; simpl; [now left|right].
        apply in_or_app. right. now left.
      * exists b', a'. rewrite <- Heq. rewrite <- app_assoc. simpl. auto.
Qed.

Lemma max_from_spec {A : Type} (key : A -> float) (best : A) (items : list A) :
  (forall x, In x (best :: items) -> FloatOrder.not_nan (key x)) ->
  exists before after,
    best :: items = before ++ max_from key best items :: after /\
    (forall x, In x before -> (key x <? key (max_from key best items))%float = true) /\
    (forall x, In x after -> (key x <=? key (max_from key best items))%float = true).
Proof.
  intros Hnan. apply (max_from_inv key items [] best []); simpl; auto; intros y [].
Qed.

Section Classifier.

Context (L : Library).

Lemma recent_mood_bias_penalty (w : world) (mood : string) :
  is_mood_memory (stored L w) = true ->
  recent_mood_bias L mood w = (Return (penalty L w mood), w).
Proof.
  unfold is_mood_memory. intros H. apply andb_true_iff in H as [Hmem Hmoods].
  destruct (is_memory_inv _ Hmem) as (d & recs & Hd & Hget).
  unfold penalty. rewrite Hd in Hmoods |- *. simpl in Hmoods |- *.
  rewrite Hget in Hmoods |- *.
  now apply recent_mood_bias_run with (d := d).
Qed.

Lemma penalty_cases (w : world) (mood : string) :
  penalty L w mood = 0%float \/ penalty L w mood = (-0.2)%float.
Proof.
  unfold penalty. destruct (filter _ _); auto.
  destruct (within_hour _ _ _); auto.
Qed.

Lemma bias_loop_run (w : world) (moods : list string) (st : scores_t * list reason) :
  is_mood_memory (stored L w) = true ->
  bias_loop L moods st w = (Return (bias_pure L w moods st), w).
Proof.
  intros Hmem. revert st. induction moods as [|m moods IH]; intros st; [reflexivity|].
  simpl. unfold bind. rewrite (recent_mood_bias_penalty w m Hmem). apply IH.
Qed.

Lemma bias_pure_other (w : world) (moods : list string) (st : scores_t * list reason)
  (m : string) :
  ~ In m moods -> score_of (fst (bias_pure L w moods st)) m = score_of (fst st) m.
Proof.
  revert st. induction moods as [|k moods IH]; intros st Hnot; [reflexivity|].
  simpl. rewrite IH by (intros H; apply Hnot; now right).
  simpl. apply score_of_add_other. intros ->. apply Hnot. now left.
Qed.

Lemma bias_pure_in (w : world) (moods : list string) (st : scores_t * list reason)
  (m : string) :
  nodup_keys moods = true -> In m moods ->
  score_of (fst (bias_pure L w moods st)) m = (score_of (fst st) m + penalty L w m)%float.
Proof.
  revert st. induction moods as [|k moods IH]; intros st Hnd Hin; [destruct Hin|].
  simpl in Hnd. apply andb_true_iff in Hnd as [Hk Hnd]. apply negb_true_iff in Hk.
  simpl bias_pure. destruct Hin as [->|Hin].
  - rewrite bias_pure_other by (intros Hc; apply py_in_In in Hc; congruence).
    simpl. apply score_of_add_same.
  - rewrite (IH _ Hnd Hin). simpl.
    rewrite score_of_add_other; [reflexivity|].
    intros ->. apply py_in_In in Hin. congruence.
Qed.

Lemma bias_pure_keys (w : world) (moods : list string) (st : scores_t * list reason) :
  (forall k, In k moods -> In k (dict_keys (fst st))) ->
  dict_keys (fst (bias_pure L w moods st)) = dict_keys (fst st).
Proof.
  revert st. induction moods as [|k moods IH]; intros st H; [reflexivity|].
  simpl bias_pure. rewrite IH; simpl.
  - apply dict_keys_add. apply H. now left.
  - intros k' Hk'. rewrite dict_keys_add by (apply H; now left). apply H. now right.
Qed.

Lemma sentiment_step_keys (c : float) (st : scores_t * list reason) :
  (forall k, In k ALL_MOODS -> In k (dict_keys (fst st))) ->
  dict_keys (fst (sentiment_step c st)) = dict_keys (fst st).
Proof.
  intros H. unfold sentiment_step.
  destruct (0.5 <=? c)%float; [|destruct (0.05 <=? c)%float;
    [|destruct (c <=? -0.5)%float; [|destruct (c <=? -0.05)%float]]];
    simpl; apply dict_keys_add; apply H; simpl; tauto.
Qed.

Lemma detect_scores_keys (text : string) (w : world) :
  dict_keys (detect_scores L text w) = ALL_MOODS.
Proof.
  unfold detect_scores.
  set (st0 := (map (fun k => (k, 0%float)) ALL_MOODS, @nil reason)).
  set (st1 := fold_left (keyword_step (lower text)) MOOD_KEYWORDS st0).
  set (st2 := sentiment_step (compound L (lower text)) st1).
  assert (K1 : dict_keys (fst st1) = ALL_MOODS).
  { unfold st1. rewrite keyword_fold_keys; [reflexivity|]. simpl. tauto. }
  assert (K2 : dict_keys (fst st2) = ALL_MOODS).
  { unfold st2. rewrite sentiment_step_keys; rewrite K1; auto. }
  rewrite bias_pure_keys; rewrite K2; auto.
Qed.

Lemma detect_mood_run (text : string) (w : world) :
  is_mood_memory (stored L w) = true ->
  exists reasons,
    detect_mood L text w =
      (Return (max_from (score_of (detect_scores L text w)) "stressed"
                 ["tired"; "sad"; "happy"; "neutral"],
               compound L (lower text), reasons, detect_scores L text w), w).
Proof.
  intros Hmem. unfold detect_mood, bind. rewrite (bias_loop_run _ _ _ Hmem).
  fold (detect_scores L text w). rewrite detect_scores_keys.
  eexists. reflexivity.
Qed.

(** *** The scores [detect_mood] returns, mood by mood *)

Lemma keyword_state_score (text : string) (m : string) (kws : list string) :
  In (m, kws) MOOD_KEYWORDS ->
  score_of (fst (keyword_state text)) m =
    if existsb (fun kw => contains kw (lower text)) kws then (0 + 0.6)%float else 0%float.
Proof.
  intros Hin. unfold keyword_state.
  rewrite (keyword_fold_in _ MOOD_KEYWORDS _ m kws) by (auto; reflexivity).
  simpl in Hin.
  destruct Hin as [H|[H|[H|[H|[]]]]]; injection H as <- <-; reflexivity.
Qed.

Lemma keyword_state_neutral (text : string) :
  score_of (fst (keyword_state text)) "neutral" = 0%float.
Proof.
  unfold keyword_state. rewrite keyword_fold_other; [reflexivity|].
  simpl. intros [H|[H|[H|[H|[]]]]]; discriminate.
Qed.

Lemma keyword_state_values (text : string) (m : string) :
  In m ALL_MOODS ->
  score_of (fst (keyword_state text)) m = 0%float \/
  score_of (fst (keyword_state text)) m = (0 + 0.6)%float.
Proof.
  simpl. intros [<-|[<-|[<-|[<-|[<-|[]]]]]].
  5: { left. apply keyword_state_neutral. }
  all: erewrite keyword_state_score by (simpl; eauto 6);
    match goal with |- context [existsb ?f ?l] => destruct (existsb f l) end; auto.
Qed.

Lemma sentiment_step_values (c : float) (st : scores_t * list reason) (m : string) :
  score_of (fst (sentiment_step c st)) m = score_of (fst st) m \/
  score_of (fst (sentiment_step c st)) m = (score_of (fst st) m + 0.5)%float \/
  score_of (fst (sentiment_step c st)) m = (score_of (fst st) m + 0.2)%float.
Proof.
  unfold sentiment_step.
  destruct (0.5 <=? c)%float; [|destruct (0.05 <=? c)%float;
    [|destruct (c <=? -0.5)%float; [|destruct (c <=? -0.05)%float]]]; simpl;
    match goal with
    | |- context [score_add ?k _ _] =>
        destruct (String.eqb_spec m k) as [->|Hne];
        [rewrite score_of_add_same; auto|rewrite score_of_add_other by assumption; auto]
    end.
Qed.

Lemma detect_scores_final (text : string) (w : world) (m : string) :
  In m ALL_MOODS ->
  score_of (detect_scores L text w) m =
    (score_of (fst (sentiment_step (compound L (lower text)) (keyword_state text))) m
     + penalty L w m)%float.
Proof.
  intros Hin. unfold detect_scores. now rewrite bias_pure_in.
Qed.

Lemma detect_scores_not_nan (text : string) (w : world) (m : string) :
  In m ALL_MOODS -> FloatOrder.not_nan (score_of (detect_scores L text w) m).
Proof.
  intros Hin. rewrite detect_scores_final by assumption.
  destruct (sentiment_step_values (compound L (lower text)) (keyword_state text) m)
    as [->|[->| ->]];
    destruct (keyword_state_values text m Hin) as [-> | ->];
    destruct (penalty_cases w m) as [-> | ->];
    apply const_not_nan; vm_compute; reflexivity.
Qed.

(** C2: [detect_mood] returns, and the mood it returns is one of the five,
    has the greatest final score, and is the first of [ALL_MOODS] to have it:
    the moods before it score strictly less, the moods after it not more. *)
Theorem detect_mood_argmax (text : string) (w : world) :
  is_mood_memory (stored L w) = true ->
  exists mood comp reasons scores before after,
    detect_mood L text w = (Return (mood, comp, reasons, scores), w) /\
    In mood ALL_MOODS /\
    ALL_MOODS = before ++ mood :: after /\
    (forall m, In m before -> (score_of scores m <? score_of scores mood)%float = true) /\
    (forall m, In m after -> (score_of scores m <=? score_of scores mood)%float = true).
Proof.
  intros Hmem. destruct (detect_mood_run text w Hmem) as (reasons & Hrun).
  set (scores := detect_scores L text w) in *.
  destruct (max_from_spec (score_of scores) "stressed" ["tired"; "sad"; "happy"; "neutral"])
    as (before & after & Hsplit & Hbefore & Hafter).
  { intros m Hm. now apply detect_scores_not_nan. }
  set (mood := max_from (score_of scores) "stressed" ["tired"; "sad"; "happy"; "neutral"]) in *.
  exists mood, (compound L (lower text)), reasons, scores, before, after.
  split; [exact Hrun|]. split; [|split; [exact Hsplit|split; assumption]].
  change ALL_MOODS with ("stressed" :: ["tired"; "sad"; "happy"; "neutral"]).
  rewrite Hsplit. apply in_or_app. right. now left.
Qed.

Lemma sentiment_step_neutral (c : float) (st : scores_t * list reason) :
  neutral_only c ->
  fst (sentiment_step c st) = score_add "neutral" 0.2%float (fst st).
Proof.
  intros (H1 & H2 & H3 & H4). unfold sentiment_step. now rewrite H1, H2, H3, H4.
Qed.

(** C5, as the code has it: with a stressed keyword in the text and a
    compound score that triggers the neutral rule only, the score of stressed
    is 0.6 plus its recency penalty: at least 0.6 when [recent_mood_bias]
    gives no penalty, and 0.6 - 0.2, below 0.6, when it gives one.  Either
    way the mood returned is stressed when no keyword of another mood occurs
    in the text. *)
Theorem stressed_keyword_alone (text : string) (w : world) :
  is_mood_memory (stored L w) = true ->
  (exists kws kw,
     In ("stressed", kws) MOOD_KEYWORDS /\ In kw kws /\ occurs kw (lower text)) ->
  neutral_only (compound L (lower text)) ->
  exists mood reasons scores,
    detect_mood L text w =
      (Return (mood, compound L (lower text), reasons, scores), w) /\
    (recent_mood_bias L "stressed" w = (Return 0%float, w) ->
     (0.6 <=? score_of scores "stressed")%float = true) /\
    (recent_mood_bias L "stressed" w = (Return (-0.2)%float, w) ->
     score_of scores "stressed" = (0.6 + -0.2)%float /\
     (score_of scores "stressed" <? 0.6)%float = true) /\
    ((forall m kws kw,
        In (m, kws) MOOD_KEYWORDS -> m <> "stressed" -> In kw kws ->
        ~ occurs kw (lower text)) ->
     mood = "stressed").
Proof.
  intros Hmem (kws & kw & Hkws & Hkw & Hocc) Hneutral.
  destruct (detect_mood_run text w Hmem) as (reasons & Hrun).
  set (scores := detect_scores L text w) in *.
  exists (max_from (score_of scores) "stressed" ["tired"; "sad"; "happy"; "neutral"]),
    reasons, scores.
  split; [exact Hrun|].
  assert (Hstep : forall m, In m ALL_MOODS ->
            score_of scores m =
              (score_of (score_add "neutral" 0.2%float (fst (keyword_state text))) m
               + penalty L w m)%float).
  { intros m Hm. unfold scores. rewrite detect_scores_final by assumption.
    now rewrite sentiment_step_neutral. }
  assert (Hs : score_of scores "stressed" = (0 + 0.6 + penalty L w "stressed")%float).
  { rewrite Hstep by (simpl; tauto). rewrite score_of_add_other by discriminate.
    rewrite (keyword_state_score text "stressed" kws Hkws).
    assert (He : existsb (fun k => contains k (lower text)) kws = true).
    { apply existsb_occurs. now exists kw. }
    now rewrite He. }
  rewrite (recent_mood_bias_penalty w "stressed" Hmem).
  split; [|split].
  - intros [= Hp]. rewrite Hs, Hp. reflexivity.
  - intros [= Hp]. rewrite Hs, Hp. split; reflexivity.
  - intros Halone.
    assert (Hother : forall m kws', In (m, kws') MOOD_KEYWORDS -> m <> "stressed" ->
              score_of scores m = (0 + penalty L w m)%float).
    { intros m kws' Hin Hne.
      assert (Hm : In m ALL_MOODS).
      { simpl in Hin. simpl.
        destruct Hin as [H|[H|[H|[H|[]]]]]; injection H as <- _; tauto. }
      rewrite (Hstep m Hm).
      rewrite score_of_add_other.
      2: { simpl in Hin. destruct Hin as [H|[H|[H|[H|[]]]]]; injection H as <- _;
           discriminate. }
      rewrite (keyword_state_score text m kws' Hin).
      destruct (existsb (fun k => contains k (lower text)) kws') eqn:He; [|reflexivity].
      apply existsb_occurs in He as (k & Hk & Hk').
      now destruct (Halone m kws' k Hin Hne Hk). }
    assert (Ht := Hother "tired" _ (or_intror (or_introl eq_refl))).
    assert (Hsad := Hother "sad" _ (or_intror (or_intror (or_introl eq_refl)))).
    assert (Hh := Hother "happy" _
                    (or_intror (or_intror (or_intror (or_introl eq_refl))))).
    assert (Hn : score_of scores "neutral" = (0 + 0.2 + penalty L w "neutral")%float).
    { rewrite Hstep by (simpl; tauto). rewrite score_of_add_same.
      now rewrite keyword_state_neutral. }
    cbn [max_from].
    rewrite Hs, Ht, Hsad, Hh, Hn by discriminate.
    destruct (penalty_cases w "stressed") as [-> | ->];
      destruct (penalty_cases w "tired") as [-> | ->];
      destruct (penalty_cases w "sad") as [-> | ->];
      destruct (penalty_cases w "happy") as [-> | ->];
      destruct (penalty_cases w "neutral") as [-> | ->];
      vm_compute; reflexivity.
Qed.

End Classifier.

(** ** The command handler *)

Lemma lower_char_colon (c : ascii) : lower_char c = ":"%char -> c = ":"%char.
Proof.
  destruct c as [[] [] [] [] [] [] [] []]; vm_compute; intros H;
    try reflexivity; discriminate H.
Qed.

Lemma lower_char_letter (c x : ascii) :
  lower_char c = x -> x <> ":"%char -> Ascii.eqb c ":"%char = false.
Proof.
  intros H Hx. destruct (Ascii.eqb_spec c ":"%char) as [->|]; [|reflexivity].
  now destruct Hx.
Qed.

(** ** Text: where the ASCII letters of a lowercase text come from *)

Lemma byte_code (n : N) : (n < 256)%N -> N_of_ascii (ascii_of_N n) = n.
Proof. apply N_ascii_embedding. Qed.

Lemma decode_ascii (c : ascii) (s : string) :
  (N_of_ascii c < 0x80)%N -> decode (String c s) = N_of_ascii c :: decode s.
Proof. intros H. cbn [decode]. apply N.ltb_lt in H. now rewrite H. Qed.

(** A byte that is no ASCII character starts a code point that is none. *)
Lemma decode_wide (c : ascii) (s : string) :
  (0x80 <= N_of_ascii c)%N ->
  exists p r, decode (String c s) = p :: decode r /\ (0x80 <= p)%N.
Proof.
  intros H. cbn [decode]. cbv zeta.
  assert (Hraw : exists p r, (0xDC00 + N_of_ascii c)%N :: decode s = p :: decode r
                             /\ (0x80 <= p)%N).
  { exists (0xDC00 + N_of_ascii c)%N, s. split; [reflexivity|lia]. }
  destruct (N_of_ascii c <? 0x80)%N eqn:E; [apply N.ltb_lt in E; lia|].
  destruct s as [|a1 r1]; [exact Hraw|].
  destruct ((0xC2 <=? N_of_ascii c) && (N_of_ascii c <=? 0xDF))%N eqn:E2.
  { destruct (continuation (N_of_ascii a1)); [|exact Hraw].
    apply andb_true_iff in E2 as [E2 _]. apply N.leb_le in E2.
    eexists; exists r1. split; [reflexivity|lia]. }
  destruct r1 as [|a2 r2]; [exact Hraw|].
  destruct ((0xE0 <=? N_of_ascii c) && (N_of_ascii c <=? 0xEF))%N eqn:E3.
  { match goal with |- context [if ?b then _ else _] => destruct b eqn:E4 end;
      [|exact Hraw].
    apply andb_true_iff in E4 as [E4 _]. apply andb_true_iff in E4 as [_ E4].
    apply N.leb_le in E4. eexists; exists r2. split; [reflexivity|lia]. }
  destruct r2 as [|a3 r3]; [exact Hraw|].
  match goal with |- context [if ?b then _ else _] => destruct b eqn:E4 end;
    [|exact Hraw].
  apply andb_true_iff in E4 as [E4 _]. apply andb_true_iff in E4 as [_ E4].
  apply N.leb_le in E4. eexists; exists r3. split; [reflexivity|lia].
Qed.

(** The encoding of a code point that is no ASCII character starts with a
    byte that is none. *)
Lemma encode_point_wide (p : N) :
  (0x80 <= p)%N ->
  exists b rest, encode_point p = String b rest /\ (0x80 <= N_of_ascii b)%N.
Proof.
  intros H. unfold encode_point, byte.
  destruct (p <? 0x80)%N eqn:E1; [apply N.ltb_lt in E1; lia|].
  destruct (p <? 0x800)%N eqn:E2.
  { apply N.ltb_lt in E2. eexists; eexists. split; [reflexivity|].
    assert (p / 64 < 32)%N by (apply N.Div0.div_lt_upper_bound; lia).
    generalize dependent (p / 64)%N. intros q Hq. rewrite byte_code; lia. }
  destruct ((0xDC80 <=? p) && (p <=? 0xDCFF))%N eqn:E3.
  { apply andb_true_iff in E3 as [E3 E3']. apply N.leb_le in E3, E3'.
    eexists; eexists. split; [reflexivity|]. rewrite byte_code; lia. }
  destruct (p <? 0x10000)%N eqn:E4.
  { apply N.ltb_lt in E4. eexists; eexists. split; [reflexivity|].
    assert (p / 4096 < 16)%N by (apply N.Div0.div_lt_upper_bound; lia).
    generalize dependent (p / 4096)%N. intros q Hq. rewrite byte_code; lia. }
  eexists; eexists. split; [reflexivity|].
  assert ((p / 262144) mod 8 < 8)%N by (apply N.mod_lt; lia).
  generalize dependent ((p / 262144) mod 8)%N. intros q Hq. rewrite byte_code; lia.
Qed.

Lemma encode_point_ascii (p : N) :
  (p < 0x80)%N -> encode_point p = String (ascii_of_N p) EmptyString.
Proof. intros H. unfold encode_point, byte. apply N.ltb_lt in H. now rewrite H. Qed.

(** No lowercase mapping leads from outside ASCII into it, but that of the
    Kelvin sign, which gives [k]. *)
Definition run_ok (run : N * N * N * N) : bool :=
  let '(first, last, step, target) := run in
  ((last <? 0x80) || (0x80 <=? target)
   || ((first =? 0x212A) && (last =? 0x212A) && (target =? 0x6B)))%N.

Lemma lookup_lower_wide (runs : list (N * N * N * N)) (p : N) :
  forallb run_ok runs = true -> (0x80 <= p)%N ->
  (0x80 <= lookup_lower runs p)%N \/ lookup_lower runs p = 0x6B%N.
Proof.
  intros Hok Hp. induction runs as [|[[[first last] step] target] runs IH]; [now left|].
  cbn [forallb] in Hok. apply andb_true_iff in Hok as [Hrun Hok].
  cbn [lookup_lower].
  destruct ((first <=? p) && (p <=? last) && ((p - first) mod step =? 0))%N eqn:E;
    [|now apply IH].
  apply andb_true_iff in E as [E _]. apply andb_true_iff in E as [E1 E2].
  apply N.leb_le in E1, E2. unfold run_ok in Hrun.
  apply orb_true_iff in Hrun as [Hrun|Hrun]; [apply orb_true_iff in Hrun as [Hrun|Hrun]|].
  - apply N.ltb_lt in Hrun. lia.
  - apply N.leb_le in Hrun. left. lia.
  - apply andb_true_iff in Hrun as [Hrun H3]. apply andb_true_iff in Hrun as [H1 H2].
    apply N.eqb_eq in H1, H2, H3. right. subst. replace p with 0x212A%N by lia.
    reflexivity.
Qed.

Lemma to_lower_full_wide (p : N) :
  (0x80 <= p)%N ->
  exists q rest, to_lower_full p = q :: rest /\
                 ((0x80 <= q)%N \/ q = 0x6B%N \/ q = 0x69%N).
Proof.
  intros Hp. unfold to_lower_full. destruct (p =? 0x130)%N.
  - eexists; eexists. split; [reflexivity|]. right; right; reflexivity.
  - eexists; eexists. split; [reflexivity|].
    assert (Hok : forallb run_ok LOWERCASE = true) by (vm_compute; reflexivity).
    destruct (lookup_lower_wide LOWERCASE p Hok Hp) as [H|H]; auto.
Qed.

Lemma to_lower_full_ascii (c : ascii) :
  (N_of_ascii c < 0x80)%N -> to_lower_full (N_of_ascii c) = [N_of_ascii (lower_char c)].
Proof.
  destruct c as [[] [] [] [] [] [] [] []]; intros H;
    try (vm_compute; reflexivity); vm_compute in H; discriminate H.
Qed.

Lemma lower_char_code (c : ascii) :
  (N_of_ascii c < 0x80)%N -> (N_of_ascii (lower_char c) < 0x80)%N.
Proof.
  destruct c as [[] [] [] [] [] [] [] []]; intros H;
    try (vm_compute; reflexivity); vm_compute in H; discriminate H.
Qed.

Lemma sigma_code (c : ascii) : (N_of_ascii c =? 0x3A3)%N = false.
Proof.
  apply N.eqb_neq. pose proof (N_ascii_bounded c). lia.
Qed.

(** An ASCII character lowers on its own, whatever stands around it. *)
Lemma lower_ascii_cons (before : list N) (c : ascii) (s : string) :
  (N_of_ascii c < 0x80)%N ->
  encode (lower_points before (decode (String c s))) =
    String (lower_char c) (encode (lower_points (N_of_ascii c :: before) (decode s))).
Proof.
  intros H. rewrite (decode_ascii c s H). cbn [lower_points].
  rewrite sigma_code, (to_lower_full_ascii c H). cbn [app encode].
  rewrite encode_point_ascii by now apply lower_char_code.
  now rewrite ascii_N_embedding.
Qed.

(** An ASCII character of the lowercase text, other than [i] and [k], is
    the lowercase of an ASCII character that stands at its place. *)
Lemma lower_head_inv (before : list N) (s : string) (y : ascii) (out : string) :
  encode (lower_points before (decode s)) = String y out ->
  (N_of_ascii y < 0x80)%N -> y <> "i"%char -> y <> "k"%char ->
  exists c s',
    s = String c s' /\ (N_of_ascii c < 0x80)%N /\ lower_char c = y /\
    out = encode (lower_points (N_of_ascii c :: before) (decode s')).
Proof.
  intros H Hy Hi Hk. destruct s as [|c s']; [discriminate H|].
  destruct (N.lt_ge_cases (N_of_ascii c) 0x80) as [Hc|Hc].
  - rewrite (lower_ascii_cons before c s' Hc) in H. injection H as H1 H2.
    exists c, s'. auto.
  - exfalso. destruct (decode_wide c s' Hc) as (p & r & Hd & Hp).
    rewrite Hd in H. cbn [lower_points] in H.
    assert (Hfirst : exists q rest,
              (if (p =? 0x3A3)%N
               then [if final_sigma before (decode r) then 0x3C2 else 0x3C3]%N
               else to_lower_full p) = q :: rest /\
              ((0x80 <= q)%N \/ q = 0x6B%N \/ q = 0x69%N)).
    { destruct (p =? 0x3A3)%N; [|now apply to_lower_full_wide].
      eexists; eexists. split; [reflexivity|]. left.
      destruct (final_sigma before (decode r)); lia. }
    destruct Hfirst as (q & rest & Hf & Hq). rewrite Hf in H. cbn [app encode] in H.
    destruct Hq as [Hq|[-> | ->]].
    + destruct (encode_point_wide q Hq) as (b & tail & Hb & Hb').
      rewrite Hb in H. injection H as H1 _. subst b. lia.
    + rewrite (encode_point_ascii 0x6B) in H by reflexivity.
      cbn [append] in H. injection H as H1 _. now apply Hk.
    + rewrite (encode_point_ascii 0x69) in H by reflexivity.
      cbn [append] in H. injection H as H1 _. now apply Hi.
Qed.

Lemma encode_point_cons (p : N) : exists b rest, encode_point p = String b rest.
Proof.
  unfold encode_point, byte.
  repeat match goal with |- context [if ?b then _ else _] => destruct b end;
    eexists; eexists; reflexivity.
Qed.

(** The lowercase of a text is empty only when the text is. *)
Lemma lower_nil_inv (before : list N) (s : string) :
  encode (lower_points before (decode s)) = EmptyString -> s = EmptyString.
Proof.
  destruct s as [|c s']; [reflexivity|]. intros H. exfalso.
  assert (Hd : exists p r, decode (String c s') = p :: decode r).
  { destruct (N.lt_ge_cases (N_of_ascii c) 0x80) as [Hc|Hc].
    - rewrite (decode_ascii c s' Hc). eauto.
    - destruct (decode_wide c s' Hc) as (p & r & Hd & _). eauto. }
  destruct Hd as (p & r & Hd). rewrite Hd in H. cbn [lower_points] in H.
  assert (Hne : exists q rest,
            (if (p =? 0x3A3)%N
             then [if final_sigma before (decode r) then 0x3C2 else 0x3C3]%N
             else to_lower_full p) = q :: rest).
  { destruct (p =? 0x3A3)%N; [eauto|]. unfold to_lower_full.
    destruct (p =? 0x130)%N; eauto. }
  destruct Hne as (q & rest & Hne). rewrite Hne in H. cbn [app encode] in H.
  destruct (encode_point_cons q) as (b & tail & Hb). rewrite Hb in H. discriminate H.
Qed.

(** A text whose lowercase starts with [correct:] splits at that colon. *)
Lemma correct_prefix_split (text : string) :
  startswith (lower text) "correct:" = true ->
  exists verb arg,
    text = (verb ++ String ":"%char arg)%string /\
    lower verb = "correct" /\
    py_split1 text ":"%char = [verb; arg].
Proof.
  unfold startswith, lower. intros H. apply prefix_spec in H as (post & H).
  cbn [append] in H.
  apply lower_head_inv in H as (c1 & s1 & -> & A1 & H1 & H);
    [|vm_compute; reflexivity|discriminate|discriminate].
  symmetry in H.
  apply lower_head_inv in H as (c2 & s2 & -> & A2 & H2 & H);
    [|vm_compute; reflexivity|discriminate|discriminate].
  symmetry in H.
  apply lower_head_inv in H as (c3 & s3 & -> & A3 & H3 & H);
    [|vm_compute; reflexivity|discriminate|discriminate].
  symmetry in H.
  apply lower_head_inv in H as (c4 & s4 & -> & A4 & H4 & H);
    [|vm_compute; reflexivity|discriminate|discriminate].
  symmetry in H.
  apply lower_head_inv in H as (c5 & s5 & -> & A5 & H5 & H);
    [|vm_compute; reflexivity|discriminate|discriminate].
  symmetry in H.
  apply lower_head_inv in H as (c6 & s6 & -> & A6 & H6 & H);
    [|vm_compute; reflexivity|discriminate|discriminate].
  symmetry in H.
  apply lower_head_inv in H as (c7 & s7 & -> & A7 & H7 & H);
    [|vm_compute; reflexivity|discriminate|discriminate].
  symmetry in H.
  apply lower_head_inv in H as (c8 & arg & -> & A8 & H8 & H);
    [|vm_compute; reflexivity|discriminate|discriminate].
  apply lower_char_colon in H8. subst c8.
  exists (String c1 (String c2 (String c3 (String c4 (String c5 (String c6
            (String c7 EmptyString))))))), arg.
  split; [reflexivity|]. split.
  - rewrite !lower_ascii_cons by assumption. cbn [decode lower_points encode].
    congruence.
  - unfold py_split1. simpl.
    rewrite (lower_char_letter c1 _ H1), (lower_char_letter c2 _ H2),
      (lower_char_letter c3 _ H3), (lower_char_letter c4 _ H4),
      (lower_char_letter c5 _ H5), (lower_char_letter c6 _ H6),
      (lower_char_letter c7 _ H7) by discriminate.
    reflexivity.
Qed.

(** A text whose lowercase is [correct] is seven ASCII letters: followed by
    a colon it splits there, and the lowercase of the whole starts with
    [correct:]. *)
Lemma correct_verb_split (verb arg : string) :
  lower verb = "correct" ->
  py_split1 (verb ++ String ":"%char arg) ":"%char = [verb; arg] /\
  startswith (lower (verb ++ String ":"%char arg)) "correct:" = true.
Proof.
  unfold lower. intros H.
  apply lower_head_inv in H as (c1 & s1 & -> & A1 & H1 & H);
    [|vm_compute; reflexivity|discriminate|discriminate].
  symmetry in H.
  apply lower_head_inv in H as (c2 & s2 & -> & A2 & H2 & H);
    [|vm_compute; reflexivity|discriminate|discriminate].
  symmetry in H.
  apply lower_head_inv in H as (c3 & s3 & -> & A3 & H3 & H);
    [|vm_compute; reflexivity|discriminate|discriminate].
  symmetry in H.
  apply lower_head_inv in H as (c4 & s4 & -> & A4 & H4 & H);
    [|vm_compute; reflexivity|discriminate|discriminate].
  symmetry in H.
  apply lower_head_inv in H as (c5 & s5 & -> & A5 & H5 & H);
    [|vm_compute; reflexivity|discriminate|discriminate].
  symmetry in H.
  apply lower_head_inv in H as (c6 & s6 & -> & A6 & H6 & H);
    [|vm_compute; reflexivity|discriminate|discriminate].
  symmetry in H.
  apply lower_head_inv in H as (c7 & s7 & -> & A7 & H7 & H);
    [|vm_compute; reflexivity|discriminate|discriminate].
  symmetry in H. apply lower_nil_inv in H. subst s7. split.
  - unfold py_split1. simpl.
    rewrite (lower_char_letter c1 _ H1), (lower_char_letter c2 _ H2),
      (lower_char_letter c3 _ H3), (lower_char_letter c4 _ H4),
      (lower_char_letter c5 _ H5), (lower_char_letter c6 _ H6),
      (lower_char_letter c7 _ H7) by discriminate.
    reflexivity.
  - unfold startswith. apply prefix_spec. cbn [append].
    rewrite !lower_ascii_cons by (assumption || (vm_compute; reflexivity)).
    rewrite H1, H2, H3, H4, H5, H6, H7. eexists. reflexivity.
Qed.

Lemma keeps_memory_bind {A B : Type} (c : M A) (k : A -> M B) :
  keeps_memory c -> (forall a, keeps_memory (k a)) -> keeps_memory (bind c k).
Proof.
  intros Hc Hk w. unfold bind. specialize (Hc w).
  destruct (c w) as [[a|e] w']; simpl in *; [|assumption].
  now rewrite Hk.
Qed.

Lemma keeps_memory_catch {A : Type} (c : M A) (h : exn -> M A) :
  keeps_memory c -> (forall e, keeps_memory (h e)) -> keeps_memory (catch c h).
Proof.
  intros Hc Hh w. unfold catch. specialize (Hc w).
  destruct (c w) as [[a|e] w']; simpl in *; [assumption|].
  now rewrite Hh.
Qed.

Lemma keeps_memory_ret {A : Type} (a : A) : keeps_memory (ret a).
Proof. now intros w. Qed.

Lemma keeps_memory_lift {A : Type} (o : outcome A) : keeps_memory (lift o).
Proof. now intros w. Qed.

Lemma keeps_memory_send (m : message) : keeps_memory (send m).
Proof. now intros w. Qed.

Section Commands.

Context (L : Library).

Lemma keeps_memory_shuffle {A : Type} (l : list A) : keeps_memory (py_shuffle L l).
Proof.
  intros w. unfold py_shuffle. now destruct (shuffle L A (random_state w) l).
Qed.

Lemma keeps_memory_loads (text : string) : keeps_memory (py_json_loads L text).
Proof. intros w. unfold py_json_loads. now destruct (json_loads L text). Qed.

Lemma keeps_memory_suggest (mood : string) (n : nat) :
  keeps_memory (suggest_for_mood L mood n).
Proof.
  unfold suggest_for_mood. apply keeps_memory_bind; [apply keeps_memory_lift|].
  intros fallback. apply keeps_memory_bind; [apply keeps_memory_shuffle|].
  intros pool. apply keeps_memory_ret.
Qed.

Lemma keeps_memory_pick_quote : keeps_memory (pick_quote L).
Proof.
  unfold pick_quote. apply keeps_memory_bind; [now intros w|]. intros ex.
  apply keeps_memory_bind.
  - destruct ex; [|apply keeps_memory_ret].
    apply keeps_memory_catch; [|intros e; apply keeps_memory_ret].
    apply keeps_memory_bind.
    { intros w. unfold read_text. now destruct (quotes_file w). }
    intros text. apply keeps_memory_bind; [apply keeps_memory_loads|].
    intros [| | | |[|q qs]|]; try apply keeps_memory_ret.
    apply keeps_memory_bind; [apply keeps_memory_shuffle|]. intros shuffled.
    apply keeps_memory_bind; [apply keeps_memory_lift|]. intros first.
    apply keeps_memory_ret.
  - intros [quote|]; [apply keeps_memory_ret|].
    apply keeps_memory_bind; [apply keeps_memory_shuffle|]. intros q.
    apply keeps_memory_bind; [apply keeps_memory_lift|]. intros first.
    apply keeps_memory_ret.
Qed.

(** C7: on [correct: <mood>] with a mood, trimmed and lowercased, that is
    none of the five, the handler sends the rejection text, which lists the
    five moods, and changes nothing else in the world; with one of the five,
    the mood is appended to the memory file. *)
Theorem correct_command (message : string) (w : world) :
  startswith (lower (strip message)) "correct:" = true ->
  exists verb arg,
    strip message = (verb ++ String ":"%char arg)%string /\
    lower verb = "correct" /\
    (py_in (lower (strip arg)) ALL_MOODS = false ->
     handle_message L message w =
       (Return tt, push_outbox (Plain (unknown_mood_text (lower (strip arg)))) w) /\
     unknown_mood_text (lower (strip arg)) =
       ("Unknown mood `" ++ lower (strip arg)
        ++ "`. Use one of: stressed, tired, sad, happy, neutral")%string /\
     memory_file (snd (handle_message L message w)) = memory_file w) /\
    (py_in (lower (strip arg)) ALL_MOODS = true ->
     is_memory (stored L w) = true ->
     exists d records,
       stored L w = JObj d /\
       recent_value d = JArr records /\
       memory_file (snd (handle_message L message w)) =
         Some (json_dumps L
                 (JObj (dict_set "recent_moods"
                          (JArr (lastn 10 (records
                                           ++ [mood_record L (lower (strip arg)) (clock w)])))
                          d)))).
Proof.
  intros Hpre. destruct (correct_prefix_split _ Hpre) as (verb & arg & Htext & Hverb & Hsplit).
  exists verb, arg. split; [exact Htext|]. split; [exact Hverb|].
  assert (Hsave : String.eqb (lower (strip message)) "save" = false).
  { unfold startswith in Hpre. apply prefix_spec in Hpre as (post & ->). reflexivity. }
  assert (Hreset : String.eqb (lower (strip message)) "reset" = false).
  { unfold startswith in Hpre. apply prefix_spec in Hpre as (post & ->). reflexivity. }
  assert (Hrun : handle_message L message w =
                 (if negb (py_in (lower (strip arg)) ALL_MOODS)
                  then send (Plain (unknown_mood_text (lower (strip arg))))
                  else bind (remember_mood L (lower (strip arg)))
                         (fun _ => bind (suggest_for_mood L (lower (strip arg)) 3)
                            (fun tips => bind (pick_quote L)
                               (fun quote => send (CorrectedReply (lower (strip arg)) tips quote))))) w).
  { unfold handle_message. rewrite Hsave, Hreset, Hpre, Hsplit.
    unfold bind at 1. unfold lift, py_index. simpl nth_error. reflexivity. }
  split.
  - intros Hbad. rewrite Hrun, Hbad. simpl. repeat split.
  - intros Hgood Hmem. rewrite Hrun, Hgood. change (negb true) with false. cbv iota.
    destruct (is_memory_inv _ Hmem) as (d & records & Hd & Hget).
    exists d, records. split; [exact Hd|]. split; [exact Hget|].
    unfold bind at 1.
    rewrite (remember_mood_run L w _ d records Hd) by now rewrite Hget.
    cbv iota.
    match goal with
    | |- memory_file (snd (?c ?w1)) = _ =>
        assert (Hkeep : keeps_memory c)
    end.
    { apply keeps_memory_bind; [apply keeps_memory_suggest|]. intros tips.
      apply keeps_memory_bind; [apply keeps_memory_pick_quote|]. intros quote.
      apply keeps_memory_send. }
    rewrite Hkeep. reflexivity.
Qed.

End Commands.

(** ** Quotes and suggestions *)

Section Quotes.

Context (L : Library).

Lemma shuffle_nonempty {A : Type} (r : N) (x : A) (l : list A) :
  ShuffleLaws L ->
  exists y ys, fst (shuffle L A r (x :: l)) = y :: ys /\ In y (x :: l).
Proof.
  intros laws. pose proof (shuffle_permutes L laws A r (x :: l)) as Hperm.
  destruct (fst (shuffle L A r (x :: l))) as [|y ys] eqn:E.
  - apply Permutation_sym, Permutation_nil in Hperm. discriminate.
  - exists y, ys. split; [reflexivity|].
    apply (Permutation_in y (Permutation_sym Hperm)). now left.
Qed.

Lemma py_shuffle_run {A : Type} (l : list A) (w : world) :
  py_shuffle L l w =
    (Return (fst (shuffle L A (random_state w) l)),
     set_random_state (snd (shuffle L A (random_state w) l)) w).
Proof. unfold py_shuffle. now destruct (shuffle L A (random_state w) l). Qed.

(** The fallback of [pick_quote]: a shuffle of the built-in quotes. *)
Lemma default_quote_run (w : world) :
  ShuffleLaws L ->
  exists s,
    (q <- py_shuffle L DEFAULT_QUOTES ;; first <- lift (py_index q 0) ;; ret (JStr first)) w
    = (Return (JStr s),
       set_random_state (snd (shuffle L string (random_state w) DEFAULT_QUOTES)) w) /\
    In s DEFAULT_QUOTES.
Proof.
  intros laws. unfold bind. rewrite py_shuffle_run.
  destruct (shuffle_nonempty (random_state w)
              "Small steps every day lead to big changes." (tl DEFAULT_QUOTES) laws)
    as (y & ys & Hy & Hin).
  change ("Small steps every day lead to big changes." :: tl DEFAULT_QUOTES)
    with DEFAULT_QUOTES in Hy, Hin.
  rewrite Hy. exists y. split; [reflexivity|exact Hin].
Qed.

(** [pick_quote] with a list in [quotes.json], up to the choice of the
    first item of the shuffled list. *)
Lemma pick_quote_file_run (w : world) (text : string) (q : json) (qs : list json)
  (y : json) (ys : list json) :
  quotes_file w = Some text ->
  json_loads L text = Some (JArr (q :: qs)) ->
  fst (shuffle L json (random_state w) (q :: qs)) = y :: ys ->
  pick_quote L w =
    (Return y, set_random_state (snd (shuffle L json (random_state w) (q :: qs))) w).
Proof.
  intros Hfile Hparse Hy. unfold pick_quote, bind at 1, path_exists.
  rewrite Hfile. cbv iota beta. unfold bind at 1, catch, bind at 1, read_text.
  rewrite Hfile. cbv iota beta. unfold bind at 1, py_json_loads. rewrite Hparse.
  unfold ret at 1. cbv iota beta. unfold bind at 1. rewrite py_shuffle_run, Hy.
  reflexivity.
Qed.

(** [pick_quote] without a usable [quotes.json] is its fallback. *)
Lemma pick_quote_fallback (w : world) :
  no_quotes L w ->
  pick_quote L w =
    (q <- py_shuffle L DEFAULT_QUOTES ;; first <- lift (py_index q 0) ;; ret (JStr first)) w.
Proof.
  intros Hnone. unfold no_quotes in Hnone.
  unfold pick_quote, bind at 1, path_exists.
  destruct (quotes_file w) as [text|] eqn:Hfile; cbv iota beta; [|reflexivity].
  unfold bind at 1, catch, bind at 1, read_text. rewrite Hfile. cbv iota beta.
  unfold bind at 1, py_json_loads.
  destruct (json_loads L text) as [[| | | |[|q qs]|]|]; try reflexivity.
  destruct Hnone.
Qed.

(** X1: [pick_quote] with a [quotes.json] that holds a list with an item: the
    quote is an item of that list, whatever its type. *)
Theorem pick_quote_from_file (w : world) (text : string) (q : json) (qs : list json) :
  ShuffleLaws L ->
  quotes_file w = Some text ->
  json_loads L text = Some (JArr (q :: qs)) ->
  exists quote,
    pick_quote L w =
      (Return quote,
       set_random_state (snd (shuffle L json (random_state w) (q :: qs))) w) /\
    In quote (q :: qs).
Proof.
  intros laws Hfile Hparse.
  destruct (shuffle_nonempty (random_state w) q qs laws) as (y & ys & Hy & Hin).
  exists y. split; [|exact Hin].
  exact (pick_quote_file_run w text q qs y ys Hfile Hparse Hy).
Qed.

(** X2: [pick_quote] without a usable [quotes.json]: the quote is one of the
    five built-in ones. *)
Theorem pick_quote_default (w : world) :
  ShuffleLaws L ->
  no_quotes L w ->
  exists s,
    pick_quote L w =
      (Return (JStr s),
       set_random_state (snd (shuffle L string (random_state w) DEFAULT_QUOTES)) w) /\
    In s DEFAULT_QUOTES.
Proof.
  intros laws Hnone.
  destruct (default_quote_run w laws) as (s & Hrun & Hin).
  exists s. split; [|exact Hin]. now rewrite (pick_quote_fallback w Hnone).
Qed.

Lemma pick_quote_returns (w : world) :
  ShuffleLaws L ->
  exists quote r, pick_quote L w = (Return quote, set_random_state r w).
Proof.
  intros laws.
  assert (Hdefault : no_quotes L w ->
            exists quote r, pick_quote L w = (Return quote, set_random_state r w)).
  { intros Hnone. destruct (default_quote_run w laws) as (s & Hrun & _).
    rewrite (pick_quote_fallback w Hnone), Hrun. eauto. }
  destruct (quotes_file w) as [text|] eqn:Hfile.
  - destruct (json_loads L text) as [[| | | |[|q qs]|]|] eqn:Hparse.
    6: { destruct (shuffle_nonempty (random_state w) q qs laws) as (y & ys & Hy & _).
         rewrite (pick_quote_file_run w text q qs y ys Hfile Hparse Hy). eauto. }
    all: apply Hdefault; unfold no_quotes; now rewrite Hfile, Hparse.
  - apply Hdefault. unfold no_quotes. now rewrite Hfile.
Qed.

Lemma suggest_for_mood_run (mood : string) (n : nat) (w : world) :
  suggest_for_mood L mood n w =
    (Return (firstn n (fst (shuffle L string (random_state w) (suggestions_of mood)))),
     set_random_state (snd (shuffle L string (random_state w) (suggestions_of mood))) w).
Proof.
  unfold suggest_for_mood, suggestions_of, bind at 1.
  change (dict_get "neutral" SUGGESTIONS)
    with (Some [ "Pick one 10-minute task and set a timer.";
                 "Tidy your workspace for 3 minutes.";
                 "Drink water and plan your next 30 minutes." ]).
  unfold lift. cbv iota beta. unfold bind. rewrite py_shuffle_run. reflexivity.
Qed.

Lemma suggestions_of_known (mood : string) :
  In mood ALL_MOODS ->
  dict_get mood SUGGESTIONS = Some (suggestions_of mood) /\
  List.length (suggestions_of mood) = 3 /\ NoDup (suggestions_of mood).
Proof.
  simpl. intros [<-|[<-|[<-|[<-|[<-|[]]]]]];
    (split; [reflexivity|split; [reflexivity|]]);
    repeat constructor; simpl; intuition discriminate.
Qed.

(** X3: [suggest_for_mood] on one of the five moods: the tips are the first
    [n] of a rearrangement of the suggestions of that mood, so they are
    distinct suggestions of the mood, [min n 3] of them, and all three once
    [n] is 3 or more. *)
Theorem suggest_for_mood_known (mood : string) (n : nat) (w : world) :
  ShuffleLaws L ->
  In mood ALL_MOODS ->
  exists pool tips r,
    dict_get mood SUGGESTIONS = Some pool /\
    suggest_for_mood L mood n w = (Return tips, set_random_state r w) /\
    List.length tips = Nat.min n 3 /\
    NoDup tips /\
    (forall t, In t tips -> In t pool) /\
    (3 <= n -> Permutation pool tips).
Proof.
  intros laws Hmood.
  destruct (suggestions_of_known mood Hmood) as (Hget & Hlen & Hnd).
  pose proof (shuffle_permutes L laws string (random_state w) (suggestions_of mood))
    as Hperm.
  set (shuffled := fst (shuffle L string (random_state w) (suggestions_of mood))) in *.
  exists (suggestions_of mood), (firstn n shuffled),
    (snd (shuffle L string (random_state w) (suggestions_of mood))).
  split; [exact Hget|]. split; [apply suggest_for_mood_run|].
  assert (Hlen' : List.length shuffled = 3)
    by (rewrite <- Hlen; symmetry; now apply Permutation_length).
  assert (Hnd' : NoDup shuffled) by (eapply Permutation_NoDup; eassumption).
  split; [rewrite length_firstn, Hlen'; reflexivity|].
  split.
  { rewrite <- (firstn_skipn n shuffled) in Hnd'. now apply NoDup_app_remove_r in Hnd'. }
  split.
  { intros t Ht. apply (Permutation_in t (Permutation_sym Hperm)).
    rewrite <- (firstn_skipn n shuffled). apply in_or_app. now left. }
  intros Hn. rewrite firstn_all2 by lia. exact Hperm.
Qed.

(** X4: A mood that has no entry in [SUGGESTIONS] gets the suggestions of
    neutral. *)
Theorem suggest_for_mood_unknown (mood : string) (n : nat) (w : world) :
  ~ In mood ALL_MOODS ->
  dict_get mood SUGGESTIONS = None /\
  suggest_for_mood L mood n w = suggest_for_mood L "neutral" n w.
Proof.
  intros Hnot.
  assert (Hget : dict_get mood SUGGESTIONS = None).
  { unfold SUGGESTIONS. cbn [dict_get].
    repeat match goal with
    | |- context [String.eqb mood ?k] =>
        destruct (String.eqb_spec mood k) as [->|_]; [exfalso; apply Hnot; simpl; tauto|]
    end.
    reflexivity. }
  split; [exact Hget|].
  rewrite !suggest_for_mood_run. unfold suggestions_of at 1 2. now rewrite Hget.
Qed.

End Quotes.

(** ** What a computation leaves alone *)

Lemma reads_only_ret {A : Type} (a : A) : reads_only (ret a).
Proof. now intros w. Qed.

Lemma reads_only_raise {A : Type} (e : exn) : reads_only (@raise A e).
Proof. now intros w. Qed.

Lemma reads_only_lift {A : Type} (o : outcome A) : reads_only (lift o).
Proof. now intros w. Qed.

Lemma reads_only_bind {A B : Type} (c : M A) (k : A -> M B) :
  reads_only c -> (forall a, reads_only (k a)) -> reads_only (bind c k).
Proof.
  intros Hc Hk w. unfold bind. specialize (Hc w).
  destruct (c w) as [[a|e] w']; simpl in *; subst w'; [apply Hk|reflexivity].
Qed.

Lemma reads_only_catch {A : Type} (c : M A) (h : exn -> M A) :
  reads_only c -> (forall e, reads_only (h e)) -> reads_only (catch c h).
Proof.
  intros Hc Hh w. unfold catch. specialize (Hc w).
  destruct (c w) as [[a|e] w']; simpl in *; subst w'; [reflexivity|apply Hh].
Qed.

Lemma frames_reads_only {A : Type} (c : M A) : reads_only c -> frames c.
Proof.
  intros H w. pose proof (H w) as Hw. rewrite Hw.
  split; [reflexivity|]. split; [reflexivity|]. exists []. now rewrite app_nil_r.
Qed.

Lemma frames_bind {A B : Type} (c : M A) (k : A -> M B) :
  frames c -> (forall a, frames (k a)) -> frames (bind c k).
Proof.
  intros Hc Hk w. unfold bind. destruct (Hc w) as (Hq & Ht & new & Ho).
  destruct (c w) as [[a|e] w']; simpl in *; [|eauto].
  destruct (Hk a w') as (Hq' & Ht' & new' & Ho').
  rewrite Hq', Ht', Ho', Hq, Ht, Ho. split; [reflexivity|]. split; [reflexivity|].
  exists (new ++ new'). now rewrite app_assoc.
Qed.

Lemma frames_catch {A : Type} (c : M A) (h : exn -> M A) :
  frames c -> (forall e, frames (h e)) -> frames (catch c h).
Proof.
  intros Hc Hh w. unfold catch. destruct (Hc w) as (Hq & Ht & new & Ho).
  destruct (c w) as [[a|e] w']; simpl in *; [eauto|].
  destruct (Hh e w') as (Hq' & Ht' & new' & Ho').
  rewrite Hq', Ht', Ho', Hq, Ht, Ho. split; [reflexivity|]. split; [reflexivity|].
  exists (new ++ new'). now rewrite app_assoc.
Qed.

Lemma frames_send (m : message) : frames (send m).
Proof. intros w. simpl. split; [reflexivity|]. split; [reflexivity|]. now exists [m]. Qed.

Section Frames.

Context (L : Library).

Lemma reads_only_load_memory : reads_only (load_memory L).
Proof. intros w. now rewrite load_memory_run. Qed.

Lemma reads_only_fromisoformat (v : json) : reads_only (py_fromisoformat L v).
Proof.
  intros w. unfold py_fromisoformat.
  destruct v as [| | |s| |]; try reflexivity. now destruct (fromisoformat L s) as [d|].
Qed.

Lemma reads_only_recent_mood_bias (mood : string) : reads_only (recent_mood_bias L mood).
Proof.
  unfold recent_mood_bias.
  apply reads_only_bind; [apply reads_only_load_memory|]. intros mem.
  apply reads_only_bind; [apply reads_only_lift|]. intros recent.
  apply reads_only_bind; [apply reads_only_lift|]. intros items.
  apply reads_only_bind; [apply reads_only_lift|]. intros [|x last_same].
  - apply reads_only_ret.
  - apply reads_only_bind.
    + apply reads_only_catch; [|intros e; apply reads_only_ret].
      apply reads_only_bind; [apply reads_only_lift|]. intros m.
      apply reads_only_bind; [apply reads_only_lift|]. intros ts.
      apply reads_only_bind; [apply reads_only_fromisoformat|]. intros last_ts.
      apply reads_only_bind; [now intros w|]. intros now.
      apply reads_only_bind; [apply reads_only_lift|]. intros delta.
      destruct (delta <? timedelta_minutes 60)%Z; apply reads_only_ret.
    + intros [p|]; apply reads_only_ret.
Qed.

Lemma reads_only_bias_loop (moods : list string) (st : scores_t * list reason) :
  reads_only (bias_loop L moods st).
Proof.
  revert st. induction moods as [|m moods IH]; intros st; [apply reads_only_ret|].
  simpl. apply reads_only_bind; [apply reads_only_recent_mood_bias|].
  intros adj. apply IH.
Qed.

Lemma reads_only_detect_mood (text : string) : reads_only (detect_mood L text).
Proof.
  unfold detect_mood.
  apply reads_only_bind; [apply reads_only_bias_loop|]. intros st.
  apply reads_only_bind; [apply reads_only_lift|]. intros m. apply reads_only_ret.
Qed.

(** X5: Classifying changes nothing: [recent_mood_bias] and [detect_mood]
    leave the memory file, the messages sent and the rest of the world as they
    found them, also when they raise. *)
Theorem detect_mood_reads_only (text mood : string) (w : world) :
  snd (detect_mood L text w) = w /\ snd (recent_mood_bias L mood w) = w.
Proof.
  split; [apply reads_only_detect_mood|apply reads_only_recent_mood_bias].
Qed.

Lemma frames_save_memory (mem : json) : frames (save_memory L mem).
Proof.
  intros w. simpl. split; [reflexivity|]. split; [reflexivity|].
  exists []. now rewrite app_nil_r.
Qed.

Lemma frames_shuffle {A : Type} (l : list A) : frames (py_shuffle L l).
Proof.
  intros w. unfold py_shuffle. destruct (shuffle L A (random_state w) l). simpl.
  split; [reflexivity|]. split; [reflexivity|]. exists []. now rewrite app_nil_r.
Qed.

Lemma frames_remember_mood (mood : string) : frames (remember_mood L mood).
Proof.
  unfold remember_mood.
  apply frames_bind; [apply frames_reads_only, reads_only_load_memory|]. intros mem.
  apply frames_bind; [apply frames_reads_only, reads_only_lift|]. intros recent.
  apply frames_bind; [apply frames_reads_only, reads_only_lift|]. intros items.
  apply frames_bind; [apply frames_reads_only; now intros w|]. intros now.
  apply frames_bind; [apply frames_reads_only, reads_only_lift|]. intros mem'.
  apply frames_save_memory.
Qed.

Lemma frames_suggest (mood : string) (n : nat) : frames (suggest_for_mood L mood n).
Proof.
  unfold suggest_for_mood.
  apply frames_bind; [apply frames_reads_only, reads_only_lift|]. intros fallback.
  apply frames_bind; [apply frames_shuffle|]. intros pool.
  apply frames_reads_only, reads_only_ret.
Qed.

Lemma frames_pick_quote : frames (pick_quote L).
Proof.
  unfold pick_quote. apply frames_bind; [apply frames_reads_only; now intros w|].
  intros ex. apply frames_bind.
  - destruct ex; [|apply frames_reads_only, reads_only_ret].
    apply frames_catch; [|intros e; apply frames_reads_only, reads_only_ret].
    apply frames_bind.
    { apply frames_reads_only. intros w. unfold read_text. now destruct (quotes_file w). }
    intros text. apply frames_bind.
    { apply frames_reads_only. intros w. unfold py_json_loads.
      now destruct (json_loads L text). }
    intros [| | | |[|q qs]|]; try apply frames_reads_only, reads_only_ret.
    apply frames_bind; [apply frames_shuffle|]. intros shuffled.
    apply frames_bind; [apply frames_reads_only, reads_only_lift|]. intros first.
    apply frames_reads_only, reads_only_ret.
  - intros [quote|]; [apply frames_reads_only, reads_only_ret|].
    apply frames_bind; [apply frames_shuffle|]. intros q.
    apply frames_bind; [apply frames_reads_only, reads_only_lift|]. intros first.
    apply frames_reads_only, reads_only_ret.
Qed.

(** X6: The handler never writes [quotes.json], never moves the clock and
    never takes back a message: whatever the message and the outcome, the
    messages sent before are still there, followed by the new ones. *)
Theorem handle_message_frame (message : string) (w : world) :
  quotes_file (snd (handle_message L message w)) = quotes_file w /\
  clock (snd (handle_message L message w)) = clock w /\
  exists new, outbox (snd (handle_message L message w)) = outbox w ++ new.
Proof.
  revert w. change (frames (handle_message L message)). unfold handle_message.
  destruct (String.eqb (lower (strip message)) "save").
  { apply frames_bind; [apply frames_reads_only, reads_only_load_memory|]. intros mem.
    apply frames_bind; [apply frames_save_memory|]. intros _. apply frames_send. }
  destruct (String.eqb (lower (strip message)) "reset").
  { apply frames_bind; [apply frames_save_memory|]. intros _. apply frames_send. }
  destruct (startswith (lower (strip message)) "correct:").
  { apply frames_bind; [apply frames_reads_only, reads_only_lift|]. intros part.
    destruct (negb (py_in (lower (strip part)) ALL_MOODS)); [apply frames_send|].
    apply frames_bind; [apply frames_remember_mood|]. intros _.
    apply frames_bind; [apply frames_suggest|]. intros tips.
    apply frames_bind; [apply frames_pick_quote|]. intros quote. apply frames_send. }
  destruct (String.eqb (lower (strip message)) "why"); [apply frames_send|].
  apply frames_bind; [apply frames_reads_only, reads_only_detect_mood|].
  intros [[[mood comp] reasons] scores].
  apply frames_bind; [apply frames_remember_mood|]. intros _.
  apply frames_bind; [apply frames_suggest|]. intros tips.
  apply frames_bind; [apply frames_pick_quote|]. intros quote.
  apply frames_bind; [apply frames_send|]. intros _.
  destruct (contains "why" (lower (strip message)));
    [apply frames_send|apply frames_reads_only, reads_only_ret].
Qed.

End Frames.

(** ** The handler, branch by branch *)

Lemma max_from_in {A : Type} (key : A -> float) (best : A) (items : list A) :
  In (max_from key best items) (best :: items).
Proof.
  revert best. induction items as [|x items IH]; intros best; [now left|].
  simpl max_from. destruct (key best <? key x)%float.
  - right. apply IH.
  - destruct (IH best) as [H|H]; [now left|right; now right].
Qed.

Lemma is_command_false (text : string) :
  is_command text = false ->
  String.eqb (lower text) "save" = false /\
  String.eqb (lower text) "reset" = false /\
  startswith (lower text) "correct:" = false /\
  String.eqb (lower text) "why" = false.
Proof.
  unfold is_command. intros H.
  apply orb_false_iff in H as [H Hwhy]. apply orb_false_iff in H as [H Hcorrect].
  apply orb_false_iff in H as [Hsave Hreset]. auto.
Qed.

Section Replies.

Context (L : Library).

Lemma stored_memory_file (w1 w2 : world) :
  memory_file w1 = memory_file w2 -> stored L w1 = stored L w2.
Proof. unfold stored. now intros ->. Qed.

Lemma sound_memory_file (w1 w2 : world) :
  memory_file w1 = memory_file w2 -> sound_memory L w2 -> sound_memory L w1.
Proof. unfold sound_memory. intros H. now rewrite (stored_memory_file w1 w2 H). Qed.

Lemma is_mood_memory_is_memory (mem : json) :
  is_mood_memory mem = true -> is_memory mem = true.
Proof. unfold is_mood_memory. intros H. now apply andb_true_iff in H. Qed.

(** The end of a reply: the tips, the quote, then what is done with them. *)
Lemma reply_run {A : Type} (mood : string) (f : list string -> json -> M A) (w1 : world) :
  ShuffleLaws L -> In mood ALL_MOODS ->
  exists tips quote r,
    Permutation (suggestions_of mood) tips /\
    (tips <- suggest_for_mood L mood 3 ;; quote <- pick_quote L ;; f tips quote) w1
    = f tips quote (set_random_state r w1).
Proof.
  intros laws Hmood. unfold bind at 1. rewrite suggest_for_mood_run. cbv iota beta.
  set (tips := firstn 3 _). set (w2 := set_random_state _ w1).
  destruct (pick_quote_returns L w2 laws) as (quote & r & Hq).
  exists tips, quote, r. split.
  - unfold tips. destruct (suggestions_of_known mood Hmood) as (_ & Hlen & _).
    pose proof (shuffle_permutes L laws string (random_state w1) (suggestions_of mood))
      as Hperm.
    rewrite firstn_all2; [exact Hperm|].
    rewrite <- (Permutation_length Hperm), Hlen. lia.
  - unfold bind at 1. rewrite Hq. reflexivity.
Qed.

Lemma keeps_memory_reply (mood : string) (f : list string -> json -> M unit) :
  (forall tips quote, keeps_memory (f tips quote)) ->
  keeps_memory (tips <- suggest_for_mood L mood 3 ;; quote <- pick_quote L ;; f tips quote).
Proof.
  intros Hf. apply keeps_memory_bind; [apply keeps_memory_suggest|]. intros tips.
  apply keeps_memory_bind; [apply keeps_memory_pick_quote|]. intros quote. apply Hf.
Qed.

Lemma handle_message_plain (message : string) (w : world) :
  is_command (strip message) = false ->
  handle_message L message w =
    ('(mood, comp, reasons, scores) <- detect_mood L (strip message) ;;
     remember_mood L mood ;;
     tips <- suggest_for_mood L mood 3 ;;
     quote <- pick_quote L ;;
     send (DetectedReply mood comp tips quote) ;;
     if contains "why" (lower (strip message)) then send (Explanation reasons scores)
     else ret tt) w.
Proof.
  intros H. apply is_command_false in H as (H1 & H2 & H3 & H4).
  unfold handle_message. now rewrite H1, H2, H3, H4.
Qed.

Lemma handle_message_correct (message verb arg : string) (w : world) :
  strip message = (verb ++ String ":"%char arg)%string ->
  lower verb = "correct" ->
  handle_message L message w =
    (if negb (py_in (lower (strip arg)) ALL_MOODS)
     then send (Plain (unknown_mood_text (lower (strip arg))))
     else remember_mood L (lower (strip arg)) ;;
          tips <- suggest_for_mood L (lower (strip arg)) 3 ;;
          quote <- pick_quote L ;;
          send (CorrectedReply (lower (strip arg)) tips quote)) w.
Proof.
  intros Htext Hverb. destruct (correct_verb_split verb arg Hverb) as (Hsplit & Hpre).
  rewrite <- Htext in Hsplit, Hpre.
  assert (Hsave : String.eqb (lower (strip message)) "save" = false).
  { unfold startswith in Hpre. apply prefix_spec in Hpre as (post & ->). reflexivity. }
  assert (Hreset : String.eqb (lower (strip message)) "reset" = false).
  { unfold startswith in Hpre. apply prefix_spec in Hpre as (post & ->). reflexivity. }
  unfold handle_message. rewrite Hsave, Hreset, Hpre, Hsplit.
  unfold bind at 1. unfold lift, py_index. simpl nth_error. reflexivity.
Qed.

(** X7: A message that is no command, on a memory whose records all carry a
    mood: the mood is detected on the memory as it was before the message, a
    record of it is appended, and the reply carries the mood, the compound
    score, the three suggestions of the mood in some order and a quote; the
    reasons and the scores follow in a second message when the text contains
    [why], and only then. *)
Theorem plain_message_handled (message : string) (w : world) :
  ShuffleLaws L ->
  is_command (strip message) = false ->
  is_mood_memory (stored L w) = true ->
  exists mood comp reasons scores tips quote r d records,
    detect_mood L (strip message) w = (Return (mood, comp, reasons, scores), w) /\
    In mood ALL_MOODS /\
    stored L w = JObj d /\ recent_value d = JArr records /\
    Permutation (suggestions_of mood) tips /\
    handle_message L message w =
      (Return tt,
       mkWorld
         (Some (json_dumps L
            (JObj (dict_set "recent_moods"
                     (JArr (lastn 10 (records ++ [mood_record L mood (clock w)]))) d))))
         (quotes_file w) (clock w) r
         (outbox w ++ DetectedReply mood comp tips quote
            :: (if contains "why" (lower (strip message))
                then [Explanation reasons scores] else []))).
Proof.
  intros laws Hplain Hmem.
  destruct (detect_mood_run L (strip message) w Hmem) as (reasons & Hdetect).
  set (scores := detect_scores L (strip message) w) in *.
  set (mood := max_from (score_of scores) "stressed" ["tired"; "sad"; "happy"; "neutral"])
    in *.
  assert (Hmood : In mood ALL_MOODS) by apply max_from_in.
  destruct (is_memory_inv _ (is_mood_memory_is_memory _ Hmem)) as (d & records & Hd & Hget).
  set (w1 := set_memory_file
               (Some (json_dumps L
                  (JObj (dict_set "recent_moods"
                           (JArr (lastn 10 (records ++ [mood_record L mood (clock w)]))) d))))
               w).
  destruct (reply_run mood
              (fun tips quote =>
                 send (DetectedReply mood (compound L (lower (strip message))) tips quote) ;;
                 if contains "why" (lower (strip message))
                 then send (Explanation reasons scores) else ret tt)
              w1 laws Hmood) as (tips & quote & r & Hperm & Hreply).
  exists mood, (compound L (lower (strip message))), reasons, scores, tips, quote, r, d, records.
  split; [exact Hdetect|]. split; [exact Hmood|]. split; [exact Hd|]. split; [exact Hget|].
  split; [exact Hperm|].
  rewrite (handle_message_plain message w Hplain).
  unfold bind at 1. rewrite Hdetect. cbv iota beta.
  unfold bind at 1. rewrite (remember_mood_run L w mood d records Hd) by now rewrite Hget.
  cbv iota beta. fold w1. rewrite Hreply.
  destruct (contains "why" (lower (strip message))); unfold bind, send, push_outbox;
    simpl; rewrite <- ?app_assoc; reflexivity.
Qed.

(** X8: [correct: <mood>] with one of the five moods, on a memory state: no
    mood is detected; the record of the given mood is appended and one reply
    is sent, which carries the mood, its three suggestions in some order and a
    quote. *)
Theorem correction_replied (message verb arg : string) (w : world) :
  ShuffleLaws L ->
  strip message = (verb ++ String ":"%char arg)%string ->
  lower verb = "correct" ->
  In (lower (strip arg)) ALL_MOODS ->
  is_memory (stored L w) = true ->
  exists tips quote r d records,
    stored L w = JObj d /\ recent_value d = JArr records /\
    Permutation (suggestions_of (lower (strip arg))) tips /\
    handle_message L message w =
      (Return tt,
       mkWorld
         (Some (json_dumps L
            (JObj (dict_set "recent_moods"
                     (JArr (lastn 10 (records
                                      ++ [mood_record L (lower (strip arg)) (clock w)])))
                     d))))
         (quotes_file w) (clock w) r
         (outbox w ++ [CorrectedReply (lower (strip arg)) tips quote])).
Proof.
  intros laws Htext Hverb Hmood Hmem.
  destruct (is_memory_inv _ Hmem) as (d & records & Hd & Hget).
  set (mood := lower (strip arg)) in *.
  set (w1 := set_memory_file
               (Some (json_dumps L
                  (JObj (dict_set "recent_moods"
                           (JArr (lastn 10 (records ++ [mood_record L mood (clock w)]))) d))))
               w).
  destruct (reply_run mood (fun tips quote => send (CorrectedReply mood tips quote))
              w1 laws Hmood) as (tips & quote & r & Hperm & Hreply).
  exists tips, quote, r, d, records.
  split; [exact Hd|]. split; [exact Hget|]. split; [exact Hperm|].
  rewrite (handle_message_correct message verb arg w Htext Hverb). fold mood.
  apply py_in_In in Hmood. rewrite Hmood. change (negb true) with false. cbv iota.
  unfold bind at 1. rewrite (remember_mood_run L w mood d records Hd) by now rewrite Hget.
  cbv iota beta. fold w1. rewrite Hreply. reflexivity.
Qed.

End Replies.

Section SoundMemory.

Context (L : Library).

Lemma has_mood_record (mood : string) (now : Z) :
  has_mood (mood_record L mood now) = true.
Proof. reflexivity. Qed.

Lemma remember_sound (w : world) (mood : string) :
  JsonLaws L -> sound_memory L w ->
  fst (remember_mood L mood w) = Return tt /\
  sound_memory L (snd (remember_mood L mood w)).
Proof.
  intros laws [Hmem Hlen]. unfold is_mood_memory in Hmem.
  apply andb_true_iff in Hmem as [Hmem Hmoods].
  destruct (remember_mood_step L w mood laws Hmem) as (Hret & Hmem' & Hrec).
  split; [exact Hret|]. unfold sound_memory, is_mood_memory.
  rewrite Hmem', Hrec. split.
  - apply forallb_lastn. rewrite forallb_app, Hmoods. reflexivity.
  - rewrite lastn_length. lia.
Qed.

Lemma sound_after_save (mem : json) (w : world) (m : message) :
  JsonLaws L -> wf_json mem = true ->
  is_mood_memory mem = true -> List.length (recent_moods_of mem) <= 10 ->
  sound_memory L (push_outbox m (set_memory_file (Some (json_dumps L mem)) w)).
Proof.
  intros laws Hwf Hmem Hlen.
  apply (sound_memory_file L _ (set_memory_file (Some (json_dumps L mem)) w));
    [reflexivity|].
  unfold sound_memory. now rewrite stored_set_memory_file.
Qed.

(** The handler keeps the memory sound, whatever the message and also when
    it raises after the memory was written. *)
Lemma handler_sound (message : string) (w : world) :
  JsonLaws L -> sound_memory L w -> sound_memory L (snd (handle_message L message w)).
Proof.
  intros laws Hsound. unfold handle_message.
  destruct (String.eqb (lower (strip message)) "save").
  { unfold bind. rewrite load_memory_run, save_memory_run. simpl snd.
    destruct Hsound as [Hmem Hlen]. apply sound_after_save; auto. now apply stored_wf. }
  destruct (String.eqb (lower (strip message)) "reset").
  { unfold bind. rewrite save_memory_run. simpl snd.
    apply sound_after_save; auto; simpl; lia. }
  destruct (startswith (lower (strip message)) "correct:").
  { unfold bind at 1, lift.
    destruct (py_index (py_split1 (strip message) ":"%char) 1) as [part|e]; [|exact Hsound].
    destruct (negb (py_in (lower (strip part)) ALL_MOODS)).
    { apply (sound_memory_file L _ w); [reflexivity|exact Hsound]. }
    unfold bind at 1.
    destruct (remember_sound w (lower (strip part)) laws Hsound) as (Hret & Hsound').
    destruct (remember_mood L (lower (strip part)) w) as [o w1]. simpl in Hret, Hsound'.
    subst o. eapply sound_memory_file; [|exact Hsound'].
    apply (keeps_memory_reply L (lower (strip part))
             (fun tips quote => send (CorrectedReply (lower (strip part)) tips quote))).
    intros tips quote. apply keeps_memory_send. }
  destruct (String.eqb (lower (strip message)) "why").
  { apply (sound_memory_file L _ w); [reflexivity|exact Hsound]. }
  unfold bind at 1.
  destruct (detect_mood_run L (strip message) w (proj1 Hsound)) as (reasons & ->).
  unfold bind at 1.
  match goal with |- context [remember_mood L ?m w] => set (mood := m) end.
  destruct (remember_sound w mood laws Hsound) as (Hret & Hsound').
  destruct (remember_mood L mood w) as [o w1]. simpl in Hret, Hsound'. subst o.
  eapply sound_memory_file; [|exact Hsound'].
  match goal with
  | |- memory_file (snd (?c w1)) = _ => assert (Hkeep : keeps_memory c)
  end.
  { apply keeps_memory_reply. intros tips quote.
    apply keeps_memory_bind; [apply keeps_memory_send|]. intros _.
    destruct (contains "why" (lower (strip message)));
      [apply keeps_memory_send|apply keeps_memory_ret]. }
  apply Hkeep.
Qed.

(** On a memory whose records all carry a mood the handler returns, having
    sent one message, or two for a message that is no command and contains
    [why]. *)
Lemma handler_returns (message : string) (w : world) :
  ShuffleLaws L -> is_mood_memory (stored L w) = true ->
  fst (handle_message L message w) = Return tt /\
  exists new,
    outbox (snd (handle_message L message w)) = outbox w ++ new /\
    List.length new =
      if is_command (strip message) then 1
      else if contains "why" (lower (strip message)) then 2 else 1.
Proof.
  intros laws Hmem.
  destruct (is_memory_inv _ (is_mood_memory_is_memory _ Hmem)) as (d & records & Hd & Hget).
  destruct (is_command (strip message)) eqn:Hcmd.
  - unfold is_command in Hcmd.
    destruct (String.eqb (lower (strip message)) "save") eqn:Hsave.
    { assert (Hrun : handle_message L message w =
                (Return tt, push_outbox (Plain "Memory saved to disk.")
                              (set_memory_file (Some (json_dumps L (stored L w))) w))).
      { unfold handle_message. rewrite Hsave. unfold bind.
        now rewrite load_memory_run, save_memory_run. }
      rewrite Hrun. split; [reflexivity|]. now eexists [_]. }
    destruct (String.eqb (lower (strip message)) "reset") eqn:Hreset.
    { assert (Hrun : handle_message L message w =
                (Return tt, push_outbox (Plain "Cleared recent mood memory.")
                              (set_memory_file (Some (json_dumps L empty_memory)) w))).
      { unfold handle_message. now rewrite Hsave, Hreset. }
      rewrite Hrun. split; [reflexivity|]. now eexists [_]. }
    destruct (startswith (lower (strip message)) "correct:") eqn:Hpre.
    { destruct (correct_prefix_split _ Hpre) as (verb & arg & Htext & Hverb & _).
      destruct (py_in (lower (strip arg)) ALL_MOODS) eqn:Hmood.
      2: { rewrite (handle_message_correct L message verb arg w Htext Hverb), Hmood.
           simpl. split; [reflexivity|]. now eexists [_]. }
      apply py_in_In in Hmood.
      destruct (reply_run L (lower (strip arg))
                  (fun tips quote => send (CorrectedReply (lower (strip arg)) tips quote))
                  (set_memory_file
                     (Some (json_dumps L
                        (JObj (dict_set "recent_moods"
                                 (JArr (lastn 10 (records
                                    ++ [mood_record L (lower (strip arg)) (clock w)]))) d))))
                     w)
                  laws Hmood) as (tips & quote & r & _ & Hreply).
      assert (Hrun : handle_message L message w =
                (Return tt,
                 push_outbox (CorrectedReply (lower (strip arg)) tips quote)
                   (set_random_state r
                      (set_memory_file
                         (Some (json_dumps L
                            (JObj (dict_set "recent_moods"
                                     (JArr (lastn 10 (records
                                        ++ [mood_record L (lower (strip arg)) (clock w)])))
                                     d))))
                         w)))).
      { rewrite (handle_message_correct L message verb arg w Htext Hverb).
        apply py_in_In in Hmood. rewrite Hmood. change (negb true) with false. cbv iota.
        unfold bind at 1.
        rewrite (remember_mood_run L w _ d records Hd) by now rewrite Hget.
        cbv iota beta. rewrite Hreply. reflexivity. }
      rewrite Hrun. split; [reflexivity|]. now eexists [_]. }
    simpl in Hcmd.
    assert (Hrun : handle_message L message w = (Return tt, push_outbox (Plain why_text) w)).
    { unfold handle_message. now rewrite Hsave, Hreset, Hpre, Hcmd. }
    rewrite Hrun. split; [reflexivity|]. now eexists [_].
  - destruct (detect_mood_run L (strip message) w Hmem) as (reasons & Hdetect).
    set (scores := detect_scores L (strip message) w) in *.
    set (mood := max_from (score_of scores) "stressed" ["tired"; "sad"; "happy"; "neutral"])
      in *.
    destruct (reply_run L mood
                (fun tips quote =>
                   send (DetectedReply mood (compound L (lower (strip message))) tips quote) ;;
                   if contains "why" (lower (strip message))
                   then send (Explanation reasons scores) else ret tt)
                (set_memory_file
                   (Some (json_dumps L
                      (JObj (dict_set "recent_moods"
                               (JArr (lastn 10 (records ++ [mood_record L mood (clock w)])))
                               d))))
                   w)
                laws (max_from_in _ _ _)) as (tips & quote & r & _ & Hreply).
    assert (Hrun : handle_message L message w =
              (send (DetectedReply mood (compound L (lower (strip message))) tips quote) ;;
               if contains "why" (lower (strip message))
               then send (Explanation reasons scores) else ret tt)
                (set_random_state r
                   (set_memory_file
                      (Some (json_dumps L
                         (JObj (dict_set "recent_moods"
                                  (JArr (lastn 10 (records ++ [mood_record L mood (clock w)])))
                                  d))))
                      w))).
    { rewrite (handle_message_plain L message w Hcmd).
      unfold bind at 1. rewrite Hdetect. cbv iota beta.
      unfold bind at 1. rewrite (remember_mood_run L w mood d records Hd) by now rewrite Hget.
      cbv iota beta. exact Hreply. }
    rewrite Hrun.
    destruct (contains "why" (lower (strip message))); unfold bind, send, push_outbox; simpl;
      (split; [reflexivity|]); rewrite <- ?app_assoc; eexists; split; reflexivity.
Qed.

End SoundMemory.

Section Conversation.

Context (L : Library).

(** X9: [save] writes the memory as [load_memory] reads it: the state is the
    same afterwards, and a second [save] leaves the file as the first did. *)
Theorem save_keeps_state (message : string) (w : world) :
  JsonLaws L ->
  lower (strip message) = "save" ->
  let w' := snd (handle_message L message w) in
  handle_message L message w =
    (Return tt,
     push_outbox (Plain "Memory saved to disk.")
       (set_memory_file (Some (json_dumps L (stored L w))) w)) /\
  stored L w' = stored L w /\
  memory_file (snd (handle_message L message w')) = memory_file w'.
Proof.
  intros laws Hsave w'.
  assert (Hrun : forall w0, handle_message L message w0 =
            (Return tt,
             push_outbox (Plain "Memory saved to disk.")
               (set_memory_file (Some (json_dumps L (stored L w0))) w0))).
  { intros w0. unfold handle_message. rewrite Hsave.
    change (String.eqb "save" "save") with true. cbv iota.
    unfold bind. now rewrite load_memory_run, save_memory_run. }
  assert (Hsame : stored L w' = stored L w).
  { unfold w'. rewrite Hrun. simpl snd.
    rewrite (stored_memory_file L _ (set_memory_file (Some (json_dumps L (stored L w))) w))
      by reflexivity.
    apply stored_set_memory_file; [assumption|now apply stored_wf]. }
  split; [apply Hrun|]. split; [exact Hsame|].
  rewrite (Hrun w'). simpl. rewrite Hsame. unfold w'. now rewrite Hrun.
Qed.

(** X10: [reset] replaces the memory file by the empty state, whatever it held
    (other top-level entries included): no mood is penalised afterwards. *)
Theorem reset_forgets (message : string) (w : world) :
  JsonLaws L ->
  lower (strip message) = "reset" ->
  let w' := snd (handle_message L message w) in
  handle_message L message w =
    (Return tt,
     push_outbox (Plain "Cleared recent mood memory.")
       (set_memory_file (Some (json_dumps L empty_memory)) w)) /\
  stored L w' = empty_memory /\
  forall mood now,
    recent_mood_bias L mood (set_clock now w') = (Return 0%float, set_clock now w').
Proof.
  intros laws Hreset w'.
  assert (Hrun : handle_message L message w =
            (Return tt,
             push_outbox (Plain "Cleared recent mood memory.")
               (set_memory_file (Some (json_dumps L empty_memory)) w))).
  { unfold handle_message. rewrite Hreset. reflexivity. }
  assert (Hempty : stored L w' = empty_memory).
  { unfold w'. rewrite Hrun. simpl snd.
    rewrite (stored_memory_file L _ (set_memory_file (Some (json_dumps L empty_memory)) w))
      by reflexivity.
    now apply stored_set_memory_file. }
  split; [exact Hrun|]. split; [exact Hempty|].
  intros mood now.
  now rewrite (recent_mood_bias_run L (set_clock now w') mood _ [] Hempty).
Qed.

(** X11: Whatever the message, a sound memory stays sound: after the handler
    the memory file still reads as a memory state with at most 10 records,
    each carrying a mood. *)
Theorem handle_message_keeps_sound (message : string) (w : world) :
  JsonLaws L ->
  sound_memory L w ->
  is_mood_memory (stored L (snd (handle_message L message w))) = true /\
  List.length (recent_moods_of (stored L (snd (handle_message L message w)))) <= 10.
Proof. intros laws Hsound. exact (handler_sound L message w laws Hsound). Qed.

(** X12: On a memory whose records all carry a mood the handler never raises,
    and it answers every message: with one message, or with two when the
    message is no command and contains [why]. *)
Theorem handle_message_returns (message : string) (w : world) :
  ShuffleLaws L ->
  is_mood_memory (stored L w) = true ->
  fst (handle_message L message w) = Return tt /\
  exists new,
    outbox (snd (handle_message L message w)) = outbox w ++ new /\
    List.length new =
      if is_command (strip message) then 1
      else if contains "why" (lower (strip message)) then 2 else 1.
Proof. intros laws Hmem. exact (handler_returns L message w laws Hmem). Qed.

Lemma handle_all_run (incoming : list (string * Z)) (w : world) :
  JsonLaws L -> ShuffleLaws L -> sound_memory L w ->
  fst (handle_all L incoming w) = Return tt /\
  sound_memory L (snd (handle_all L incoming w)) /\
  exists replies,
    outbox (snd (handle_all L incoming w)) = outbox w ++ replies /\
    List.length incoming <= List.length replies <= 2 * List.length incoming.
Proof.
  intros jlaws slaws. revert w.
  induction incoming as [|[message t] incoming IH]; intros w Hsound.
  - simpl. split; [reflexivity|]. split; [exact Hsound|].
    exists []. rewrite app_nil_r. split; [reflexivity|simpl; lia].
  - assert (Hsound0 : sound_memory L (set_clock t w)) by exact Hsound.
    pose proof (handler_sound L message _ jlaws Hsound0) as Hsound1.
    destruct (handler_returns L message _ slaws (proj1 Hsound0))
      as (Hret & new & Hout & Hlen).
    simpl handle_all. unfold bind.
    destruct (handle_message L message (set_clock t w)) as [o w1].
    simpl in Hret, Hsound1, Hout. subst o.
    destruct (IH w1 Hsound1) as (Hret' & Hsound' & replies & Hout' & Hlen').
    split; [exact Hret'|]. split; [exact Hsound'|].
    exists (new ++ replies). rewrite Hout', Hout, app_assoc. split; [reflexivity|].
    rewrite length_app. simpl List.length.
    destruct (is_command (strip message));
      [|destruct (contains "why" (lower (strip message)))]; lia.
Qed.

(** X13: A whole session on a sound memory (a missing memory file is one): the
    welcome is sent first, every call of the handler returns, every message
    gets one or two replies, and the memory is sound at the end. *)
Theorem session_runs (incoming : list (string * Z)) (w : world) :
  JsonLaws L -> ShuffleLaws L ->
  sound_memory L w ->
  fst (session L incoming w) = Return tt /\
  sound_memory L (snd (session L incoming w)) /\
  exists replies,
    outbox (snd (session L incoming w)) = outbox w ++ Plain welcome_text :: replies /\
    List.length incoming <= List.length replies <= 2 * List.length incoming.
Proof.
  intros jlaws slaws Hsound. unfold session, bind, start, send.
  destruct (handle_all_run incoming (push_outbox (Plain welcome_text) w) jlaws slaws)
    as (Hret & Hsound' & replies & Hout & Hlen).
  { exact Hsound. }
  split; [exact Hret|]. split; [exact Hsound'|].
  exists replies. rewrite Hout. simpl. rewrite <- app_assoc. split; [reflexivity|exact Hlen].
Qed.

(** *** Remembering and the penalty *)

Lemma mood_is_record (mood other : string) (now : Z) :
  mood_is mood (mood_record L other now) = String.eqb other mood.
Proof. reflexivity. Qed.

Lemma within_hour_record (mood : string) (t now : Z) :
  fromisoformat L (isoformat L t) = Some (Naive t) ->
  within_hour L now (mood_record L mood t) = (now - t <? timedelta_minutes 60)%Z.
Proof. intros H. unfold within_hour, mood_record. simpl. now rewrite H. Qed.

(** X14: A mood that was just remembered is penalised for the next 60 minutes:
    once [remember_mood m] ran at the instant [t], [recent_mood_bias m] gives
    -0.2 at every instant [now] with [now - t] under 60 minutes, and 0.0 from
    60 minutes on (the timestamp written reads back as [t]). *)
Theorem remembered_mood_penalised (w : world) (mood : string) (now : Z) :
  JsonLaws L ->
  is_mood_memory (stored L w) = true ->
  fromisoformat L (isoformat L (clock w)) = Some (Naive (clock w)) ->
  let w' := set_clock now (snd (remember_mood L mood w)) in
  recent_mood_bias L mood w' =
    (Return (if (now - clock w <? timedelta_minutes 60)%Z then (-0.2)%float else 0%float),
     w').
Proof.
  intros laws Hmem Htime w'. unfold is_mood_memory in Hmem.
  apply andb_true_iff in Hmem as [Hmem Hmoods].
  destruct (remember_mood_step L w mood laws Hmem) as (_ & Hmem' & Hrec).
  destruct (is_memory_inv _ Hmem') as (d' & recs' & Hd' & Hget').
  assert (Hrecs : recs' = lastn 9 (recent_moods_of (stored L w))
                          ++ [mood_record L mood (clock w)]).
  { rewrite Hd' in Hrec. simpl in Hrec. rewrite Hget' in Hrec. rewrite Hrec.
    now rewrite lastn_app by (simpl; lia). }
  rewrite (recent_mood_bias_run L w' mood d' recs' Hd' Hget').
  2: { rewrite Hrecs, forallb_app. rewrite forallb_lastn by assumption. reflexivity. }
  rewrite Hrecs, filter_app. cbn [filter]. rewrite mood_is_record, String.eqb_refl.
  destruct (filter (mood_is mood) (lastn 9 (recent_moods_of (stored L w)))
            ++ [mood_record L mood (clock w)]) as [|x rest] eqn:Hne.
  { now destruct (filter (mood_is mood) (lastn 9 (recent_moods_of (stored L w)))). }
  rewrite <- Hne, last_last.
  change (clock w') with now. now rewrite within_hour_record.
Qed.

(** X15: The penalty ends with the record: after ten or more later calls of
    [remember_mood] with other moods the record of the mood has left the
    memory, and [recent_mood_bias] gives 0.0 whatever the clock reads. *)
Theorem evicted_mood_forgotten (w : world) (mood : string)
  (later : list (string * Z)) (now : Z) :
  JsonLaws L ->
  is_mood_memory (stored L w) = true ->
  10 <= List.length later ->
  Forall (fun e => fst e <> mood) later ->
  let w' := set_clock now (snd ((remember_mood L mood ;; remember_all L later) w)) in
  fst ((remember_mood L mood ;; remember_all L later) w) = Return tt /\
  recent_mood_bias L mood w' = (Return 0%float, w').
Proof.
  intros laws Hmem Hlen Hother w'. unfold is_mood_memory in Hmem.
  apply andb_true_iff in Hmem as [Hmem _].
  destruct (remember_mood_step L w mood laws Hmem) as (Hret & Hmem1 & Hrec1).
  unfold w', bind. destruct (remember_mood L mood w) as [o w1].
  simpl in Hret, Hmem1, Hrec1. subst o.
  destruct (remember_all_run L later w1 laws Hmem1) as (Hret' & Hrec').
  { rewrite Hrec1, lastn_length. lia. }
  split; [exact Hret'|].
  assert (Hrec : recent_moods_of (stored L (snd (remember_all L later w1)))
                 = lastn 10 (map (fun e => mood_record L (fst e) (snd e)) later)).
  { rewrite Hrec'. apply lastn_app_long. now rewrite length_map. }
  assert (Hmem' : is_memory (stored L (snd (remember_all L later w1))) = true).
  { clear - laws Hmem1. revert w1 Hmem1.
    induction later as [|[m t] later IH]; intros w1 Hmem1; [exact Hmem1|].
    simpl remember_all. unfold bind.
    destruct (remember_mood_step L (set_clock t w1) m laws Hmem1) as (Hret & Hmem2 & _).
    destruct (remember_mood L m (set_clock t w1)) as [o w2]. simpl in Hret, Hmem2.
    subst o. now apply IH. }
  destruct (is_memory_inv _ Hmem') as (d' & recs' & Hd' & Hget').
  rewrite Hd' in Hrec. simpl in Hrec. rewrite Hget' in Hrec.
  assert (Hall : Forall (fun r => has_mood r = true /\ mood_is mood r = false) recs').
  { rewrite Hrec. apply Forall_forall. intros r Hr.
    assert (Hin : In r (map (fun e => mood_record L (fst e) (snd e)) later)).
    { unfold lastn in Hr.
      rewrite <- (firstn_skipn
                    (List.length (map (fun e => mood_record L (fst e) (snd e)) later) - 10)).
      apply in_or_app. now right. }
    apply in_map_iff in Hin as ([m t] & <- & Hin). split; [reflexivity|].
    rewrite mood_is_record. apply String.eqb_neq.
    rewrite Forall_forall in Hother. exact (Hother _ Hin). }
  rewrite (recent_mood_bias_run L (set_clock now (snd (remember_all L later w1)))
             mood d' recs' Hd' Hget').
  - rewrite filter_none; [reflexivity|].
    eapply Forall_impl; [|exact Hall]. now intros r [_ H].
  - apply forallb_forall. intros r Hr. rewrite Forall_forall in Hall.
    now destruct (Hall r Hr).
Qed.

(** *** Memory files that are not what the program writes *)

(** X16: [remember_mood] on a memory it cannot use: a value that is no dict
    raises [AttributeError], a ["recent_moods"] entry that cannot be iterated
    raises [TypeError]; whenever it raises, nothing was written. *)
Theorem remember_mood_fails_clean (w : world) (mood : string) :
  ((forall d, stored L w <> JObj d) ->
   remember_mood L mood w = (Raise AttributeError, w)) /\
  (forall d e,
     stored L w = JObj d -> py_iter (recent_value d) = Raise e ->
     e = TypeError /\ remember_mood L mood w = (Raise TypeError, w)) /\
  (forall e, fst (remember_mood L mood w) = Raise e -> snd (remember_mood L mood w) = w).
Proof.
  assert (Hnodict : (forall d, stored L w <> JObj d) ->
                    remember_mood L mood w = (Raise AttributeError, w)).
  { intros Hno. unfold remember_mood, bind. rewrite load_memory_run.
    destruct (stored L w) as [| | | | |d]; try reflexivity. now destruct (Hno d). }
  assert (Hiter : forall d e,
            stored L w = JObj d -> py_iter (recent_value d) = Raise e ->
            e = TypeError /\ remember_mood L mood w = (Raise TypeError, w)).
  { intros d e Hd He.
    assert (e = TypeError) as ->.
    { destruct (recent_value d); simpl in He; congruence. }
    split; [reflexivity|]. unfold remember_mood, bind. rewrite load_memory_run, Hd.
    unfold lift. simpl py_get. cbv iota beta. fold (recent_value d). now rewrite He. }
  split; [exact Hnodict|]. split; [exact Hiter|].
  intros e He. destruct (stored L w) as [| | | | |d] eqn:Hd.
  1-5: now rewrite Hnodict by (intros d; discriminate).
  destruct (py_iter (recent_value d)) as [items|e'] eqn:Hit.
  - rewrite (remember_mood_run L w mood d items Hd Hit) in He. discriminate.
  - destruct (Hiter d e' eq_refl Hit) as [_ ->]. reflexivity.
Qed.

Lemma bias_loop_raises (m : string) (rest : list string) (st : scores_t * list reason)
  (w : world) (e : exn) :
  recent_mood_bias L m w = (Raise e, w) ->
  bias_loop L (m :: rest) st w = (Raise e, w).
Proof. intros H. cbn [bias_loop]. unfold bind. now rewrite H. Qed.

Lemma same_mood_raises (records : list json) :
  forallb has_mood records = false ->
  exists e, (e = KeyError \/ e = TypeError) /\
            forall mood, same_mood mood records = Raise e.
Proof.
  induction records as [|m records IH]; [discriminate|].
  simpl forallb. unfold has_mood at 1. simpl same_mood.
  destruct (py_getitem m "mood") as [v|e0] eqn:Hget.
  - simpl. intros H. destruct (IH H) as (e & He & Hall).
    exists e. split; [exact He|]. intros mood. now rewrite Hall.
  - intros _. exists e0. split; [|reflexivity].
    unfold py_getitem in Hget. destruct m as [| | | | |d]; try (right; congruence).
    destruct (dict_get "mood" d); [discriminate|left; congruence].
Qed.

(** X17: One record that cannot be asked for its mood stops detection:
    whatever the mood or the text, [recent_mood_bias] and [detect_mood] raise
    (the [KeyError] or [TypeError] of the first such record), and the handler
    raises on every message that is no command, having written and sent
    nothing. *)
Theorem record_without_mood_raises (w : world) (d : list (string * json))
  (records : list json) :
  stored L w = JObj d ->
  recent_value d = JArr records ->
  forallb has_mood records = false ->
  exists e,
    (e = KeyError \/ e = TypeError) /\
    (forall mood, recent_mood_bias L mood w = (Raise e, w)) /\
    (forall text, detect_mood L text w = (Raise e, w)) /\
    (forall message,
       is_command (strip message) = false -> handle_message L message w = (Raise e, w)).
Proof.
  intros Hd Hget Hbad. destruct (same_mood_raises records Hbad) as (e & He & Hraise).
  assert (Hbias : forall mood, recent_mood_bias L mood w = (Raise e, w)).
  { intros mood. unfold recent_mood_bias, bind. rewrite load_memory_run, Hd.
    unfold lift. simpl py_get. cbv iota beta. fold (recent_value d). rewrite Hget.
    simpl py_iter. cbv iota beta. now rewrite Hraise. }
  assert (Hdetect : forall text, detect_mood L text w = (Raise e, w)).
  { intros text. unfold detect_mood, bind at 1.
    rewrite (bias_loop_raises "stressed" ["tired"; "sad"; "happy"; "neutral"] _ w e
               (Hbias "stressed")).
    reflexivity. }
  exists e. split; [exact He|]. split; [exact Hbias|]. split; [exact Hdetect|].
  intros message Hplain. rewrite (handle_message_plain L message w Hplain).
  unfold bind at 1. now rewrite Hdetect.
Qed.

End Conversation.

(** ** More on the classifier *)

Section ScoreBounds.

Context (L : Library).

Lemma sentiment_step_target (c : float) (st : scores_t * list reason) :
  exists k delta,
    In k ALL_MOODS /\ (delta = 0.5%float \/ delta = 0.2%float) /\
    fst (sentiment_step c st) = score_add k delta (fst st).
Proof.
  unfold sentiment_step.
  destruct (0.5 <=? c)%float; [exists "happy", 0.5%float; simpl; tauto|].
  destruct (0.05 <=? c)%float; [exists "happy", 0.2%float; simpl; tauto|].
  destruct (c <=? -0.5)%float; [exists "sad", 0.5%float; simpl; tauto|].
  destruct (c <=? -0.05)%float; [exists "stressed", 0.2%float; simpl; tauto|].
  exists "neutral", 0.2%float. simpl. tauto.
Qed.

(** X18: The scores [detect_mood] returns: one for each of the five moods, in
    the order of [ALL_MOODS], each between -0.2 and 1.1; the score of the mood
    it selects is never negative. *)
Theorem detect_mood_scores_bounded (text : string) (w : world) :
  is_mood_memory (stored L w) = true ->
  exists mood comp reasons scores,
    detect_mood L text w = (Return (mood, comp, reasons, scores), w) /\
    dict_keys scores = ALL_MOODS /\
    (forall m, In m ALL_MOODS ->
       (-0.2 <=? score_of scores m)%float = true /\
       (score_of scores m <=? 1.1)%float = true) /\
    (0 <=? score_of scores mood)%float = true.
Proof.
  intros Hmem. destruct (detect_mood_run L text w Hmem) as (reasons & Hrun).
  set (scores := detect_scores L text w) in *.
  set (mood := max_from (score_of scores) "stressed" ["tired"; "sad"; "happy"; "neutral"])
    in *.
  exists mood, (compound L (lower text)), reasons, scores.
  split; [exact Hrun|]. split; [apply detect_scores_keys|]. split.
  - intros m Hm. unfold scores. rewrite detect_scores_final by assumption.
    destruct (sentiment_step_values (compound L (lower text)) (keyword_state text) m)
      as [->|[->| ->]];
      destruct (keyword_state_values text m Hm) as [-> | ->];
      destruct (penalty_cases L w m) as [-> | ->];
      split; vm_compute; reflexivity.
  - destruct (sentiment_step_target (compound L (lower text)) (keyword_state text))
      as (k & delta & Hk & Hdelta & Hstep).
    assert (Hpos : (0 <=? score_of scores k)%float = true).
    { unfold scores. rewrite detect_scores_final by assumption.
      rewrite Hstep, score_of_add_same.
      destruct (keyword_state_values text k Hk) as [-> | ->];
        destruct Hdelta as [-> | ->];
        destruct (penalty_cases L w k) as [-> | ->];
        vm_compute; reflexivity. }
    destruct (max_from_spec (score_of scores) "stressed" ["tired"; "sad"; "happy"; "neutral"])
      as (before & after & Hsplit & Hbefore & Hafter).
    { intros m Hm. now apply detect_scores_not_nan. }
    fold mood in Hsplit, Hbefore, Hafter.
    change ("stressed" :: ["tired"; "sad"; "happy"; "neutral"]) with ALL_MOODS in Hsplit.
    rewrite Hsplit in Hk. apply in_app_or in Hk as [Hk|[<-|Hk]].
    + eapply FloatFacts.leb_trans; [exact Hpos|].
      apply FloatFacts.ltb_leb. now apply Hbefore.
    + exact Hpos.
    + eapply FloatFacts.leb_trans; [exact Hpos|]. now apply Hafter.
Qed.

(** X19: A text without any mood keyword and with a neutral compound score is
    classified neutral while neutral is not penalised. Once neutral is
    penalised its score is 0.0, level with the moods that got nothing, and the
    first of [ALL_MOODS] wins the tie: the text is classified stressed when
    stressed is not penalised. *)
Theorem bland_message (text : string) (w : world) :
  is_mood_memory (stored L w) = true ->
  (forall m kws kw,
     In (m, kws) MOOD_KEYWORDS -> In kw kws -> ~ occurs kw (lower text)) ->
  neutral_only (compound L (lower text)) ->
  exists mood reasons scores,
    detect_mood L text w =
      (Return (mood, compound L (lower text), reasons, scores), w) /\
    (recent_mood_bias L "neutral" w = (Return 0%float, w) ->
     mood = "neutral" /\ score_of scores "neutral" = (0 + 0.2 + 0)%float) /\
    (recent_mood_bias L "neutral" w = (Return (-0.2)%float, w) ->
     recent_mood_bias L "stressed" w = (Return 0%float, w) ->
     mood = "stressed" /\
     score_of scores "stressed" = (0 + 0)%float /\
     (score_of scores "neutral" =? score_of scores "stressed")%float = true).
Proof.
  intros Hmem Hnone Hneutral.
  destruct (detect_mood_run L text w Hmem) as (reasons & Hrun).
  set (scores := detect_scores L text w) in *.
  exists (max_from (score_of scores) "stressed" ["tired"; "sad"; "happy"; "neutral"]),
    reasons, scores.
  split; [exact Hrun|].
  assert (Hstep : forall m, In m ALL_MOODS ->
            score_of scores m =
              (score_of (score_add "neutral" 0.2%float (fst (keyword_state text))) m
               + penalty L w m)%float).
  { intros m Hm. unfold scores. rewrite detect_scores_final by assumption.
    now rewrite sentiment_step_neutral. }
  assert (Hkw : forall m kws, In (m, kws) MOOD_KEYWORDS ->
            score_of scores m = (0 + penalty L w m)%float).
  { intros m kws Hin.
    assert (Hm : In m ALL_MOODS).
    { simpl in Hin. simpl.
      destruct Hin as [H|[H|[H|[H|[]]]]]; injection H as <- _; tauto. }
    rewrite (Hstep m Hm). rewrite score_of_add_other.
    2: { simpl in Hin. destruct Hin as [H|[H|[H|[H|[]]]]]; injection H as <- _;
         discriminate. }
    rewrite (keyword_state_score text m kws Hin).
    destruct (existsb (fun k => contains k (lower text)) kws) eqn:He; [|reflexivity].
    apply existsb_occurs in He as (k & Hk & Hk'). now destruct (Hnone m kws k Hin Hk). }
  assert (Hs := Hkw "stressed" _ (or_introl eq_refl)).
  assert (Ht := Hkw "tired" _ (or_intror (or_introl eq_refl))).
  assert (Hsad := Hkw "sad" _ (or_intror (or_intror (or_introl eq_refl)))).
  assert (Hh := Hkw "happy" _ (or_intror (or_intror (or_intror (or_introl eq_refl))))).
  assert (Hn : score_of scores "neutral" = (0 + 0.2 + penalty L w "neutral")%float).
  { rewrite Hstep by (simpl; tauto). rewrite score_of_add_same.
    now rewrite keyword_state_neutral. }
  rewrite !(recent_mood_bias_penalty L w _ Hmem).
  cbn [max_from]. rewrite Hs, Ht, Hsad, Hh, Hn.
  split.
  - intros [= Hp]. rewrite Hp. split; [|reflexivity].
    destruct (penalty_cases L w "stressed") as [-> | ->];
      destruct (penalty_cases L w "tired") as [-> | ->];
      destruct (penalty_cases L w "sad") as [-> | ->];
      destruct (penalty_cases L w "happy") as [-> | ->];
      vm_compute; reflexivity.
  - intros [= Hp] [= Hp']. rewrite Hp, Hp'. split; [|split; reflexivity].
    destruct (penalty_cases L w "tired") as [-> | ->];
      destruct (penalty_cases L w "sad") as [-> | ->];
      destruct (penalty_cases L w "happy") as [-> | ->];
      vm_compute; reflexivity.
Qed.

End ScoreBounds.

(** ** Letter case and surrounding white space *)

Section Normalised.

Context (L : Library).

Lemma detect_mood_lower (t1 t2 : string) :
  lower t1 = lower t2 -> detect_mood L t1 = detect_mood L t2.
Proof. intros H. unfold detect_mood. now rewrite H. Qed.

(** X20: Outside [correct:], the handler looks at a message through its
    stripped, lowercased text only: two messages that agree once stripped
    and lowercased, and are no [correct:] command, are handled in the same
    way, in every world. *)
Theorem handle_message_normalised (m1 m2 : string) (w : world) :
  lower (strip m1) = lower (strip m2) ->
  startswith (lower (strip m1)) "correct:" = false ->
  handle_message L m1 w = handle_message L m2 w.
Proof.
  intros H Hcorrect. unfold handle_message. rewrite <- H, Hcorrect.
  destruct (String.eqb (lower (strip m1)) "save"); [reflexivity|].
  destruct (String.eqb (lower (strip m1)) "reset"); [reflexivity|].
  destruct (String.eqb (lower (strip m1)) "why"); [reflexivity|].
  now rewrite (detect_mood_lower (strip m1) (strip m2) H).
Qed.

End Normalised.

(** ** The reasons *)

Lemma keyword_fold_reasons (t : string) (table : list (string * list string))
  (st : scores_t * list reason) :
  snd (fold_left (keyword_step t) table st) =
    snd st ++ flat_map (fun entry : string * list string =>
                          match keyword_hits t (snd entry) with
                          | [] => []
                          | hits => [KeywordReason (fst entry) hits]
                          end) table.
Proof.
  revert st. induction table as [|[m kws] table IH]; intros st; cbn [fold_left flat_map].
  - now rewrite app_nil_r.
  - rewrite IH. unfold keyword_step. cbn [fst snd].
    destruct (keyword_hits t kws) as [|h hs]; [reflexivity|].
    cbn [snd]. now rewrite <- app_assoc.
Qed.

Section Reasons.

Context (L : Library).

Lemma bias_pure_reasons (w : world) (moods : list string) (st : scores_t * list reason) :
  snd (bias_pure L w moods st) =
    snd st ++ map PenaltyReason (filter (fun m => (penalty L w m <? 0)%float) moods).
Proof.
  revert st. induction moods as [|m moods IH]; intros st; cbn [bias_pure filter].
  - now rewrite app_nil_r.
  - rewrite IH. cbn [snd].
    destruct (penalty L w m <? 0)%float; [|reflexivity].
    cbn [map]. now rewrite <- app_assoc.
Qed.

Lemma sentiment_step_kind (c : float) (st : scores_t * list reason) :
  exists kind,
    sentiment_step c st =
      (score_add (rule_mood kind) (rule_delta kind) (fst st),
       snd st ++ [SentimentReason kind c (rule_mood kind)]) /\
    (FloatOrder.not_nan c -> rule_condition kind c).
Proof.
  unfold sentiment_step.
  destruct (0.5 <=? c)%float eqn:E1; [now exists Positive|].
  destruct (0.05 <=? c)%float eqn:E2.
  { exists SlightlyPositive. split; [reflexivity|]. intros Hc. split; [exact E2|].
    apply FloatFacts.not_leb_ltb in E1; auto. now apply const_not_nan. }
  destruct (c <=? -0.5)%float eqn:E3; [now exists Negative|].
  destruct (c <=? -0.05)%float eqn:E4.
  { exists SlightlyNegative. split; [reflexivity|]. intros Hc. split; [|exact E4].
    apply FloatFacts.not_leb_ltb in E3; auto. now apply const_not_nan. }
  exists NeutralSentiment. split; [reflexivity|]. intros Hc. split.
  - apply FloatFacts.not_leb_ltb in E4; auto. now apply const_not_nan.
  - apply FloatFacts.not_leb_ltb in E2; auto. now apply const_not_nan.
Qed.

(** X21: The reasons [detect_mood] returns account for every adjustment of a
    score, in the order they are made: a keyword reason for each mood with a
    hit (and no other), one sentiment reason for the rule that applied, and a
    penalty reason for each mood [recent_mood_bias] penalises (and no other). *)
Theorem detect_mood_reasons (text : string) (w : world) :
  is_mood_memory (stored L w) = true ->
  exists mood scores kind penalised,
    detect_mood L text w =
      (Return (mood, compound L (lower text),
               keyword_reasons (lower text)
               ++ SentimentReason kind (compound L (lower text)) (rule_mood kind)
               :: map PenaltyReason penalised,
               scores), w) /\
    (forall m hits,
       In (KeywordReason m hits) (keyword_reasons (lower text)) <->
       exists kws, In (m, kws) MOOD_KEYWORDS /\
                   hits = keyword_hits (lower text) kws /\ hits <> []) /\
    (FloatOrder.not_nan (compound L (lower text)) ->
     rule_condition kind (compound L (lower text))) /\
    (forall m,
       In m penalised <->
       In m ALL_MOODS /\ recent_mood_bias L m w = (Return (-0.2)%float, w)).
Proof.
  intros Hmem.
  destruct (sentiment_step_kind (compound L (lower text)) (keyword_state text))
    as (kind & Hstep & Hkind).
  exists (max_from (score_of (detect_scores L text w)) "stressed"
            ["tired"; "sad"; "happy"; "neutral"]),
    (detect_scores L text w), kind,
    (filter (fun m => (penalty L w m <? 0)%float) ALL_MOODS).
  split; [|split; [|split; [exact Hkind|]]].
  - unfold detect_mood, bind. rewrite (bias_loop_run L _ _ _ Hmem).
    fold (detect_scores L text w). rewrite detect_scores_keys.
    unfold lift, py_max, ret. cbn [dict_keys]. cbv iota beta.
    rewrite bias_pure_reasons. fold (keyword_state text). rewrite Hstep. cbn [snd].
    unfold keyword_state. rewrite keyword_fold_reasons. cbn [snd app].
    fold (keyword_reasons (lower text)). rewrite <- app_assoc. reflexivity.
  - intros m hits. unfold keyword_reasons. rewrite in_flat_map. split.
    + intros ([m' kws] & Hin & Hhit). cbn [fst snd] in Hhit.
      destruct (keyword_hits (lower text) kws) as [|h hs] eqn:Hk; [destruct Hhit|].
      destruct Hhit as [[= <- <-]|[]]. exists kws. rewrite Hk. now repeat split.
    + intros (kws & Hin & -> & Hne). exists (m, kws). split; [exact Hin|].
      cbn [fst snd]. destruct (keyword_hits (lower text) kws); [now destruct Hne|now left].
  - intros m. rewrite filter_In, (recent_mood_bias_penalty L w m Hmem).
    split; intros [Hm Hp]; (split; [exact Hm|]).
    + destruct (penalty_cases L w m) as [H|H]; rewrite H in Hp |- *;
        [discriminate Hp|reflexivity].
    + injection Hp as ->. reflexivity.
Qed.

End Reasons.

(** ** The keyword and sentiment steps within [detect_mood] *)

Lemma initial_score (m : string) :
  score_of (map (fun k => (k, 0%float)) ALL_MOODS) m = 0%float.
Proof.
  unfold score_of. cbn [map ALL_MOODS dict_get].
  repeat match goal with |- context [String.eqb m ?k] => destruct (String.eqb m k) end;
    reflexivity.
Qed.

Section Steps.

Context (L : Library).

(** [detect_mood] on a memory whose records all carry a mood, reasons
    included. *)
Lemma detect_mood_run_reasons (text : string) (w : world) :
  is_mood_memory (stored L w) = true ->
  detect_mood L text w =
    (Return (max_from (score_of (detect_scores L text w)) "stressed"
               ["tired"; "sad"; "happy"; "neutral"],
             compound L (lower text),
             snd (sentiment_step (compound L (lower text)) (keyword_state text))
             ++ map PenaltyReason
                  (filter (fun m => (penalty L w m <? 0)%float) ALL_MOODS),
             detect_scores L text w), w).
Proof.
  intros Hmem. unfold detect_mood, bind. rewrite (bias_loop_run L _ _ _ Hmem).
  fold (detect_scores L text w). rewrite detect_scores_keys.
  unfold lift, py_max, ret. cbn [dict_keys]. cbv iota beta.
  rewrite bias_pure_reasons. reflexivity.
Qed.

(** C9: in the scores [detect_mood] returns, a mood with a keyword list has
    exactly 0.6 from the keywords when at least one of its keywords occurs
    in the lowercased text, once however many of them occur, and nothing
    when none occurs; a mood without a keyword list has nothing from them.
    What else is in the score is the one sentiment adjustment, if it goes
    to that mood, and the recency penalty. *)
Theorem keyword_hit_adds_once (text : string) (w : world) :
  is_mood_memory (stored L w) = true ->
  exists mood reasons scores target delta,
    detect_mood L text w = (Return (mood, compound L (lower text), reasons, scores), w) /\
    In target ALL_MOODS /\ (delta = 0.5%float \/ delta = 0.2%float) /\
    (forall m kws p,
       In (m, kws) MOOD_KEYWORDS ->
       recent_mood_bias L m w = (Return p, w) ->
       ((exists kw, In kw kws /\ occurs kw (lower text)) ->
        score_of scores m =
          ((if String.eqb m target then 0 + 0.6 + delta else 0 + 0.6) + p)%float) /\
       ((forall kw, In kw kws -> ~ occurs kw (lower text)) ->
        score_of scores m =
          ((if String.eqb m target then 0 + delta else 0) + p)%float)) /\
    (forall m p,
       In m ALL_MOODS -> ~ In m (map fst MOOD_KEYWORDS) ->
       recent_mood_bias L m w = (Return p, w) ->
       score_of scores m = ((if String.eqb m target then 0 + delta else 0) + p)%float).
Proof.
  intros Hmem. destruct (detect_mood_run L text w Hmem) as (reasons & Hrun).
  destruct (sentiment_step_target (compound L (lower text)) (keyword_state text))
    as (target & delta & Htarget & Hdelta & Hstep).
  exists (max_from (score_of (detect_scores L text w)) "stressed"
            ["tired"; "sad"; "happy"; "neutral"]),
    reasons, (detect_scores L text w), target, delta.
  split; [exact Hrun|]. split; [exact Htarget|]. split; [exact Hdelta|].
  assert (Hscore : forall m p,
            In m ALL_MOODS -> recent_mood_bias L m w = (Return p, w) ->
            score_of (detect_scores L text w) m =
              ((if String.eqb m target
                then score_of (fst (keyword_state text)) m + delta
                else score_of (fst (keyword_state text)) m) + p)%float).
  { intros m p Hm Hp. rewrite (recent_mood_bias_penalty L w m Hmem) in Hp.
    injection Hp as <-. rewrite detect_scores_final by assumption. rewrite Hstep.
    destruct (String.eqb_spec m target) as [->|Hne].
    - now rewrite score_of_add_same.
    - now rewrite score_of_add_other. }
  split.
  - intros m kws p Hin Hp.
    assert (Hm : In m ALL_MOODS).
    { simpl in Hin. simpl. destruct Hin as [H|[H|[H|[H|[]]]]]; injection H as <- _; tauto. }
    rewrite (Hscore m p Hm Hp), (keyword_state_score text m kws Hin). split.
    + intros Hhit. apply existsb_occurs in Hhit. rewrite Hhit.
      now destruct (String.eqb m target).
    + intros Hnone.
      destruct (existsb (fun kw => contains kw (lower text)) kws) eqn:E.
      * apply existsb_occurs in E as (kw & Hkw & Hocc). now destruct (Hnone kw Hkw).
      * now destruct (String.eqb m target).
  - intros m p Hm Hnot Hp. rewrite (Hscore m p Hm Hp).
    unfold keyword_state. rewrite (keyword_fold_other _ _ _ m Hnot). cbn [fst].
    rewrite initial_score. now destruct (String.eqb m target).
Qed.

(** C3: [detect_mood] applies exactly one of the five sentiment rules to the
    compound score c, the first that matches from the highest threshold
    down: c >= 0.5 adds 0.5 to happy; 0.05 <= c < 0.5 adds 0.2 to happy;
    c <= -0.5 adds 0.5 to sad; -0.5 < c <= -0.05 adds 0.2 to stressed;
    -0.05 < c < 0.05 adds 0.2 to neutral.  In the scores returned the rule's
    amount is on top of what the keywords gave to the rule's mood, and on no
    other mood; the reasons name that rule and no other.  No two rules hold
    of the same score, and a score that is a number falls under one. *)
Theorem sentiment_step_rules (text : string) (w : world) :
  is_mood_memory (stored L w) = true ->
  exists mood reasons scores,
    detect_mood L text w = (Return (mood, compound L (lower text), reasons, scores), w) /\
    (forall k, rule_condition k (compound L (lower text)) ->
       (forall m p,
          In m ALL_MOODS -> recent_mood_bias L m w = (Return p, w) ->
          score_of scores m =
            ((if String.eqb m (rule_mood k)
              then score_of (fst (keyword_state text)) m + rule_delta k
              else score_of (fst (keyword_state text)) m) + p)%float) /\
       (forall k' c' m',
          In (SentimentReason k' c' m') reasons <->
          k' = k /\ c' = compound L (lower text) /\ m' = rule_mood k)) /\
    (forall j k,
       rule_condition j (compound L (lower text)) ->
       rule_condition k (compound L (lower text)) -> j = k) /\
    (FloatOrder.not_nan (compound L (lower text)) ->
     exists k, rule_condition k (compound L (lower text))).
Proof.
  intros Hmem. rewrite (detect_mood_run_reasons text w Hmem).
  eexists; eexists; eexists. split; [reflexivity|].
  pose proof (sentiment_step_applies (compound L (lower text)) [] []) as (_ & Hone & Hsome).
  split; [|split; [exact Hone|exact Hsome]].
  intros k Hk. rewrite (sentiment_step_branch k _ _ Hk). cbn [fst snd]. split.
  - intros m p Hm Hp. rewrite (recent_mood_bias_penalty L w m Hmem) in Hp.
    injection Hp as <-. rewrite detect_scores_final by assumption.
    rewrite (sentiment_step_branch k _ _ Hk). cbn [fst].
    destruct (String.eqb_spec m (rule_mood k)) as [->|Hne].
    + now rewrite score_of_add_same.
    + now rewrite score_of_add_other.
  - intros k' c' m'. unfold keyword_state. rewrite keyword_fold_reasons. cbn [snd app].
    rewrite !in_app_iff, in_flat_map, in_map_iff. split.
    + intros [[([m0 kws] & _ & Hin)|[Heq|[]]]|(m0 & Heq & _)].
      * cbn [fst snd] in Hin. destruct (keyword_hits (lower text) kws); [destruct Hin|].
        destruct Hin as [Heq|[]]. discriminate Heq.
      * injection Heq as <- <- <-. auto.
      * discriminate Heq.
    + intros (-> & -> & ->). left. right. now left.
Qed.

End Steps.

(** ** Which adjustment outweighs which *)

(** A mood whose score is strictly above every other one is the mood
    [max] returns, wherever it stands in [ALL_MOODS]. *)
Lemma strict_max_wins (scores : scores_t) (m : string) :
  In m ALL_MOODS ->
  (forall o, In o ALL_MOODS -> FloatOrder.not_nan (score_of scores o)) ->
  (forall o, In o ALL_MOODS -> o <> m ->
     (score_of scores o <? score_of scores m)%float = true) ->
  max_from (score_of scores) "stressed" ["tired"; "sad"; "happy"; "neutral"] = m.
Proof.
  intros Hm Hnan Hless.
  destruct (max_from_spec (score_of scores) "stressed" ["tired"; "sad"; "happy"; "neutral"])
    as (before & after & Hsplit & Hbefore & Hafter); [exact Hnan|].
  set (mood := max_from (score_of scores) "stressed" ["tired"; "sad"; "happy"; "neutral"])
    in *.
  destruct (String.eqb_spec mood m) as [Heq|Hne]; [exact Heq|exfalso].
  assert (Hmood : In mood ALL_MOODS) by apply max_from_in.
  pose proof (Hless mood Hmood Hne) as Hlt.
  pose proof (FloatFacts.ltb_not_leb _ _ Hlt) as Hnot.
  change ("stressed" :: ["tired"; "sad"; "happy"; "neutral"]) with ALL_MOODS in Hsplit.
  rewrite Hsplit in Hm. apply in_app_or in Hm as [Hin|[Heq|Hin]].
  - rewrite (FloatFacts.ltb_leb _ _ (Hbefore m Hin)) in Hnot. discriminate.
  - now apply Hne.
  - rewrite (Hafter m Hin) in Hnot. discriminate.
Qed.

Section Weights.

Context (L : Library).

(** The score of a mood none of whose keywords occurs, before the
    sentiment step. *)
Lemma keyword_state_silent (text m : string) :
  In m ALL_MOODS ->
  (forall kws kw, In (m, kws) MOOD_KEYWORDS -> In kw kws -> ~ occurs kw (lower text)) ->
  score_of (fst (keyword_state text)) m = 0%float.
Proof.
  intros Hm Hnone.
  assert (Hcase : m = "neutral" \/ exists kws, In (m, kws) MOOD_KEYWORDS).
  { simpl in Hm. destruct Hm as [<-|[<-|[<-|[<-|[<-|[]]]]]]; [right|right|right|right|now left];
      eexists; simpl; eauto 6. }
  destruct Hcase as [->|(kws & Hin)]; [apply keyword_state_neutral|].
  rewrite (keyword_state_score text m kws Hin).
  destruct (existsb (fun k => contains k (lower text)) kws) eqn:He; [|reflexivity].
  apply existsb_occurs in He as (k & Hk & Hk'). now destruct (Hnone kws k Hin Hk).
Qed.

(** X22: Keywords outweigh sentiment: when the keywords of one mood only occur
    in the text and that mood is not penalised, it is the mood detected,
    whatever the compound score and the penalties of the other moods. *)
Theorem single_keyword_wins (text : string) (w : world) (m : string)
  (kws : list string) :
  is_mood_memory (stored L w) = true ->
  In (m, kws) MOOD_KEYWORDS ->
  (exists kw, In kw kws /\ occurs kw (lower text)) ->
  (forall m' kws' kw,
     In (m', kws') MOOD_KEYWORDS -> m' <> m -> In kw kws' -> ~ occurs kw (lower text)) ->
  recent_mood_bias L m w = (Return 0%float, w) ->
  exists reasons scores,
    detect_mood L text w = (Return (m, compound L (lower text), reasons, scores), w) /\
    forall o, In o ALL_MOODS -> o <> m ->
      (score_of scores o <? score_of scores m)%float = true.
Proof.
  intros Hmem Hin Hhit Hothers Hbias.
  destruct (detect_mood_run L text w Hmem) as (reasons & Hrun).
  set (scores := detect_scores L text w) in *.
  assert (Hm : In m ALL_MOODS).
  { simpl in Hin. simpl. destruct Hin as [H|[H|[H|[H|[]]]]]; injection H as <- _; tauto. }
  rewrite (recent_mood_bias_penalty L w m Hmem) in Hbias. injection Hbias as Hp.
  assert (Hkm : score_of (fst (keyword_state text)) m = (0 + 0.6)%float).
  { rewrite (keyword_state_score text m kws Hin).
    apply existsb_occurs in Hhit. now rewrite Hhit. }
  assert (Hless : forall o, In o ALL_MOODS -> o <> m ->
            (score_of scores o <? score_of scores m)%float = true).
  { intros o Ho Hne. unfold scores. rewrite !detect_scores_final by assumption.
    rewrite Hp.
    assert (Hko : score_of (fst (keyword_state text)) o = 0%float).
    { apply keyword_state_silent; [exact Ho|]. intros kws' kw Hin' Hkw.
      exact (Hothers o kws' kw Hin' Hne Hkw). }
    destruct (sentiment_step_values (compound L (lower text)) (keyword_state text) o)
      as [->|[->| ->]];
      destruct (sentiment_step_values (compound L (lower text)) (keyword_state text) m)
        as [->|[->| ->]];
      rewrite Hko, Hkm;
      destruct (penalty_cases L w o) as [-> | ->];
      vm_compute; reflexivity. }
  rewrite (strict_max_wins scores m Hm) in Hrun; [|
    intros o Ho; now apply detect_scores_not_nan|exact Hless].
  exists reasons, scores. split; [exact Hrun|exact Hless].
Qed.

(** X23: Without any keyword a strong sentiment decides alone: a compound
    score of 0.5 or more gives happy, one of -0.5 or less gives sad, also when
    that mood is penalised. *)
Theorem strong_sentiment_decides (text : string) (w : world) (k : sentiment_kind) :
  is_mood_memory (stored L w) = true ->
  (forall m kws kw,
     In (m, kws) MOOD_KEYWORDS -> In kw kws -> ~ occurs kw (lower text)) ->
  k = Positive \/ k = Negative ->
  rule_condition k (compound L (lower text)) ->
  exists reasons scores,
    detect_mood L text w =
      (Return (rule_mood k, compound L (lower text), reasons, scores), w) /\
    (0.3 <=? score_of scores (rule_mood k))%float = true.
Proof.
  intros Hmem Hnone Hk Hcond.
  destruct (detect_mood_run L text w Hmem) as (reasons & Hrun).
  set (scores := detect_scores L text w) in *.
  assert (Hm : In (rule_mood k) ALL_MOODS) by (destruct Hk as [-> | ->]; simpl; tauto).
  assert (Hdelta : rule_delta k = 0.5%float) by (now destruct Hk as [-> | ->]).
  assert (Hsilent : forall o, In o ALL_MOODS -> score_of (fst (keyword_state text)) o = 0%float).
  { intros o Ho. apply keyword_state_silent; [exact Ho|].
    intros kws kw Hin Hkw. exact (Hnone o kws kw Hin Hkw). }
  assert (Hscore : forall o, In o ALL_MOODS ->
            score_of scores o =
              (if String.eqb o (rule_mood k) then (0 + 0.5 + penalty L w o)%float
               else (0 + penalty L w o)%float)).
  { intros o Ho. unfold scores. rewrite detect_scores_final by assumption.
    rewrite (sentiment_step_branch k _ _ Hcond). cbn [fst]. rewrite Hdelta.
    destruct (String.eqb_spec o (rule_mood k)) as [->|Hne].
    - now rewrite score_of_add_same, Hsilent.
    - now rewrite score_of_add_other, Hsilent. }
  assert (Hless : forall o, In o ALL_MOODS -> o <> rule_mood k ->
            (score_of scores o <? score_of scores (rule_mood k))%float = true).
  { intros o Ho Hne. rewrite (Hscore o Ho), (Hscore _ Hm), String.eqb_refl.
    apply String.eqb_neq in Hne. rewrite Hne.
    destruct (penalty_cases L w o) as [-> | ->];
      destruct (penalty_cases L w (rule_mood k)) as [-> | ->];
      vm_compute; reflexivity. }
  rewrite (strict_max_wins scores _ Hm) in Hrun; [|
    intros o Ho; now apply detect_scores_not_nan|exact Hless].
  exists reasons, scores. split; [exact Hrun|].
  rewrite (Hscore _ Hm), String.eqb_refl.
  destruct (penalty_cases L w (rule_mood k)) as [-> | ->]; vm_compute; reflexivity.
Qed.

End Weights.

(** ** The reference codec reads back what it writes *)

Module RefJsonFacts.

Import RefJson.

Local Open Scope nat_scope.

(** *** Strings and white space *)

Lemma append_assoc (a b c : string) : ((a ++ b) ++ c = a ++ (b ++ c))%string.
Proof. induction a as [|x a IH]; simpl; [reflexivity|now rewrite IH]. Qed.

Lemma append_nil_r (a : string) : (a ++ "")%string = a.
Proof. induction a as [|x a IH]; simpl; [reflexivity|now rewrite IH]. Qed.

Lemma length_append (a b : string) :
  String.length (a ++ b)%string = String.length a + String.length b.
Proof. induction a as [|x a IH]; simpl; [reflexivity|now rewrite IH]. Qed.

Lemma skip_ws_spaces (n : nat) (s : string) : skip_ws (spaces n ++ s)%string = skip_ws s.
Proof. induction n as [|n IH]; simpl; auto. Qed.

Lemma skip_ws_nl (d : nat) (s : string) : skip_ws (nl d ++ s)%string = skip_ws s.
Proof. unfold nl. simpl. apply skip_ws_spaces. Qed.

Lemma parse_value_nl (fuel d : nat) (s : string) :
  parse_value fuel (nl d ++ s)%string = parse_value fuel s.
Proof. destruct fuel; simpl; [reflexivity|]. now rewrite skip_ws_spaces. Qed.

Lemma parse_members_nl (fuel d : nat) (s : string) (acc : list (string * json)) :
  parse_members fuel (nl d ++ s)%string acc = parse_members fuel s acc.
Proof. destruct fuel; simpl; [reflexivity|]. now rewrite skip_ws_spaces. Qed.

(** *** String literals *)

Lemma parse_escape_char (c : ascii) (tail : string) :
  parse_str (escape_char c ++ tail)%string =
    match parse_str tail with
    | Some (str, t) => Some (String c str, t)
    | None => None
    end.
Proof.
  unfold escape_char.
  destruct (Ascii.eqb_spec c dquote) as [->|Hq]; [reflexivity|].
  destruct (Ascii.eqb_spec c backslash) as [->|Hb]; [reflexivity|].
  assert (Hc : c = ascii_of_nat (nat_of_ascii c))
    by (symmetry; apply ascii_nat_embedding).
  destruct (Nat.ltb_spec (nat_of_ascii c) 32) as [Hlt|Hge].
  - remember (nat_of_ascii c) as n eqn:Hn. clear Hn Hq Hb. subst c.
    do 32 (destruct n as [|n]; [reflexivity|]). lia.
  - replace (nat_of_ascii c =? 10) with false by (symmetry; apply Nat.eqb_neq; lia).
    replace (nat_of_ascii c =? 13) with false by (symmetry; apply Nat.eqb_neq; lia).
    replace (nat_of_ascii c =? 9) with false by (symmetry; apply Nat.eqb_neq; lia).
    replace (nat_of_ascii c =? 8) with false by (symmetry; apply Nat.eqb_neq; lia).
    replace (nat_of_ascii c =? 12) with false by (symmetry; apply Nat.eqb_neq; lia).
    simpl. apply Ascii.eqb_neq in Hq, Hb. rewrite Hq, Hb.
    replace (nat_of_ascii c <? 32) with false by (symmetry; now apply Nat.ltb_ge).
    reflexivity.
Qed.

Lemma parse_str_escape (s rest : string) :
  parse_str (escape s ++ String dquote rest)%string = Some (s, rest).
Proof.
  induction s as [|c s IH]; simpl.
  - reflexivity.
  - now rewrite append_assoc, parse_escape_char, IH.
Qed.

Lemma parse_print_str (s rest : string) :
  parse_str (escape s ++ String dquote "" ++ rest)%string = Some (s, rest).
Proof. apply parse_str_escape. Qed.

(** *** Integer literals *)

Lemma all_num_uint (d : Decimal.uint) : all_num (NilEmpty.string_of_uint d) = true.
Proof. induction d; simpl; auto. Qed.

Lemma all_num_print_int (z : Z) : all_num (print_int z) = true.
Proof.
  unfold print_int, NilZero.string_of_int, NilZero.string_of_uint.
  destruct (Z.to_int z) as [d|d]; destruct d; simpl; auto using all_num_uint.
Qed.

Lemma print_int_nonempty (z : Z) :
  exists c r, print_int z = String c r /\ is_num_char c = true.
Proof.
  pose proof (all_num_print_int z) as H.
  unfold print_int, NilZero.string_of_int, NilZero.string_of_uint in *.
  destruct (Z.to_int z) as [d|d]; destruct d; simpl in *; eauto;
    match goal with
    | |- exists c r, String ?a ?b = String c r /\ _ => exists a, b; split; auto
    end.
Qed.

Lemma span_num_app (lit rest : string) :
  all_num lit = true -> ok_rest rest = true -> span_num (lit ++ rest)%string = (lit, rest).
Proof.
  intros Hlit Hrest. induction lit as [|c lit IH]; simpl in *.
  - destruct rest as [|c r]; simpl in *; [reflexivity|].
    apply negb_true_iff in Hrest. now rewrite Hrest.
  - apply andb_true_iff in Hlit as [Hc Hlit]. now rewrite Hc, IH.
Qed.

Lemma to_uint_nonnil (p : positive) : Pos.to_uint p <> Decimal.Nil.
Proof.
  intros H. pose proof (DecimalPos.Unsigned.of_to p) as E. rewrite H in E. discriminate E.
Qed.

Lemma int_of_print_int (z : Z) :
  NilZero.int_of_string (print_int z) = Some (Z.to_int z).
Proof.
  unfold print_int. apply NilZero.isi; destruct z; simpl; try discriminate;
    intros H; injection H as H; now apply to_uint_nonnil in H.
Qed.

Lemma parse_print_int (z : Z) (rest : string) :
  ok_rest rest = true -> parse_int (print_int z ++ rest)%string = Some (JNum z, rest).
Proof.
  intros Hrest. unfold parse_int.
  rewrite span_num_app by (auto using all_num_print_int).
  rewrite int_of_print_int, DecimalZ.of_to, String.eqb_refl. reflexivity.
Qed.

(** *** Values *)

(** Induction on a value with the hypothesis on every item and field. *)
Lemma json_nested_ind (P : json -> Prop) :
  P JNull -> (forall b, P (JBool b)) -> (forall n, P (JNum n)) -> (forall s, P (JStr s)) ->
  (forall items, Forall P items -> P (JArr items)) ->
  (forall fields, Forall (fun kv => P (snd kv)) fields -> P (JObj fields)) ->
  forall v, P v.
Proof.
  intros Hnull Hbool Hnum Hstr Harr Hobj.
  fix IH 1. intros [| b | n | s | items | fields].
  - exact Hnull.
  - apply Hbool.
  - apply Hnum.
  - apply Hstr.
  - apply Harr. induction items as [|x items IHl]; constructor; [apply IH|exact IHl].
  - apply Hobj. induction fields as [|[k x] fields IHl]; constructor; [apply IH|exact IHl].
Qed.

Lemma print_arr (d : nat) (x : json) (xs : list json) :
  print d (JArr (x :: xs)) =
    ("[" ++ String.concat "," (map (item_text d) (x :: xs)) ++ nl d ++ "]")%string.
Proof. reflexivity. Qed.

Lemma print_obj (d : nat) (kv : string * json) (kvs : list (string * json)) :
  print d (JObj (kv :: kvs)) =
    ("{" ++ String.concat "," (map (field_text d) (kv :: kvs)) ++ nl d ++ "}")%string.
Proof. reflexivity. Qed.

Lemma print_head (d : nat) (v : json) (tail : string) :
  exists c r, (print d v ++ tail)%string = String c r /\ opens_value c = true.
Proof.
  destruct v as [| [|] | n | s | [|x xs] | [|kv kvs]];
    try (eexists; eexists; split; [reflexivity|reflexivity]).
  destruct (print_int_nonempty n) as (c & r & Hp & Hc).
  exists c, (r ++ tail)%string. simpl print. rewrite Hp. split; [reflexivity|].
  unfold opens_value, is_num_char, is_ws in *.
  destruct (Ascii.eqb_spec c "]") as [->|_]; [discriminate Hc|].
  destruct (Ascii.eqb_spec c "}") as [->|_]; [discriminate Hc|].
  destruct (nat_of_ascii c =? 32) eqn:E1; [apply Nat.eqb_eq in E1; rewrite E1 in Hc; discriminate|].
  destruct (nat_of_ascii c =? 10) eqn:E2; [apply Nat.eqb_eq in E2; rewrite E2 in Hc; discriminate|].
  destruct (nat_of_ascii c =? 13) eqn:E3; [apply Nat.eqb_eq in E3; rewrite E3 in Hc; discriminate|].
  destruct (nat_of_ascii c =? 9) eqn:E4; [apply Nat.eqb_eq in E4; rewrite E4 in Hc; discriminate|].
  reflexivity.
Qed.

Lemma skip_ws_head (c : ascii) (r : string) :
  opens_value c = true -> skip_ws (String c r) = String c r.
Proof.
  unfold opens_value. intros H. apply andb_true_iff in H as [H _].
  apply andb_true_iff in H as [H _]. apply negb_true_iff in H. simpl. now rewrite H.
Qed.

Lemma dict_set_fresh (k : string) (v : json) (acc : list (string * json)) :
  py_in k (map fst acc) = false -> dict_set k v acc = acc ++ [(k, v)].
Proof.
  induction acc as [|[k' v'] acc IH]; simpl; [reflexivity|].
  intros H. apply orb_false_iff in H as [Hk H]. rewrite Hk. now rewrite IH.
Qed.

Lemma nodup_keys_app_cons (ks1 : list string) (k : string) (ks2 : list string) :
  nodup_keys (ks1 ++ k :: ks2) = true ->
  py_in k ks1 = false /\ nodup_keys ((ks1 ++ [k]) ++ ks2) = true.
Proof.
  intros H. split; [|now rewrite <- app_assoc].
  induction ks1 as [|a ks1 IH]; simpl in *; [reflexivity|].
  apply andb_true_iff in H as [Ha H]. apply negb_true_iff in Ha.
  rewrite (IH H), orb_false_r.
  destruct (String.eqb_spec k a) as [->|Hne]; [|reflexivity].
  unfold py_in in Ha. rewrite existsb_app in Ha. simpl in Ha.
  rewrite String.eqb_refl, orb_true_r in Ha. discriminate.
Qed.

Lemma parse_items_S (fuel : nat) (s : string) (acc : list json) :
  parse_items (S fuel) s acc =
    match parse_value fuel s with
    | Some (v, rest) =>
        match skip_ws rest with
        | String c r =>
            if Ascii.eqb c "," then parse_items fuel r (acc ++ [v])
            else if Ascii.eqb c "]" then Some (JArr (acc ++ [v]), r)
            else None
        | EmptyString => None
        end
    | None => None
    end.
Proof. reflexivity. Qed.

Lemma parse_members_quote (fuel : nat) (r : string) (acc : list (string * json)) :
  parse_members (S fuel) (String dquote r) acc =
    match parse_str r with
    | Some (k, rest) =>
        match skip_ws rest with
        | String c1 r1 =>
            if Ascii.eqb c1 ":" then
              match parse_value fuel r1 with
              | Some (v, rest2) =>
                  match skip_ws rest2 with
                  | String c2 r2 =>
                      if Ascii.eqb c2 "," then parse_members fuel r2 (dict_set k v acc)
                      else if Ascii.eqb c2 "}" then Some (JObj (dict_set k v acc), r2)
                      else None
                  | EmptyString => None
                  end
              | None => None
              end
            else None
        | EmptyString => None
        end
    | None => None
    end.
Proof. reflexivity. Qed.

Lemma parse_value_space (fuel : nat) (s : string) :
  parse_value fuel (String " " s) = parse_value fuel s.
Proof. destruct fuel; reflexivity. Qed.

Lemma concat_cons2 (sep a b : string) (l : list string) :
  String.concat sep (a :: b :: l) = (a ++ sep ++ String.concat sep (b :: l))%string.
Proof. reflexivity. Qed.

Lemma num_char_not_ws (c : ascii) : is_num_char c = true -> is_ws c = false.
Proof.
  unfold is_num_char, is_ws. intros H.
  destruct (nat_of_ascii c =? 32) eqn:E1; [apply Nat.eqb_eq in E1; rewrite E1 in H; discriminate|].
  destruct (nat_of_ascii c =? 10) eqn:E2; [apply Nat.eqb_eq in E2; rewrite E2 in H; discriminate|].
  destruct (nat_of_ascii c =? 13) eqn:E3; [apply Nat.eqb_eq in E3; rewrite E3 in H; discriminate|].
  destruct (nat_of_ascii c =? 9) eqn:E4; [apply Nat.eqb_eq in E4; rewrite E4 in H; discriminate|].
  reflexivity.
Qed.

Lemma parse_value_num (fuel : nat) (c : ascii) (r : string) :
  is_num_char c = true -> parse_value (S fuel) (String c r) = parse_int (String c r).
Proof.
  intros H. simpl. rewrite (num_char_not_ws c H). now rewrite H.
Qed.

Lemma parse_value_arr (fuel : nat) (r : string) :
  parse_value (S fuel) (String "[" r) =
    match skip_ws r with
    | String c' r' =>
        if Ascii.eqb c' "]" then Some (JArr [], r') else parse_items fuel r []
    | EmptyString => None
    end.
Proof. reflexivity. Qed.

Lemma parse_value_obj (fuel : nat) (r : string) :
  parse_value (S fuel) (String "{" r) =
    match skip_ws r with
    | String c' r' =>
        if Ascii.eqb c' "}" then Some (JObj [], r') else parse_members fuel r []
    | EmptyString => None
    end.
Proof. reflexivity. Qed.

Lemma concat_head (sep a : string) (l : list string) :
  exists t, String.concat sep (a :: l) = (a ++ t)%string.
Proof.
  destruct l as [|b l].
  - exists EmptyString. simpl. now rewrite append_nil_r.
  - eexists. apply concat_cons2.
Qed.

Lemma opens_not_close (c : ascii) :
  opens_value c = true -> Ascii.eqb c "]" = false /\ Ascii.eqb c "}" = false.
Proof.
  unfold opens_value. intros H. apply andb_true_iff in H as [H H2].
  apply andb_true_iff in H as [_ H1]. now apply negb_true_iff in H1, H2.
Qed.

Section RoundTrip.

#[local] Arguments nl : simpl never.
#[local] Arguments print : simpl never.
#[local] Arguments parse_value : simpl never.
#[local] Arguments parse_items : simpl never.
#[local] Arguments parse_members : simpl never.
#[local] Arguments parse_str : simpl never.
#[local] Arguments skip_ws : simpl never.

Lemma parse_items_ok (d : nat) (rest : string) (xs : list json) :
  Forall reads_back xs ->
  forall x acc fuel,
    reads_back x ->
    list_sum (map (fun y => S (jsize y)) (x :: xs)) <= fuel ->
    parse_items fuel
      (String.concat "," (map (item_text d) (x :: xs)) ++ nl d ++ "]" ++ rest)%string acc
    = Some (JArr (acc ++ x :: xs), rest).
Proof.
  induction 1 as [|y ys Hy Hys IH]; intros x acc fuel Hx Hfuel.
  - simpl in Hfuel. destruct fuel as [|fuel]; [lia|].
    cbn [map String.concat]. unfold item_text.
    rewrite parse_items_S, append_assoc, parse_value_nl.
    rewrite Hx by (auto; lia).
    rewrite skip_ws_nl. reflexivity.
  - simpl in Hfuel. destruct fuel as [|fuel]; [lia|].
    cbn [map]. rewrite concat_cons2. unfold item_text at 1.
    rewrite parse_items_S, !append_assoc, parse_value_nl.
    rewrite Hx by (auto; lia).
    change (skip_ws ("," ++ String.concat "," (item_text d y :: map (item_text d) ys)
                     ++ nl d ++ "]" ++ rest)%string)
      with (String ","%char (String.concat "," (map (item_text d) (y :: ys))
                             ++ nl d ++ "]" ++ rest)%string).
    cbv iota. change (Ascii.eqb "," ",") with true. cbv iota.
    rewrite (IH y (acc ++ [x]) fuel Hy) by (simpl; lia).
    now rewrite <- app_assoc.
Qed.

Lemma parse_field (d fuel : nat) (k : string) (x : json) (tail : string)
  (acc : list (string * json)) :
  reads_back x -> jsize x <= fuel -> ok_rest tail = true ->
  parse_members (S fuel) (field_text d (k, x) ++ tail)%string acc =
    match skip_ws tail with
    | String c2 r2 =>
        if Ascii.eqb c2 "," then parse_members fuel r2 (dict_set k x acc)
        else if Ascii.eqb c2 "}" then Some (JObj (dict_set k x acc), r2)
        else None
    | EmptyString => None
    end.
Proof.
  intros Hx Hfuel Htail. unfold field_text. cbn [fst snd].
  rewrite append_assoc, parse_members_nl. unfold print_str.
  change ((String dquote (escape k ++ String dquote "") ++ ": " ++ print (S d) x) ++ tail)%string
    with (String dquote (((escape k ++ String dquote "") ++ ": " ++ print (S d) x) ++ tail))%string.
  rewrite parse_members_quote, !append_assoc.
  change (String dquote "" ++ ": " ++ print (S d) x ++ tail)%string
    with (String dquote (String ":" (String " " (print (S d) x ++ tail)%string))).
  rewrite parse_str_escape.
  change (skip_ws (String ":" (String " " (print (S d) x ++ tail)%string)))
    with (String ":" (String " " (print (S d) x ++ tail)%string)).
  cbv iota. change (Ascii.eqb ":" ":") with true. cbv iota.
  rewrite parse_value_space, Hx by assumption. reflexivity.
Qed.

Lemma parse_members_ok (d : nat) (rest : string) (kvs : list (string * json)) :
  Forall (fun kv => reads_back (snd kv)) kvs ->
  forall kv acc fuel,
    reads_back (snd kv) ->
    nodup_keys (map fst (acc ++ kv :: kvs)) = true ->
    list_sum (map (fun y => S (jsize (snd y))) (kv :: kvs)) <= fuel ->
    parse_members fuel
      (String.concat "," (map (field_text d) (kv :: kvs)) ++ nl d ++ "}" ++ rest)%string acc
    = Some (JObj (acc ++ kv :: kvs), rest).
Proof.
  induction 1 as [|y ys Hy Hys IH]; intros [k x] acc fuel Hx Hnd Hfuel.
  - simpl in Hfuel. destruct fuel as [|fuel]; [lia|].
    rewrite map_app in Hnd. cbn [map fst] in Hnd.
    apply nodup_keys_app_cons in Hnd as [Hfresh _].
    cbn [map String.concat].
    rewrite parse_field by (auto; cbn [snd] in *; lia).
    rewrite skip_ws_nl. rewrite dict_set_fresh by assumption. reflexivity.
  - simpl in Hfuel. destruct fuel as [|fuel]; [lia|].
    rewrite map_app in Hnd. cbn [map fst] in Hnd.
    pose proof (nodup_keys_app_cons _ _ _ Hnd) as [Hfresh Hnd'].
    cbn [map]. rewrite concat_cons2, append_assoc.
    rewrite parse_field by (auto; cbn [snd] in *; lia).
    change (skip_ws (("," ++ String.concat "," (field_text d y :: map (field_text d) ys))
                     ++ nl d ++ "}" ++ rest)%string)
      with (String ","%char (String.concat "," (map (field_text d) (y :: ys))
                             ++ nl d ++ "}" ++ rest)%string).
    cbv iota. change (Ascii.eqb "," ",") with true. cbv iota.
    rewrite dict_set_fresh by assumption.
    rewrite (IH y (acc ++ [(k, x)]) fuel Hy).
    + now rewrite <- app_assoc.
    + rewrite map_app. rewrite <- app_assoc in Hnd'. rewrite map_app. cbn [map fst].
      rewrite <- app_assoc. exact Hnd'.
    + simpl. lia.
Qed.

(** A value Python holds is read back from what was written for it. *)
Lemma reads_back_wf (v : json) : wf_json v = true -> reads_back v.
Proof.
  induction v as [| b | n | s | items IH | fields IH] using json_nested_ind;
    intros Hwf d rest fuel Hfuel Hrest.
  - destruct fuel as [|fuel]; [simpl in Hfuel; lia|reflexivity].
  - destruct fuel as [|fuel]; [simpl in Hfuel; lia|now destruct b].
  - destruct fuel as [|fuel]; [simpl in Hfuel; lia|].
    destruct (print_int_nonempty n) as (c & r & Hp & Hc).
    change (print d (JNum n)) with (print_int n).
    rewrite Hp. change (String c r ++ rest)%string with (String c (r ++ rest)%string).
    rewrite parse_value_num by assumption.
    change (String c (r ++ rest)%string) with (String c r ++ rest)%string.
    rewrite <- Hp. now apply parse_print_int.
  - destruct fuel as [|fuel]; [simpl in Hfuel; lia|].
    change (print d (JStr s)) with (print_str s). unfold print_str.
    change (String dquote (escape s ++ String dquote "") ++ rest)%string
      with (String dquote ((escape s ++ String dquote "") ++ rest)%string).
    rewrite append_assoc.
    change (parse_value (S fuel) (String dquote (escape s ++ String dquote "" ++ rest)%string))
      with (match parse_str (escape s ++ String dquote "" ++ rest)%string with
            | Some (str, rest0) => Some (JStr str, rest0)
            | None => None
            end).
    now rewrite parse_print_str.
  - destruct fuel as [|fuel]; [simpl in Hfuel; lia|].
    destruct items as [|x xs]; [reflexivity|].
    rewrite print_arr.
    change (("[" ++ String.concat "," (map (item_text d) (x :: xs)) ++ nl d ++ "]") ++ rest)%string
      with (String "[" ((String.concat "," (map (item_text d) (x :: xs)) ++ nl d ++ "]") ++ rest)%string).
    rewrite parse_value_arr, !append_assoc.
    destruct (concat_head "," (item_text d x) (map (item_text d) xs)) as (t & Ht).
    cbn [map]. rewrite Ht. unfold item_text at 1. rewrite !append_assoc, skip_ws_nl.
    destruct (print_head (S d) x (t ++ nl d ++ "]" ++ rest)%string) as (c & r & Hh & Hc).
    rewrite Hh, (skip_ws_head c r Hc).
    destruct (opens_not_close c Hc) as [-> _].
    rewrite <- append_assoc, <- Ht.
    simpl in Hwf. apply andb_true_iff in Hwf as [Hx Hxs].
    inversion IH as [|? ? IHx IHxs]; subst.
    apply (parse_items_ok d rest xs) with (acc := []).
    + rewrite Forall_forall in IHxs |- *. intros y Hy. apply IHxs; auto.
      rewrite forallb_forall in Hxs. now apply Hxs.
    + now apply IHx.
    + simpl in Hfuel |- *. lia.
  - destruct fuel as [|fuel]; [simpl in Hfuel; lia|].
    destruct fields as [|[k x] kvs]; [reflexivity|].
    rewrite print_obj.
    change (("{" ++ String.concat "," (map (field_text d) ((k, x) :: kvs)) ++ nl d ++ "}") ++ rest)%string
      with (String "{" ((String.concat "," (map (field_text d) ((k, x) :: kvs)) ++ nl d ++ "}") ++ rest)%string).
    rewrite parse_value_obj, !append_assoc.
    destruct (concat_head "," (field_text d (k, x)) (map (field_text d) kvs)) as (t & Ht).
    cbn [map]. rewrite Ht. unfold field_text at 1. rewrite !append_assoc, skip_ws_nl.
    unfold print_str at 1.
    assert (Hq : forall a b, skip_ws (String dquote a ++ b)%string
                             = String dquote (a ++ b)%string) by reflexivity.
    rewrite Hq. cbv iota. change (Ascii.eqb dquote "}") with false. cbv iota.
    rewrite <- append_assoc, <- Ht.
    simpl in Hwf. apply andb_true_iff in Hwf as [Hnd Hall].
    apply andb_true_iff in Hall as [Hx Hxs].
    inversion IH as [|? ? IHx IHxs]; subst.
    apply (parse_members_ok d rest kvs) with (acc := []).
    + rewrite Forall_forall in IHxs |- *. intros y Hy. apply IHxs; auto.
      rewrite forallb_forall in Hxs. now apply Hxs.
    + now apply IHx.
    + exact Hnd.
    + simpl in Hfuel |- *. lia.
Qed.

End RoundTrip.

(** *** The fuel [loads] gives is enough *)

Lemma length_concat (sep : string) (l : list string) :
  list_sum (map String.length l) <= String.length (String.concat sep l).
Proof.
  induction l as [|a [|b l] IH]; simpl in *; [lia| |].
  - lia.
  - rewrite !length_append. lia.
Qed.

Lemma list_sum_le {A : Type} (f g : A -> nat) (l : list A) :
  Forall (fun x => f x <= g x) l -> list_sum (map f l) <= list_sum (map g l).
Proof. induction 1; simpl; lia. Qed.

Lemma length_nl (d : nat) : 1 <= String.length (nl d).
Proof. unfold nl. simpl. lia. Qed.

Lemma jsize_le_length (v : json) : forall d, jsize v <= String.length (print d v).
Proof.
  induction v as [| b | n | s | items IH | fields IH] using json_nested_ind; intros d.
  - simpl. lia.
  - destruct b; simpl; lia.
  - destruct (print_int_nonempty n) as (c & r & Hp & _). simpl. rewrite Hp. simpl. lia.
  - simpl. lia.
  - destruct items as [|x xs]; [simpl; lia|].
    rewrite print_arr. cbn [jsize]. rewrite !length_append.
    pose proof (length_concat "," (map (item_text d) (x :: xs))) as Hc.
    rewrite map_map in Hc.
    assert (Hs : list_sum (map (fun y => S (jsize y)) (x :: xs))
                 <= list_sum (map (fun y => String.length (item_text d y)) (x :: xs))).
    { apply list_sum_le. rewrite Forall_forall in IH |- *. intros y Hy.
      unfold item_text. rewrite length_append.
      pose proof (length_nl (S d)). pose proof (IH y Hy (S d)). lia. }
    simpl String.length at 1. lia.
  - destruct fields as [|kv kvs]; [simpl; lia|].
    rewrite print_obj. cbn [jsize]. rewrite !length_append.
    pose proof (length_concat "," (map (field_text d) (kv :: kvs))) as Hc.
    rewrite map_map in Hc.
    assert (Hs : list_sum (map (fun y => S (jsize (snd y))) (kv :: kvs))
                 <= list_sum (map (fun y => String.length (field_text d y)) (kv :: kvs))).
    { apply list_sum_le. rewrite Forall_forall in IH |- *. intros y Hy.
      unfold field_text. rewrite !length_append.
      pose proof (length_nl (S d)). pose proof (IH y Hy (S d)). lia. }
    simpl String.length at 1. lia.
Qed.

Theorem read_written (v : json) : wf_json v = true -> loads (dumps v) = Some v.
Proof.
  intros Hwf. unfold loads, dumps.
  rewrite <- (append_nil_r (print 0 v)) at 2.
  rewrite (reads_back_wf v Hwf); [reflexivity| |reflexivity].
  pose proof (jsize_le_length v 0). lia.
Qed.

(** *** What is read is a Python value *)

Ltac destr H :=
  match type of H with
  | match ?x with _ => _ end = _ => destruct x eqn:?; try discriminate H
  end.

Lemma parse_wf (fuel : nat) :
  (forall s v rest, parse_value fuel s = Some (v, rest) -> wf_json v = true) /\
  (forall s acc v rest,
     forallb wf_json acc = true ->
     parse_items fuel s acc = Some (v, rest) -> wf_json v = true) /\
  (forall s acc v rest,
     wf_json (JObj acc) = true ->
     parse_members fuel s acc = Some (v, rest) -> wf_json v = true).
Proof.
  induction fuel as [|fuel (IHv & IHi & IHm)].
  - repeat split; intros; discriminate.
  - split; [|split].
    + intros s v rest H. simpl in H. destr H. destr H.
      { unfold parse_int in H. destr H. destr H. destr H. now injection H as <- _. }
      destr H. { unfold keyword in H. destr H. now injection H as <- _. }
      destr H. { unfold keyword in H. destr H. now injection H as <- _. }
      destr H. { unfold keyword in H. destr H. now injection H as <- _. }
      destr H. { destr H. destr H. now injection H as <- _. }
      destr H.
      { destr H. destr H; [now injection H as <- _|]. now apply IHi in H. }
      destr H.
      destr H. destr H; [now injection H as <- _|]. now apply IHm in H.
    + intros s acc v rest Hacc H. simpl in H. destr H. destr H. destr H.
      assert (Hacc' : forallb wf_json (acc ++ [j]) = true).
      { rewrite forallb_app, Hacc. simpl. rewrite andb_true_r. eapply IHv; eauto. }
      destr H; [now apply IHi in H|].
      destr H. now injection H as <- _.
    + intros s acc v rest Hacc H. simpl in H. destr H. destr H. destr H. destr H.
      destr H. destr H. destr H. destr H. destr H.
      assert (Hacc' : wf_json (JObj (dict_set s1 j acc)) = true).
      { apply wf_fields_set; auto. eapply IHv; eauto. }
      destr H; [now apply IHm in H|].
      destr H. now injection H as <- _.
Qed.

Theorem read_is_wf (text : string) (v : json) : loads text = Some v -> wf_json v = true.
Proof.
  unfold loads. intros H. destr H. destr H. destr H. injection H as <-.
  eapply (proj1 (parse_wf _)); eauto.
Qed.

End RefJsonFacts.

(** The reference library meets what is assumed of [json]. *)
Lemma reference_laws : JsonLaws RefLib.lib.
Proof.
  split.
  - exact RefJsonFacts.read_written.
  - exact RefJsonFacts.read_is_wf.
Qed.

(** The reference shuffles rearrange. *)
Lemma reference_shuffles : ShuffleLaws RefLib.lib.
Proof. split. intros A r l. apply Permutation_refl. Qed.

Lemma turning_shuffles : ShuffleLaws RefLib.lib_turn.
Proof.
  split. intros A r l. simpl.
  rewrite <- (firstn_skipn (N.to_nat r mod List.length l) l) at 1.
  apply Permutation_app_comm.
Qed.

Lemma turning_laws : JsonLaws RefLib.lib_turn.
Proof.
  split.
  - exact RefJsonFacts.read_written.
  - exact RefJsonFacts.read_is_wf.
Qed.

(** ** The theorems at work on the reference library *)

Module Examples.

Import RefLib.

(** At 10:00 the last stressed record of [morning], of 09:40, is 20 minutes
    old: the penalty applies. *)
Lemma recent_mood_bias_latest_witness :
  recent_mood_bias lib "stressed" at_ten = (Return (-0.2)%float, at_ten).
Proof.
  refine (proj1 (proj2 (recent_mood_bias_latest lib at_ten "stressed" _)
                   [record "stressed" "2024-01-01T09:00:00";
                    record "sad" "2024-01-01T09:15:00"]
                   (record "stressed" "2024-01-01T09:40:00") [] _ _ _) _).
  - vm_compute. reflexivity.
  - vm_compute. reflexivity.
  - reflexivity.
  - constructor.
  - exists "2024-01-01T09:40:00", (instant "2024-01-01T09:40:00").
    split; [reflexivity|]. split; [reflexivity|]. vm_compute. reflexivity.
Defined.

(** Only the last record of the mood counts: here it is two hours old, and
    the record of ten minutes ago before it changes nothing. *)
Example recent_mood_bias_last_only :
  recent_mood_bias lib "stressed" (world_at shuffled_morning "2024-01-01T10:00:00")
  = (Return 0%float, world_at shuffled_morning "2024-01-01T10:00:00").
Proof. vm_compute. reflexivity. Qed.

Lemma detect_mood_argmax_witness :
  is_mood_memory (stored lib at_ten) = true /\
  exists mood comp reasons scores before after,
    detect_mood lib "I feel happy but panic" at_ten
      = (Return (mood, comp, reasons, scores), at_ten) /\
    In mood ALL_MOODS /\
    ALL_MOODS = before ++ mood :: after /\
    (forall m, In m before -> (score_of scores m <? score_of scores mood)%float = true) /\
    (forall m, In m after -> (score_of scores m <=? score_of scores mood)%float = true).
Proof.
  split; [vm_compute; reflexivity|].
  apply (detect_mood_argmax lib "I feel happy but panic" at_ten).
  vm_compute. reflexivity.
Defined.

Example detect_mood_happy :
  fst (detect_mood lib "I feel happy but panic" at_ten)
  = Return ("happy", 0.5719%float,
            [KeywordReason "stressed" ["panic"]; KeywordReason "happy" ["happy"];
             SentimentReason Positive 0.5719 "happy";
             PenaltyReason "stressed"; PenaltyReason "sad"],
            [("stressed", (0.6 + -0.2)%float); ("tired", 0%float);
             ("sad", (-0.2)%float); ("happy", (0.6 + 0.5)%float);
             ("neutral", 0%float)]).
Proof. vm_compute. reflexivity. Qed.

(** A compound score of -0.3 falls under the fourth rule. *)
Example sentiment_step_slightly_negative :
  applies_rule [("happy", 0%float); ("stressed", 0.6%float)]
    (fst (sentiment_step (-0.3)%float ([("happy", 0%float); ("stressed", 0.6%float)], [])))
    "stressed" 0.2%float /\
  snd (sentiment_step (-0.3)%float ([("happy", 0%float); ("stressed", 0.6%float)], []))
  = [SentimentReason SlightlyNegative (-0.3) "stressed"].
Proof.
  apply (proj1 (sentiment_step_applies (-0.3)%float
                  [("happy", 0%float); ("stressed", 0.6%float)] [])
           SlightlyNegative).
  split; reflexivity.
Qed.

Lemma sentiment_step_rules_witness :
  exists mood reasons scores,
    detect_mood lib "I feel sad" at_ten
    = (Return (mood, compound lib (lower "I feel sad"), reasons, scores), at_ten) /\
    (forall k, rule_condition k (compound lib (lower "I feel sad")) ->
       (forall m p,
          In m ALL_MOODS -> recent_mood_bias lib m at_ten = (Return p, at_ten) ->
          score_of scores m =
            ((if String.eqb m (rule_mood k)
              then score_of (fst (keyword_state "I feel sad")) m + rule_delta k
              else score_of (fst (keyword_state "I feel sad")) m) + p)%float) /\
       (forall k' c' m',
          In (SentimentReason k' c' m') reasons <->
          k' = k /\ c' = compound lib (lower "I feel sad") /\ m' = rule_mood k)) /\
    (forall j k,
       rule_condition j (compound lib (lower "I feel sad")) ->
       rule_condition k (compound lib (lower "I feel sad")) -> j = k) /\
    (FloatOrder.not_nan (compound lib (lower "I feel sad")) ->
     exists k, rule_condition k (compound lib (lower "I feel sad"))).
Proof.
  apply (sentiment_step_rules lib "I feel sad" at_ten). vm_compute. reflexivity.
Defined.

(** In that message the compound score is -0.4767: the fourth rule gives 0.2
    to stressed, on top of nothing from the keywords and under its penalty;
    sad has its keyword share and its penalty only. *)
Example sentiment_in_detection :
  rule_condition SlightlyNegative (compound lib (lower "I feel sad")) /\
  fst (detect_mood lib "I feel sad" at_ten)
  = Return ("sad", (-0.4767)%float,
            [ KeywordReason "sad" ["sad"];
              SentimentReason SlightlyNegative (-0.4767) "stressed";
              PenaltyReason "stressed"; PenaltyReason "sad" ],
            [ ("stressed", (0 + 0.2 + -0.2)%float); ("tired", 0%float);
              ("sad", (0 + 0.6 + -0.2)%float); ("happy", 0%float); ("neutral", 0%float) ]).
Proof. split; [split|]; vm_compute; reflexivity. Qed.

Lemma remember_mood_bounded_witness :
  fst (remember_all lib eleven (mkWorld None None 0 0 [])) = Return tt /\
  recent_moods_of (stored lib (snd (remember_all lib eleven (mkWorld None None 0 0 []))))
  = map (fun e => mood_record lib (fst e) (snd e)) (tl eleven) /\
  List.length
    (recent_moods_of (stored lib (snd (remember_all lib eleven (mkWorld None None 0 0 [])))))
  = 10.
Proof.
  apply (proj2 (remember_mood_bounded lib reference_laws) (mkWorld None None 0 0 []) eleven);
    reflexivity.
Defined.

(** C5 as stated fails: "xstressx" holds the keyword "stress", the analyzer
    scores it 0.0 (the neutral rule), and with a stressed record 20 minutes
    old the score of stressed is 0.6 - 0.2, which is not at least 0.6. *)
Lemma stressed_score_counterexample :
  occurs "stress" (lower "xstressx") /\
  neutral_only (compound lib (lower "xstressx")) /\
  fst (detect_mood lib "xstressx" at_ten)
  = Return ("stressed", 0%float,
            [KeywordReason "stressed" ["stress"];
             SentimentReason NeutralSentiment 0 "neutral";
             PenaltyReason "stressed"; PenaltyReason "sad"],
            [("stressed", (0.6 + -0.2)%float); ("tired", 0%float);
             ("sad", (-0.2)%float); ("happy", 0%float); ("neutral", 0.2%float)]) /\
  (0.6 <=? (0.6 + -0.2))%float = false.
Proof.
  split; [now exists "x", "x"|].
  split; [repeat split|].
  split; vm_compute; reflexivity.
Qed.

Lemma stressed_keyword_alone_witness :
  exists mood reasons scores,
    detect_mood lib "xstressx" (world_at morning "2024-01-01T11:00:00")
      = (Return (mood, compound lib (lower "xstressx"), reasons, scores),
         world_at morning "2024-01-01T11:00:00") /\
    (recent_mood_bias lib "stressed" (world_at morning "2024-01-01T11:00:00")
       = (Return 0%float, world_at morning "2024-01-01T11:00:00") ->
     (0.6 <=? score_of scores "stressed")%float = true) /\
    (recent_mood_bias lib "stressed" (world_at morning "2024-01-01T11:00:00")
       = (Return (-0.2)%float, world_at morning "2024-01-01T11:00:00") ->
     score_of scores "stressed" = (0.6 + -0.2)%float /\
     (score_of scores "stressed" <? 0.6)%float = true) /\
    ((forall m kws kw,
        In (m, kws) MOOD_KEYWORDS -> m <> "stressed" -> In kw kws ->
        ~ occurs kw (lower "xstressx")) ->
     mood = "stressed").
Proof.
  apply (stressed_keyword_alone lib "xstressx" (world_at morning "2024-01-01T11:00:00")).
  - vm_compute. reflexivity.
  - exists ["overwhelmed"; "anxious"; "stress"; "pressure"; "panic"], "stress".
    split; [now left|]. split; [simpl; tauto|]. now exists "x", "x".
  - repeat split.
Defined.

Lemma load_memory_fails_soft_witness :
  load_memory lib broken = (Return empty_memory, broken) /\
  (forall mood,
     recent_mood_bias lib mood broken = (Return 0%float, broken) /\
     remember_mood lib mood broken =
       (Return tt,
        set_memory_file
          (Some (json_dumps lib
             (JObj [("recent_moods", JArr [mood_record lib mood (clock broken)])])))
          broken)) /\
  (forall message,
     lower (strip message) = "save" ->
     handle_message lib message broken =
       (Return tt,
        push_outbox (Plain "Memory saved to disk.")
          (set_memory_file (Some (json_dumps lib empty_memory)) broken))).
Proof.
  apply (proj2 (load_memory_fails_soft lib broken)).
  right. exists "{not json". split; reflexivity.
Defined.

(** After [save] the broken file holds the empty state. *)
Example save_repairs :
  memory_file (snd (handle_message lib " SAVE " broken))
  = Some (RefJson.dumps empty_memory).
Proof. vm_compute. reflexivity. Qed.

Lemma correct_command_witness :
  exists verb arg,
    strip "  Correct: Excited " = (verb ++ String ":"%char arg)%string /\
    lower verb = "correct" /\
    (py_in (lower (strip arg)) ALL_MOODS = false ->
     handle_message lib "  Correct: Excited " at_ten =
       (Return tt, push_outbox (Plain (unknown_mood_text (lower (strip arg)))) at_ten) /\
     unknown_mood_text (lower (strip arg)) =
       ("Unknown mood `" ++ lower (strip arg)
        ++ "`. Use one of: stressed, tired, sad, happy, neutral")%string /\
     memory_file (snd (handle_message lib "  Correct: Excited " at_ten))
       = memory_file at_ten) /\
    (py_in (lower (strip arg)) ALL_MOODS = true ->
     is_memory (stored lib at_ten) = true ->
     exists d records,
       stored lib at_ten = JObj d /\
       recent_value d = JArr records /\
       memory_file (snd (handle_message lib "  Correct: Excited " at_ten)) =
         Some (json_dumps lib
                 (JObj (dict_set "recent_moods"
                          (JArr (lastn 10 (records
                                           ++ [mood_record lib (lower (strip arg))
                                                 (clock at_ten)])))
                          d)))).
Proof.
  apply (correct_command lib "  Correct: Excited " at_ten). reflexivity.
Defined.

(** The rejection, and a correction that is taken. *)
Example correct_excited :
  handle_message lib "  Correct: Excited " at_ten
  = (Return tt,
     push_outbox
       (Plain "Unknown mood `excited`. Use one of: stressed, tired, sad, happy, neutral")
       at_ten).
Proof. vm_compute. reflexivity. Qed.

Example correct_tired :
  recent_moods_of (stored lib (snd (handle_message lib "correct:TIRED" at_ten)))
  = recent_moods_of morning ++ [record "tired" "2024-01-01T10:00:00"].
Proof. vm_compute. reflexivity. Qed.

Lemma save_then_load_witness :
  load_memory lib (snd (save_memory lib morning (mkWorld None None 0 0 [])))
  = (Return morning, snd (save_memory lib morning (mkWorld None None 0 0 []))).
Proof.
  apply (proj1 (proj2 (save_then_load lib (mkWorld None None 0 0 []) morning reference_laws eq_refl))).
Defined.

(** Three keywords of stressed occur in the text: the loop adds 0.6 once. *)
Example keyword_loop_three_hits :
  score_of
    (fst (fold_left (keyword_step (lower "Stress, PANIC and pressure"))
            MOOD_KEYWORDS (map (fun k => (k, 0%float)) ALL_MOODS, [])))
    "stressed"
  = (0 + 0.6)%float.
Proof. vm_compute. reflexivity. Qed.

Lemma keyword_hit_adds_once_witness :
  exists mood reasons scores target delta,
    detect_mood lib "Stress, PANIC and pressure" at_ten
    = (Return (mood, compound lib (lower "Stress, PANIC and pressure"), reasons, scores),
       at_ten) /\
    In target ALL_MOODS /\ (delta = 0.5%float \/ delta = 0.2%float) /\
    (forall m kws p,
       In (m, kws) MOOD_KEYWORDS ->
       recent_mood_bias lib m at_ten = (Return p, at_ten) ->
       ((exists kw, In kw kws /\ occurs kw (lower "Stress, PANIC and pressure")) ->
        score_of scores m =
          ((if String.eqb m target then 0 + 0.6 + delta else 0 + 0.6) + p)%float) /\
       ((forall kw, In kw kws -> ~ occurs kw (lower "Stress, PANIC and pressure")) ->
        score_of scores m =
          ((if String.eqb m target then 0 + delta else 0) + p)%float)) /\
    (forall m p,
       In m ALL_MOODS -> ~ In m (map fst MOOD_KEYWORDS) ->
       recent_mood_bias lib m at_ten = (Return p, at_ten) ->
       score_of scores m = ((if String.eqb m target then 0 + delta else 0) + p)%float).
Proof.
  apply (keyword_hit_adds_once lib "Stress, PANIC and pressure" at_ten).
  vm_compute. reflexivity.
Defined.

(** In that message stressed has three hits and, 20 minutes after its last
    record, a penalty: its score is 0.6 - 0.2, not 1.8 - 0.2. *)
Example keyword_hits_in_detection :
  fst (detect_mood lib "Stress, PANIC and pressure" at_ten)
  = Return ("stressed", 0%float,
            [ KeywordReason "stressed" ["stress"; "pressure"; "panic"];
              SentimentReason NeutralSentiment 0 "neutral";
              PenaltyReason "stressed"; PenaltyReason "sad" ],
            [ ("stressed", (0 + 0.6 + -0.2)%float); ("tired", 0%float);
              ("sad", (0 + -0.2)%float); ("happy", 0%float);
              ("neutral", (0 + 0.2 + 0)%float) ]).
Proof. vm_compute. reflexivity. Qed.

Lemma remember_mood_frame_witness :
  exists d',
    remember_mood lib "happy" named_at_ten =
      (Return tt, set_memory_file (Some (json_dumps lib (JObj d'))) named_at_ten) /\
    other_fields d' = [("owner", JStr "sam"); ("version", JNum 2)] /\
    forall k, k <> "recent_moods" ->
      dict_get k d' = dict_get k [("owner", JStr "sam");
                                  ("recent_moods", JArr (recent_moods_of morning));
                                  ("version", JNum 2)].
Proof.
  apply (remember_mood_frame lib named_at_ten "happy"
           [("owner", JStr "sam");
            ("recent_moods", JArr (recent_moods_of morning));
            ("version", JNum 2)]
           (recent_moods_of morning)).
  - vm_compute. reflexivity.
  - reflexivity.
Defined.

(** A mood remembered at 10:00 is penalised until just before 11:00, and no
    longer at 11:00. *)
Example penalty_before_the_hour :
  recent_mood_bias lib "sad" (set_clock (instant "2024-01-01T10:59:59.999999") after_sad)
  = (Return (-0.2)%float, set_clock (instant "2024-01-01T10:59:59.999999") after_sad).
Proof. vm_compute. reflexivity. Qed.

Example no_penalty_at_the_hour :
  recent_mood_bias lib "sad" (set_clock (instant "2024-01-01T11:00:00") after_sad)
  = (Return 0%float, set_clock (instant "2024-01-01T11:00:00") after_sad).
Proof. vm_compute. reflexivity. Qed.

(** Outside the memory states: a file that parses to a list makes
    [mem.get] fail, and a record without a mood makes [m["mood"]] fail; the
    exception reaches the caller. *)
Example memory_that_is_a_list :
  fst (recent_mood_bias lib "sad" (world_at (JArr []) "2024-01-01T10:00:00"))
  = Raise AttributeError /\
  fst (remember_mood lib "sad" (world_at (JArr []) "2024-01-01T10:00:00"))
  = Raise AttributeError /\
  fst (detect_mood lib "hello" (world_at (JArr []) "2024-01-01T10:00:00"))
  = Raise AttributeError.
Proof. repeat split; vm_compute; reflexivity. Qed.

Example record_without_mood :
  fst (recent_mood_bias lib "sad"
         (world_at (JObj [("recent_moods", JArr [JObj [("ts", JStr "2024-01-01T09:00:00")]])])
            "2024-01-01T10:00:00"))
  = Raise KeyError.
Proof. vm_compute. reflexivity. Qed.

(** A timestamp that does not read, or carries an offset, gives no penalty. *)
Example timestamp_that_does_not_read :
  fst (recent_mood_bias lib "sad"
         (world_at (JObj [("recent_moods", JArr [record "sad" "yesterday"])])
            "2024-01-01T10:00:00"))
  = Return 0%float /\
  fst (recent_mood_bias lib "sad"
         (world_at (JObj [("recent_moods", JArr [record "sad" "2024-01-01T09:50:00+00:00"])])
            "2024-01-01T10:00:00"))
  = Return 0%float.
Proof. split; vm_compute; reflexivity. Qed.

(** *** Quotes and suggestions *)

Lemma pick_quote_from_file_witness :
  exists quote,
    pick_quote lib_turn quoted =
      (Return quote,
       set_random_state
         (snd (shuffle lib_turn json (random_state quoted) [JStr "Keep going."; JNum 7]))
         quoted) /\
    In quote [JStr "Keep going."; JNum 7].
Proof.
  apply (pick_quote_from_file lib_turn quoted
           (RefJson.dumps (JArr [JStr "Keep going."; JNum 7]))
           (JStr "Keep going.") [JNum 7] turning_shuffles);
    reflexivity.
Defined.

(** The generator state 1 turns the two items by one place: the quote is
    the number. *)
Example pick_quote_number :
  fst (pick_quote lib_turn quoted) = Return (JNum 7).
Proof. vm_compute. reflexivity. Qed.

Lemma pick_quote_default_witness :
  exists s,
    pick_quote lib_turn unquoted =
      (Return (JStr s),
       set_random_state
         (snd (shuffle lib_turn string (random_state unquoted) DEFAULT_QUOTES)) unquoted) /\
    In s DEFAULT_QUOTES.
Proof.
  apply (pick_quote_default lib_turn unquoted turning_shuffles).
  vm_compute. exact I.
Defined.

Lemma suggest_for_mood_known_witness :
  exists pool tips r,
    dict_get "sad" SUGGESTIONS = Some pool /\
    suggest_for_mood lib_turn "sad" 3 quoted = (Return tips, set_random_state r quoted) /\
    List.length tips = Nat.min 3 3 /\
    NoDup tips /\
    (forall t, In t tips -> In t pool) /\
    (3 <= 3 -> Permutation pool tips).
Proof.
  apply (suggest_for_mood_known lib_turn "sad" 3 quoted turning_shuffles).
  simpl. tauto.
Defined.

(** With the generator state 1 the suggestions of sad are turned by one
    place; asked for two, the handler would get the first two of these. *)
Example suggestions_turned :
  fst (suggest_for_mood lib_turn "sad" 3 quoted)
  = Return [ "Play a comforting song and breathe for a minute.";
             "Step outside for 3 minutes and name 5 things you see.";
             "Text a friend one nice thing." ] /\
  fst (suggest_for_mood lib_turn "sad" 2 quoted)
  = Return [ "Play a comforting song and breathe for a minute.";
             "Step outside for 3 minutes and name 5 things you see." ].
Proof. split; vm_compute; reflexivity. Qed.

Lemma suggest_for_mood_unknown_witness :
  dict_get "excited" SUGGESTIONS = None /\
  suggest_for_mood lib_turn "excited" 3 quoted = suggest_for_mood lib_turn "neutral" 3 quoted.
Proof.
  apply (suggest_for_mood_unknown lib_turn "excited" 3 quoted).
  simpl. intuition discriminate.
Defined.

(** *** The handler *)

Lemma plain_message_handled_witness :
  exists mood comp reasons scores tips quote r d records,
    detect_mood lib_turn (strip "I feel great today, why") quoted
      = (Return (mood, comp, reasons, scores), quoted) /\
    In mood ALL_MOODS /\
    stored lib_turn quoted = JObj d /\ recent_value d = JArr records /\
    Permutation (suggestions_of mood) tips /\
    handle_message lib_turn "I feel great today, why" quoted =
      (Return tt,
       mkWorld
         (Some (json_dumps lib_turn
            (JObj (dict_set "recent_moods"
                     (JArr (lastn 10 (records ++ [mood_record lib_turn mood (clock quoted)])))
                     d))))
         (quotes_file quoted) (clock quoted) r
         (outbox quoted ++ DetectedReply mood comp tips quote
            :: (if contains "why" (lower (strip "I feel great today, why"))
                then [Explanation reasons scores] else []))).
Proof.
  apply (plain_message_handled lib_turn "I feel great today, why" quoted turning_shuffles);
    vm_compute; reflexivity.
Defined.

(** The reply to that message, and the explanation that follows it. *)
Example plain_message_replies :
  outbox (snd (handle_message lib_turn "I feel great today, why" quoted)) =
    [ DetectedReply "happy" 0.6249
        [ "Share gratitude: write 2 lines to someone you appreciate.";
          "Queue a playlist and do a focused 15-minute sprint.";
          "Bank the energy: tackle a 10-minute task you've delayed." ]
        (JStr "Keep going.");
      Explanation
        [ KeywordReason "happy" ["great"];
          SentimentReason Positive 0.6249 "happy";
          PenaltyReason "stressed"; PenaltyReason "sad" ]
        [ ("stressed", (0 + -0.2)%float); ("tired", 0%float); ("sad", (0 + -0.2)%float);
          ("happy", (0 + 0.6 + 0.5 + 0)%float); ("neutral", 0%float) ] ].
Proof. vm_compute. reflexivity. Qed.

Lemma correction_replied_witness :
  exists tips quote r d records,
    stored lib_turn quoted = JObj d /\ recent_value d = JArr records /\
    Permutation (suggestions_of (lower (strip " Tired"))) tips /\
    handle_message lib_turn "  Correct: Tired " quoted =
      (Return tt,
       mkWorld
         (Some (json_dumps lib_turn
            (JObj (dict_set "recent_moods"
                     (JArr (lastn 10 (records
                        ++ [mood_record lib_turn (lower (strip " Tired")) (clock quoted)])))
                     d))))
         (quotes_file quoted) (clock quoted) r
         (outbox quoted ++ [CorrectedReply (lower (strip " Tired")) tips quote])).
Proof.
  apply (correction_replied lib_turn "  Correct: Tired " "Correct" " Tired" quoted
           turning_shuffles).
  - reflexivity.
  - reflexivity.
  - simpl. tauto.
  - vm_compute. reflexivity.
Defined.

Lemma save_keeps_state_witness :
  handle_message lib " SAVE" at_ten =
    (Return tt,
     push_outbox (Plain "Memory saved to disk.")
       (set_memory_file (Some (json_dumps lib (stored lib at_ten))) at_ten)) /\
  stored lib (snd (handle_message lib " SAVE" at_ten)) = stored lib at_ten /\
  memory_file (snd (handle_message lib " SAVE" (snd (handle_message lib " SAVE" at_ten))))
  = memory_file (snd (handle_message lib " SAVE" at_ten)).
Proof. apply (save_keeps_state lib " SAVE" at_ten reference_laws). reflexivity. Defined.

Lemma reset_forgets_witness :
  handle_message lib "Reset" named_at_ten =
    (Return tt,
     push_outbox (Plain "Cleared recent mood memory.")
       (set_memory_file (Some (json_dumps lib empty_memory)) named_at_ten)) /\
  stored lib (snd (handle_message lib "Reset" named_at_ten)) = empty_memory /\
  forall mood now,
    recent_mood_bias lib mood (set_clock now (snd (handle_message lib "Reset" named_at_ten)))
    = (Return 0%float, set_clock now (snd (handle_message lib "Reset" named_at_ten))).
Proof. apply (reset_forgets lib "Reset" named_at_ten reference_laws). reflexivity. Defined.

(** [morning] is a sound memory. *)
Lemma sound_at_ten : sound_memory lib at_ten.
Proof. split; vm_compute; [reflexivity|repeat constructor]. Qed.

Lemma handle_message_keeps_sound_witness :
  is_mood_memory (stored lib (snd (handle_message lib "I am so tired" at_ten))) = true /\
  List.length (recent_moods_of (stored lib (snd (handle_message lib "I am so tired" at_ten))))
  <= 10.
Proof.
  apply (handle_message_keeps_sound lib "I am so tired" at_ten reference_laws).
  exact sound_at_ten.
Defined.

Lemma handle_message_returns_witness :
  fst (handle_message lib_turn "why?" quoted) = Return tt /\
  exists new,
    outbox (snd (handle_message lib_turn "why?" quoted)) = outbox quoted ++ new /\
    List.length new =
      if is_command (strip "why?") then 1
      else if contains "why" (lower (strip "why?")) then 2 else 1.
Proof.
  apply (handle_message_returns lib_turn "why?" quoted turning_shuffles).
  vm_compute. reflexivity.
Defined.

(** [why?] is no command: it is classified, and explained. *)
Example why_with_a_question_mark :
  is_command (strip "why?") = false /\
  List.length (outbox (snd (handle_message lib_turn "why?" quoted))) = 2 /\
  outbox (snd (handle_message lib_turn "why" quoted)) = [Plain why_text].
Proof. repeat split; vm_compute; reflexivity. Qed.

Lemma session_runs_witness :
  fst (session lib three_messages fresh) = Return tt /\
  sound_memory lib (snd (session lib three_messages fresh)) /\
  exists replies,
    outbox (snd (session lib three_messages fresh))
    = outbox fresh ++ Plain welcome_text :: replies /\
    List.length three_messages <= List.length replies <= 2 * List.length three_messages.
Proof.
  apply (session_runs lib three_messages fresh reference_laws reference_shuffles).
  split; vm_compute; [reflexivity|repeat constructor].
Defined.

(** The same bland message twice within the hour: neutral the first time,
    stressed the second. *)
Example bland_twice :
  map (fun m => match m with
                | DetectedReply mood _ _ _ => mood
                | _ => EmptyString
                end)
      (outbox (snd (handle_all lib
                      [ ("ok", instant "2024-01-01T10:00:00");
                        ("ok", instant "2024-01-01T10:20:00");
                        ("ok", instant "2024-01-01T11:30:00") ] fresh)))
  = ["neutral"; "stressed"; "neutral"].
Proof. vm_compute. reflexivity. Qed.

Lemma handle_message_normalised_witness :
  handle_message lib (nbsp ++ "ReSeT " ++ em_space) at_ten
  = handle_message lib "reset" at_ten.
Proof.
  apply (handle_message_normalised lib (nbsp ++ "ReSeT " ++ em_space) "reset" at_ten);
    vm_compute; reflexivity.
Defined.

(** After [correct:] it is the argument that is lowercased, on its own: a
    capital sigma is final in the text and not in the argument, so two
    messages with the same lowercase text are answered differently. *)
Example sigma_after_correct :
  lower (strip ("correct:" ++ encode [0x3A3%N])) = lower (strip ("correct:" ++ encode [0x3C2%N]))
  /\ outbox (snd (handle_message lib ("correct:" ++ encode [0x3A3%N]) at_ten))
     = [Plain (unknown_mood_text (encode [0x3C3%N]))]
  /\ outbox (snd (handle_message lib ("correct:" ++ encode [0x3C2%N]) at_ten))
     = [Plain (unknown_mood_text (encode [0x3C2%N]))].
Proof. repeat split; vm_compute; reflexivity. Qed.

(** *** Remembering and the penalty *)

Lemma remembered_mood_penalised_witness :
  recent_mood_bias lib "tired"
    (set_clock (instant "2024-01-01T10:59:59") (snd (remember_mood lib "tired" at_ten)))
  = (Return (if (instant "2024-01-01T10:59:59" - clock at_ten <? timedelta_minutes 60)%Z
             then (-0.2)%float else 0%float),
     set_clock (instant "2024-01-01T10:59:59") (snd (remember_mood lib "tired" at_ten))).
Proof.
  apply (remembered_mood_penalised lib at_ten "tired" (instant "2024-01-01T10:59:59")
           reference_laws);
    vm_compute; reflexivity.
Defined.

(** One second later the hour is over. *)
Example remembered_mood_after_the_hour :
  fst (recent_mood_bias lib "tired"
         (set_clock (instant "2024-01-01T10:59:59") (snd (remember_mood lib "tired" at_ten))))
  = Return (-0.2)%float /\
  fst (recent_mood_bias lib "tired"
         (set_clock (instant "2024-01-01T11:00:00") (snd (remember_mood lib "tired" at_ten))))
  = Return 0%float.
Proof. split; vm_compute; reflexivity. Qed.

Lemma evicted_mood_forgotten_witness :
  fst ((remember_mood lib "tired" ;; remember_all lib ten_happy) at_ten) = Return tt /\
  recent_mood_bias lib "tired"
    (set_clock (instant "2024-01-01T10:11:00")
       (snd ((remember_mood lib "tired" ;; remember_all lib ten_happy) at_ten)))
  = (Return 0%float,
     set_clock (instant "2024-01-01T10:11:00")
       (snd ((remember_mood lib "tired" ;; remember_all lib ten_happy) at_ten))).
Proof.
  apply (evicted_mood_forgotten lib at_ten "tired" ten_happy (instant "2024-01-01T10:11:00")
           reference_laws).
  - vm_compute. reflexivity.
  - vm_compute. repeat constructor.
  - repeat constructor; discriminate.
Defined.

Lemma record_without_mood_raises_witness :
  exists e,
    (e = KeyError \/ e = TypeError) /\
    (forall mood,
       recent_mood_bias lib mood (world_at moodless "2024-01-01T10:00:00")
       = (Raise e, world_at moodless "2024-01-01T10:00:00")) /\
    (forall text,
       detect_mood lib text (world_at moodless "2024-01-01T10:00:00")
       = (Raise e, world_at moodless "2024-01-01T10:00:00")) /\
    (forall message,
       is_command (strip message) = false ->
       handle_message lib message (world_at moodless "2024-01-01T10:00:00")
       = (Raise e, world_at moodless "2024-01-01T10:00:00")).
Proof.
  apply (record_without_mood_raises lib (world_at moodless "2024-01-01T10:00:00")
           [("recent_moods",
             JArr [record "sad" "2024-01-01T09:15:00";
                   JObj [("ts", JStr "2024-01-01T09:40:00")]])]
           [record "sad" "2024-01-01T09:15:00"; JObj [("ts", JStr "2024-01-01T09:40:00")]]);
    vm_compute; reflexivity.
Defined.

(** *** The classifier *)

Lemma detect_mood_scores_bounded_witness :
  exists mood comp reasons scores,
    detect_mood lib "so happy and grateful" at_ten
      = (Return (mood, comp, reasons, scores), at_ten) /\
    dict_keys scores = ALL_MOODS /\
    (forall m, In m ALL_MOODS ->
       (-0.2 <=? score_of scores m)%float = true /\
       (score_of scores m <=? 1.1)%float = true) /\
    (0 <=? score_of scores mood)%float = true.
Proof.
  apply (detect_mood_scores_bounded lib "so happy and grateful" at_ten).
  vm_compute. reflexivity.
Defined.

(** No keyword occurs in [ok]. *)
Lemma no_keyword_in_ok (m : string) (kws : list string) (kw : string) :
  In (m, kws) MOOD_KEYWORDS -> In kw kws -> ~ occurs kw (lower "ok").
Proof.
  intros Hin Hkw Hocc. apply contains_spec in Hocc.
  assert (E : lower "ok" = "ok") by (vm_compute; reflexivity). rewrite E in Hocc.
  simpl in Hin. destruct Hin as [H|[H|[H|[H|[]]]]]; injection H as <- <-;
    simpl in Hkw; destruct Hkw as [<-|[<-|[<-|[<-|[<-|[]]]]]]; discriminate Hocc.
Qed.

Lemma bland_message_witness :
  exists mood reasons scores,
    detect_mood lib "ok"
      (set_clock (instant "2024-01-01T10:20:00") (snd (remember_mood lib "neutral" fresh)))
    = (Return (mood, compound lib (lower "ok"), reasons, scores),
       set_clock (instant "2024-01-01T10:20:00") (snd (remember_mood lib "neutral" fresh))) /\
    (recent_mood_bias lib "neutral"
       (set_clock (instant "2024-01-01T10:20:00") (snd (remember_mood lib "neutral" fresh)))
     = (Return 0%float,
        set_clock (instant "2024-01-01T10:20:00") (snd (remember_mood lib "neutral" fresh))) ->
     mood = "neutral" /\ score_of scores "neutral" = (0 + 0.2 + 0)%float) /\
    (recent_mood_bias lib "neutral"
       (set_clock (instant "2024-01-01T10:20:00") (snd (remember_mood lib "neutral" fresh)))
     = (Return (-0.2)%float,
        set_clock (instant "2024-01-01T10:20:00") (snd (remember_mood lib "neutral" fresh))) ->
     recent_mood_bias lib "stressed"
       (set_clock (instant "2024-01-01T10:20:00") (snd (remember_mood lib "neutral" fresh)))
     = (Return 0%float,
        set_clock (instant "2024-01-01T10:20:00") (snd (remember_mood lib "neutral" fresh))) ->
     mood = "stressed" /\
     score_of scores "stressed" = (0 + 0)%float /\
     (score_of scores "neutral" =? score_of scores "stressed")%float = true).
Proof.
  apply (bland_message lib "ok"
           (set_clock (instant "2024-01-01T10:20:00")
              (snd (remember_mood lib "neutral" fresh)))).
  - vm_compute. reflexivity.
  - exact no_keyword_in_ok.
  - repeat split.
Defined.

(** Twenty minutes after neutral was remembered, [ok] is classified
    stressed, with every score at 0.0. *)
Example bland_after_neutral :
  fst (detect_mood lib "ok"
         (set_clock (instant "2024-01-01T10:20:00") (snd (remember_mood lib "neutral" fresh))))
  = Return ("stressed", 0%float,
            [SentimentReason NeutralSentiment 0 "neutral"; PenaltyReason "neutral"],
            [("stressed", 0%float); ("tired", 0%float); ("sad", 0%float);
             ("happy", 0%float); ("neutral", (0 + 0.2 + -0.2)%float)]).
Proof. vm_compute. reflexivity. Qed.

Lemma detect_mood_reasons_witness :
  exists mood scores kind penalised,
    detect_mood lib "So sad and lonely, under pressure" at_ten =
      (Return (mood, compound lib (lower "So sad and lonely, under pressure"),
               keyword_reasons (lower "So sad and lonely, under pressure")
               ++ SentimentReason kind
                    (compound lib (lower "So sad and lonely, under pressure"))
                    (rule_mood kind)
               :: map PenaltyReason penalised,
               scores), at_ten) /\
    (forall m hits,
       In (KeywordReason m hits)
          (keyword_reasons (lower "So sad and lonely, under pressure")) <->
       exists kws, In (m, kws) MOOD_KEYWORDS /\
                   hits = keyword_hits (lower "So sad and lonely, under pressure") kws /\
                   hits <> []) /\
    (FloatOrder.not_nan (compound lib (lower "So sad and lonely, under pressure")) ->
     rule_condition kind (compound lib (lower "So sad and lonely, under pressure"))) /\
    (forall m,
       In m penalised <->
       In m ALL_MOODS /\ recent_mood_bias lib m at_ten = (Return (-0.2)%float, at_ten)).
Proof.
  apply (detect_mood_reasons lib "So sad and lonely, under pressure" at_ten).
  vm_compute. reflexivity.
Defined.

(** The reasons of that message. *)
Example reasons_of_a_message :
  fst (detect_mood lib "So sad and lonely, under pressure" at_ten)
  = Return ("stressed", (-0.4767)%float,
            [ KeywordReason "stressed" ["pressure"];
              KeywordReason "sad" ["lonely"; "sad"];
              SentimentReason SlightlyNegative (-0.4767) "stressed";
              PenaltyReason "stressed"; PenaltyReason "sad" ],
            [ ("stressed", (0 + 0.6 + 0.2 + -0.2)%float); ("tired", 0%float);
              ("sad", (0 + 0.6 + -0.2)%float); ("happy", 0%float); ("neutral", 0%float) ]).
Proof. vm_compute. reflexivity. Qed.

(** *** Which adjustment outweighs which *)

(** The keywords of tired only occur in [i hate being tired]. *)
Lemma tired_only (m : string) (kws : list string) (kw : string) :
  In (m, kws) MOOD_KEYWORDS -> m <> "tired" -> In kw kws ->
  ~ occurs kw (lower "I hate being tired").
Proof.
  intros Hin Hne Hkw Hocc. apply contains_spec in Hocc.
  assert (E : lower "I hate being tired" = "i hate being tired") by (vm_compute; reflexivity).
  rewrite E in Hocc.
  simpl in Hin. destruct Hin as [H|[H|[H|[H|[]]]]]; injection H as <- <-;
    try (now destruct Hne);
    simpl in Hkw; destruct Hkw as [<-|[<-|[<-|[<-|[<-|[]]]]]]; discriminate Hocc.
Qed.

Lemma single_keyword_wins_witness :
  exists reasons scores,
    detect_mood lib_turn "I hate being tired" quoted
    = (Return ("tired", compound lib_turn (lower "I hate being tired"), reasons, scores),
       quoted) /\
    forall o, In o ALL_MOODS -> o <> "tired" ->
      (score_of scores o <? score_of scores "tired")%float = true.
Proof.
  apply (single_keyword_wins lib_turn "I hate being tired" quoted "tired"
           ["sleepy"; "exhausted"; "fatigue"; "drained"; "tired"]).
  - vm_compute. reflexivity.
  - simpl. tauto.
  - exists "tired". split; [simpl; tauto|]. now exists "i hate being ", EmptyString.
  - exact tired_only.
  - vm_compute. reflexivity.
Defined.

(** The sentiment of that text gives 0.5 to sad; the keyword gives 0.6 to
    tired. *)
Example keyword_against_sentiment :
  fst (detect_mood lib_turn "I hate being tired" quoted)
  = Return ("tired", (-0.5719)%float,
            [ KeywordReason "tired" ["tired"];
              SentimentReason Negative (-0.5719) "sad";
              PenaltyReason "stressed"; PenaltyReason "sad" ],
            [ ("stressed", (0 + -0.2)%float); ("tired", (0 + 0.6 + 0)%float);
              ("sad", (0 + 0.5 + -0.2)%float); ("happy", 0%float); ("neutral", 0%float) ]).
Proof. vm_compute. reflexivity. Qed.

(** No keyword occurs in [i love this]. *)
Lemma no_keyword_in_love (m : string) (kws : list string) (kw : string) :
  In (m, kws) MOOD_KEYWORDS -> In kw kws -> ~ occurs kw (lower "I love this").
Proof.
  intros Hin Hkw Hocc. apply contains_spec in Hocc.
  assert (E : lower "I love this" = "i love this") by (vm_compute; reflexivity).
  rewrite E in Hocc.
  simpl in Hin. destruct Hin as [H|[H|[H|[H|[]]]]]; injection H as <- <-;
    simpl in Hkw; destruct Hkw as [<-|[<-|[<-|[<-|[<-|[]]]]]]; discriminate Hocc.
Qed.

Lemma strong_sentiment_decides_witness :
  exists reasons scores,
    detect_mood lib_turn "I love this"
      (set_clock (instant "2024-01-01T10:20:00") (snd (remember_mood lib_turn "happy" fresh)))
    = (Return (rule_mood Positive, compound lib_turn (lower "I love this"), reasons, scores),
       set_clock (instant "2024-01-01T10:20:00")
         (snd (remember_mood lib_turn "happy" fresh))) /\
    (0.3 <=? score_of scores (rule_mood Positive))%float = true.
Proof.
  apply (strong_sentiment_decides lib_turn "I love this"
           (set_clock (instant "2024-01-01T10:20:00")
              (snd (remember_mood lib_turn "happy" fresh)))
           Positive).
  - vm_compute. reflexivity.
  - exact no_keyword_in_love.
  - now left.
  - vm_compute. reflexivity.
Defined.

(** Happy was remembered 20 minutes before: it is penalised, and detected
    all the same. *)
Example love_after_happy :
  fst (detect_mood lib_turn "I love this"
         (set_clock (instant "2024-01-01T10:20:00")
            (snd (remember_mood lib_turn "happy" fresh))))
  = Return ("happy", 0.6369%float,
            [SentimentReason Positive 0.6369 "happy"; PenaltyReason "happy"],
            [ ("stressed", 0%float); ("tired", 0%float); ("sad", 0%float);
              ("happy", (0 + 0.5 + -0.2)%float); ("neutral", 0%float) ]).
Proof. vm_compute. reflexivity. Qed.

(** *** White space and letters outside ASCII *)

(** A no-break space after the mood is stripped like a blank: the mood is
    happy, and its record is appended to the one of sad. *)
Example correct_with_no_break_space :
  lower (strip (" happy" ++ nbsp)%string) = "happy" /\
  map (fun m => match m with
                | CorrectedReply mood _ _ => mood
                | _ => EmptyString
                end)
      (outbox (snd (handle_message lib ("correct: happy" ++ nbsp)%string after_sad)))
  = ["happy"] /\
  map (fun r => mood_is "happy" r)
      (recent_moods_of
         (stored lib (snd (handle_message lib ("correct: happy" ++ nbsp)%string after_sad))))
  = [false; true].
Proof. repeat split; vm_compute; reflexivity. Qed.

(** The rejection names the mood in lowercase, also outside ASCII: the
    capital letters of [ÉTÉ] are lowered. *)
Example unknown_mood_in_capitals :
  outbox (snd (handle_message lib ("correct: " ++ encode [0xC9; 0x54; 0xC9]%N)%string at_ten))
  = [Plain ("Unknown mood `" ++ encode [0xE9; 0x74; 0xE9]%N
            ++ "`. Use one of: stressed, tired, sad, happy, neutral")%string].
Proof. vm_compute. reflexivity. Qed.

(** A command between no-break spaces is the command: [reset] clears a
    memory on which detection would raise, and [why] gets the one answer. *)
Example command_in_no_break_spaces :
  is_command (strip (nbsp ++ "reset" ++ nbsp)%string) = true /\
  handle_message lib (nbsp ++ "reset" ++ nbsp)%string (world_at moodless "2024-01-01T10:00:00")
  = (Return tt,
     push_outbox (Plain "Cleared recent mood memory.")
       (set_memory_file (Some (json_dumps lib empty_memory))
          (world_at moodless "2024-01-01T10:00:00"))) /\
  outbox (snd (handle_message lib_turn (nbsp ++ "why" ++ nbsp)%string quoted)) = [Plain why_text].
Proof. repeat split; vm_compute; reflexivity. Qed.

(** [str.lower] and [str.strip] on a few texts. *)
Example lower_and_strip :
  lower (encode [0x130; 0x53; 0x54; 0x41; 0x4E; 0x42; 0x55; 0x4C]%N)
  = encode [0x69; 0x307; 0x73; 0x74; 0x61; 0x6E; 0x62; 0x75; 0x6C]%N /\
  lower (encode [0x391; 0x3A3; 0x20; 0x3A3; 0x3A3; 0x3A3]%N)
  = encode [0x3B1; 0x3C2; 0x20; 0x3C3; 0x3C3; 0x3C2]%N /\
  lower (encode [0x212A]%N) = "k" /\
  strip (encode [0x3000; 0x85; 0x61; 0x2009; 0x62; 0x1F; 0x2028]%N)
  = encode [0x61; 0x2009; 0x62]%N /\
  strip (encode [0x200B; 0x61]%N) = encode [0x200B; 0x61]%N.
Proof. repeat split; vm_compute; reflexivity. Qed.

End Examples.
